(** * Chunked file transfer: the two client/server pairs of the repository

    [first_task/] frames JSON messages behind a 4-byte length prefix and
    verifies the whole file only; [The-Multi-Client-Mayhem/] exchanges one
    message per [recv], verifies every chunk with MD5 and asks for
    retransmission.  Both are embedded below, function by function. *)

From Stdlib Require Import ZArith NArith List Ascii String Lia.
From Stdlib Require Init.Byte.
From stdpp Require Import base decidable countable option list list_numbers
  gmap sorting strings pretty.

Local Open Scope Z_scope.
Set Warnings "-register-all".

(** ** Python values *)

(** [bytes]: a sequence of 8-bit values. *)
Abbreviation byte := Init.Byte.byte.
Abbreviation bytes := (list Init.Byte.byte).

(** [str]: a sequence of Unicode code points. *)
Abbreviation pystr := (list N).

(** A source literal ['...'] as a [str]. *)
Definition py (s : string) : pystr :=
  N_of_ascii <$> list_ascii_of_string s.
Global Arguments py _%_string.

(** A source literal [b'...'] as [bytes]. *)
Definition pyb (s : string) : bytes := list_byte_of_string s.
Global Arguments pyb _%_string.

(** What [json.loads] can return, floating-point numbers apart. *)
Inductive json : Type :=
| JNull
| JBool (b : bool)
| JInt (z : Z)
| JStr (s : pystr)
| JArr (l : list json)
| JObj (kv : list (pystr * json)).

(** Keys of a [dict]: the hashable values among the above.  [True] and [1]
    (and [False] and [0]) are the same key, as in Python. *)
Inductive pykey : Type :=
| KNone
| KInt (z : Z)
| KStr (s : pystr).

Global Instance pykey_eq_dec : EqDecision pykey.
Proof. solve_decision. Defined.

Definition pykey_encode (k : pykey) : unit + (Z + pystr) :=
  match k with
  | KNone => inl tt
  | KInt z => inr (inl z)
  | KStr s => inr (inr s)
  end.

Definition pykey_decode (x : unit + (Z + pystr)) : pykey :=
  match x with
  | inl _ => KNone
  | inr (inl z) => KInt z
  | inr (inr s) => KStr s
  end.

Global Instance pykey_countable : Countable pykey.
Proof.
  apply (inj_countable' pykey_encode pykey_decode).
  intros []; reflexivity.
Defined.

(** [hash(v)] succeeds on scalars and raises [TypeError] on lists and
    dicts ([None] here). *)
Definition key_of_json (v : json) : option pykey :=
  match v with
  | JNull => Some KNone
  | JBool b => Some (KInt (if b then 1 else 0))
  | JInt z => Some (KInt z)
  | JStr s => Some (KStr s)
  | JArr _ | JObj _ => None
  end.

(** [d.get(k)] / [d[k]] on the dict built by [json.loads]: the last
    binding of a repeated key wins. *)
Fixpoint obj_lookup (k : pystr) (kv : list (pystr * json)) : option json :=
  match kv with
  | [] => None
  | (k', v) :: rest =>
      match obj_lookup k rest with
      | Some w => Some w
      | None => if decide (k' = k) then Some v else None
      end
  end.

(** [v == 'literal'] for a JSON value [v]. *)
Definition json_is_str (v : json) (s : pystr) : bool :=
  match v with
  | JStr t => bool_decide (t = s)
  | _ => false
  end.

(** [n == v] for an [int] [n] and a JSON value [v]. *)
Definition json_is_int (v : json) (n : Z) : bool :=
  match v with
  | JInt z => bool_decide (z = n)
  | JBool b => bool_decide ((if b then 1 else 0) = n)
  | _ => false
  end.

(** ** Library functions the programs call *)

(** [bytes.hex()]: two lowercase hexadecimal digits per byte. *)
Definition hex_digit (n : N) : N :=
  (if n <? 10 then 48 + n else 87 + n)%N.

Definition byte_hex (b : byte) : pystr :=
  let n := Byte.to_N b in [hex_digit (n / 16)%N; hex_digit (n mod 16)%N].

Definition bytes_hex (b : bytes) : pystr := b ≫= byte_hex.

(** Value of a hexadecimal digit, either case. *)
Definition hex_value (c : N) : option N :=
  (if (48 <=? c) && (c <=? 57) then Some (c - 48)
   else if (97 <=? c) && (c <=? 102) then Some (c - 87)
   else if (65 <=? c) && (c <=? 70) then Some (c - 55)
   else None)%N.

(** ASCII whitespace, which [bytes.fromhex] skips between bytes
    (Python 3.7 and later). *)
Definition is_space (c : N) : bool :=
  bool_decide (c ∈ [32; 9; 10; 11; 12; 13]%N).

(** [bytes.fromhex(s)]; [None] is [ValueError]. *)
Fixpoint bytes_fromhex (s : pystr) : option bytes :=
  match s with
  | [] => Some []
  | c :: rest =>
      if is_space c then bytes_fromhex rest
      else
        match rest with
        | [] => None
        | d :: rest' =>
            hi ← hex_value c;
            lo ← hex_value d;
            b ← Byte.of_N (16 * hi + lo);
            tl ← bytes_fromhex rest';
            Some (b :: tl)
        end
  end.

(** [b.decode('latin1')]: every byte is the code point of its value. *)
Definition latin1_decode (b : bytes) : pystr := Byte.to_N <$> b.

(** [s.encode('latin1')]; [None] is [UnicodeEncodeError] (a code point
    above 255). *)
Definition latin1_encode (s : pystr) : option bytes := mapM Byte.of_N s.

(** [s.encode()] is defined unless [s] holds a surrogate code point,
    for which UTF-8 has no encoding ([UnicodeEncodeError]). *)
Definition utf8_encodable (s : pystr) : bool :=
  forallb (fun c => negb ((55296 <=? c) && (c <=? 57343))%N) s.

(** [int.from_bytes(b, byteorder='big')]. *)
Definition int_from_bytes (b : bytes) : Z :=
  foldl (fun acc x => 256 * acc + Z.of_N (Byte.to_N x)) 0 b.

(** [n.to_bytes(4, byteorder='big')]; [None] is [OverflowError]. *)
Definition byte_of_Z (z : Z) : byte :=
  default Byte.x00 (Byte.of_N (Z.to_N (z mod 256))).

Definition int_to_bytes4 (n : Z) : option bytes :=
  if (0 <=? n) && (n <? 2 ^ 32)
  then Some [byte_of_Z (n / 2 ^ 24); byte_of_Z (n / 2 ^ 16);
             byte_of_Z (n / 2 ^ 8); byte_of_Z n]
  else None.

(** [f.read(size)] on the unread rest of a file opened ['rb']: the bytes
    read and what is left.  The size [-1] reads to the end; [None] is
    the [ValueError] of a size below [-1]. *)
Definition f_read (size : Z) (rest : bytes) : option (bytes * bytes) :=
  if size <? -1 then None
  else if size <? 0 then Some (rest, [])
  else Some (take (Z.to_nat size) rest, drop (Z.to_nat size) rest).

(** [data[i:j]] for [0 <= i]. *)
Definition slice (data : bytes) (i j : Z) : bytes :=
  take (Z.to_nat (j - i)) (drop (Z.to_nat i) data).

(** [range(0, stop, step)]; [None] is [ValueError] (zero step). *)
Definition range_step (stop step : Z) : option (list Z) :=
  if step =? 0 then None
  else if step <? 0 then Some []
  else Some ((fun k => k * step) <$> seqZ 0 ((stop + step - 1) / step)).

(** [s.startswith(prefix)]. *)
Fixpoint startswith (s prefix : pystr) : bool :=
  match prefix, s with
  | [], _ => true
  | _ :: _, [] => false
  | p :: prefix', c :: s' => bool_decide (c = p) && startswith s' prefix'
  end.

(** [s.split(sep)] for a one-character separator. *)
Fixpoint split_on (sep : N) (s : pystr) : list pystr :=
  match s with
  | [] => [[]]
  | c :: rest =>
      if bool_decide (c = sep) then [] :: split_on sep rest
      else
        match split_on sep rest with
        | [] => [[c]]
        | field :: fields => (c :: field) :: fields
        end
  end.

(** [l[i]] on a Python list: a negative index counts from the end;
    [None] is [IndexError]. *)
Definition list_item {A} (l : list A) (i : Z) : option A :=
  let j := if i <? 0 then i + Z.of_nat (length l) else i in
  if j <? 0 then None else l !! Z.to_nat j.

(** The whitespace that [int] accepts around a number: the ASCII
    characters of C's [isspace] and the white space of Unicode beyond
    ASCII. *)
Definition is_py_space (c : N) : bool :=
  bool_decide
    (c ∈ [9; 10; 11; 12; 13; 32; 133; 160; 5760; 8192; 8193; 8194; 8195;
       8196; 8197; 8198; 8199; 8200; 8201; 8202; 8232; 8233; 8239;
       8287; 12288]%N).

Definition strip (s : pystr) : pystr :=
  let drop_spaces := fix go (s : pystr) : pystr :=
    match s with
    | c :: rest => if is_py_space c then go rest else s
    | [] => []
    end in
  reverse (drop_spaces (reverse (drop_spaces s))).

(** The decimal digits that [int] accepts, those of Unicode 14.0 (the
    database of CPython 3.11): every script's digits are ten code
    points in a row, from its zero on.  The code points of the
    zeros: *)
Definition decimal_zeros : list N :=
  [48; 1632; 1776; 1984; 2406; 2534; 2662; 2790; 2918; 3046; 3174;
   3302; 3430; 3558; 3664; 3792; 3872; 4160; 4240; 6112; 6160; 6470;
   6608; 6784; 6800; 6992; 7088; 7232; 7248; 42528; 43216; 43264;
   43472; 43504; 43600; 44016; 65296; 66720; 68912; 69734; 69872;
   69942; 70096; 70384; 70736; 70864; 71248; 71360; 71472; 71904;
   72016; 72784; 73040; 73120; 92768; 92864; 93008; 120782; 120792;
   120802; 120812; 120822; 123200; 123632; 125264; 130032]%N.

(** The value of a decimal digit. *)
Fixpoint decimal_in (zeros : list N) (c : N) : option N :=
  match zeros with
  | [] => None
  | zero :: zeros' =>
      if ((zero <=? c) && (c <=? zero + 9))%N then Some (c - zero)%N
      else decimal_in zeros' c
  end.

Definition to_decimal (c : N) : option N := decimal_in decimal_zeros c.

(** Decimal digits, single underscores allowed between two digits. *)
Fixpoint digits_value (acc : Z) (after_digit : bool) (s : pystr) : option Z :=
  match s with
  | [] => if after_digit then Some acc else None
  | c :: rest =>
      if bool_decide (c = 95%N) then
        if after_digit then digits_value acc false rest else None
      else
        match to_decimal c with
        | Some digit => digits_value (10 * acc + Z.of_N digit) true rest
        | None => None
        end
  end.

(** [int(s)] for a [str]; [None] is [ValueError].  The interpreter's
    limit on the number of digits ([sys.set_int_max_str_digits]) is
    left out, here and in [str(n)]. *)
Definition py_int (s : pystr) : option Z :=
  match strip s with
  | 43%N :: rest => digits_value 0 false rest
  | 45%N :: rest => Z.opp <$> digits_value 0 false rest
  | t => digits_value 0 false t
  end.

(** [str(n)] for an [int]. *)
Definition py_str_int (n : Z) : pystr :=
  py (pretty n).

(** [json.dumps(v)] with its defaults ([ensure_ascii], separators
    [', '] and [': ']). *)
Definition hex4 (n : N) : pystr :=
  [hex_digit (n / 4096 mod 16); hex_digit (n / 256 mod 16);
   hex_digit (n / 16 mod 16); hex_digit (n mod 16)]%N.

Definition json_escape (c : N) : pystr :=
  (if bool_decide (c = 34) then [92; 34]
   else if bool_decide (c = 92) then [92; 92]
   else if bool_decide (c = 10) then [92; 110]
   else if bool_decide (c = 13) then [92; 114]
   else if bool_decide (c = 9) then [92; 116]
   else if bool_decide (c = 8) then [92; 98]
   else if bool_decide (c = 12) then [92; 102]
   else if (32 <=? c) && (c <=? 126) then [c]
   else if c <? 65536 then [92; 117] ++ hex4 c
   else [92; 117] ++ hex4 (55296 + (c - 65536) / 1024)
        ++ [92; 117] ++ hex4 (56320 + (c - 65536) mod 1024))%N.

Definition json_dumps_str (s : pystr) : pystr :=
  [34%N] ++ (s ≫= json_escape) ++ [34%N].

Fixpoint json_dumps (v : json) : pystr :=
  let items := fix go (l : list json) : pystr :=
    match l with
    | [] => []
    | [x] => json_dumps x
    | x :: rest => json_dumps x ++ py ", " ++ go rest
    end in
  let members := fix go (kv : list (pystr * json)) : pystr :=
    match kv with
    | [] => []
    | [(k, x)] => json_dumps_str k ++ py ": " ++ json_dumps x
    | (k, x) :: rest => json_dumps_str k ++ py ": " ++ json_dumps x ++ py ", " ++ go rest
    end in
  match v with
  | JNull => py "null"
  | JBool true => py "true"
  | JBool false => py "false"
  | JInt z => py_str_int z
  | JStr s => json_dumps_str s
  | JArr l => py "[" ++ items l ++ py "]"
  | JObj kv => py "{" ++ members kv ++ py "}"
  end.

(** The digests of [hashlib], as hexadecimal text. *)
Class Hashlib := {
  md5_hexdigest : bytes -> pystr;
  sha256_hexdigest : bytes -> pystr
}.

(** ** Ordering of dict keys, for [sorted] *)

Fixpoint lex_leb (s t : pystr) : bool :=
  match s, t with
  | [], _ => true
  | _ :: _, [] => false
  | a :: s', b :: t' =>
      if (a <? b)%N then true
      else if (b <? a)%N then false
      else lex_leb s' t'
  end.

(** [a <= b] on keys of one kind, as Python defines it.  Python does not
    compare keys of two kinds; ranking the kinds here only makes the
    relation total, and [sorted_keys] below raises before it would
    compare two kinds. *)
Definition pykey_leb (a b : pykey) : bool :=
  match a, b with
  | KNone, _ => true
  | KInt _, KNone => false
  | KInt x, KInt y => x <=? y
  | KInt _, KStr _ => true
  | KStr s, KStr t => lex_leb s t
  | KStr _, _ => false
  end.

Definition pykey_le (a b : pykey) : Prop := pykey_leb a b = true.

Global Instance pykey_le_dec a b : Decision (pykey_le a b).
Proof. unfold pykey_le. apply _. Defined.

Definition same_kind (a b : pykey) : bool :=
  match a, b with
  | KNone, KNone | KInt _, KInt _ | KStr _, KStr _ => true
  | _, _ => false
  end.

(** [sorted(d.keys())]; [None] is the [TypeError] of comparing keys of
    two kinds. *)
Definition sorted_keys (d : gmap pykey bytes) : option (list pykey) :=
  let ks := (map_to_list d).*1 in
  match ks with
  | [] => Some []
  | k :: _ =>
      if forallb (same_kind k) ks then Some (merge_sort pykey_le ks)
      else None
  end.

(** [b''.join(d[k] for k in ks)]. *)
Definition concat_at (d : gmap pykey bytes) (ks : list pykey) : bytes :=
  ks ≫= (fun k => default [] (d !! k)).

(** ** Exceptions *)

Inductive exn : Type :=
| ConnectionError
| JSONDecodeError
| UnicodeDecodeError
| UnicodeEncodeError
| AttributeError
| KeyError
| TypeError
| ValueError
| IndexError.

Global Instance exn_eq_dec : EqDecision exn.
Proof. solve_decision. Defined.

(** A computation that returns or raises. *)
Inductive result (A : Type) : Type :=
| Ok (a : A)
| Raise (e : exn).
Global Arguments Ok {A} a.
Global Arguments Raise {A} e.

Global Instance result_ret : MRet result := fun _ a => Ok a.
Global Instance result_bind : MBind result := fun _ _ f m =>
  match m with
  | Ok a => f a
  | Raise e => Raise e
  end.

(** Turn a library call's [None] into the exception it stands for. *)
Definition or_raise {A} (e : exn) (o : option A) : result A :=
  match o with
  | Some a => Ok a
  | None => Raise e
  end.

(** [v.get(k)]: [None] (JSON [null]) for an absent key; only a dict has
    [get]. *)
Definition dict_get (v : json) (k : pystr) : result json :=
  match v with
  | JObj kv => Ok (default JNull (obj_lookup k kv))
  | _ => Raise AttributeError
  end.

(** [v.get(k, '')]. *)
Definition dict_get_or_empty (v : json) (k : pystr) : result json :=
  match v with
  | JObj kv => Ok (default (JStr []) (obj_lookup k kv))
  | _ => Raise AttributeError
  end.

(** [v[k]] for a string [k]: [KeyError] on a dict without [k],
    [TypeError] on anything that is not a dict. *)
Definition dict_item (v : json) (k : pystr) : result json :=
  match v with
  | JObj kv => or_raise KeyError (obj_lookup k kv)
  | _ => Raise TypeError
  end.

(** [bytes.fromhex(v)]: [TypeError] unless [v] is a [str]. *)
Definition json_fromhex (v : json) : result bytes :=
  match v with
  | JStr s => or_raise ValueError (bytes_fromhex s)
  | _ => Raise TypeError
  end.

(** [d[k] = x] with a JSON value as key. *)
Definition dict_store (d : gmap pykey bytes) (k : json) (x : bytes)
  : result (gmap pykey bytes) :=
  key ← or_raise TypeError (key_of_json k);
  Ok (<[key := x]> d).

(** Truth value of a JSON value ([not v] is its negation). *)
Definition truthy (v : json) : bool :=
  match v with
  | JNull => false
  | JBool b => b
  | JInt z => negb (z =? 0)
  | JStr s => negb (bool_decide (s = []))
  | JArr l => negb (bool_decide (length l = 0%nat))
  | JObj kv => negb (bool_decide (length kv = 0%nat))
  end.

(** ** Sockets *)

(** A TCP connection as its reader sees it: the segments still to arrive,
    in order.  [recv(bufsize)] returns at most [bufsize] bytes of the
    first segment that holds any, and [b''] once the peer has closed and
    nothing is left. *)
Abbreviation socket := (list bytes).

Fixpoint recv (bufsize : Z) (s : socket) : bytes * socket :=
  match s with
  | [] => ([], [])
  | [] :: rest => recv bufsize rest
  | seg :: rest =>
      if decide (length seg ≤ Z.to_nat bufsize)%nat then (seg, rest)
      else (take (Z.to_nat bufsize) seg, drop (Z.to_nat bufsize) seg :: rest)
  end.

(** All the bytes still to arrive. *)
Definition pending (s : socket) : bytes := concat s.

(** The loop shared by [receive_response] and [receive_request]:
[[
    while bytes_received < msg_len:
        chunk = sock.recv(min(msg_len - bytes_received, 4096))
        if not chunk:
            raise ConnectionError(...)
        chunks.append(chunk)
        bytes_received += len(chunk)
]]
    Every round adds at least one byte, so [msg_len] rounds are enough;
    [None] is the fuel running out. *)
Fixpoint recv_exactly (fuel : nat) (msg_len bytes_received : Z)
    (chunks : list bytes) (s : socket) : option (result (list bytes) * socket) :=
  if bytes_received <? msg_len then
    match fuel with
    | O => None
    | S fuel' =>
        let '(chunk, s') := recv (Z.min (msg_len - bytes_received) 4096) s in
        match chunk with
        | [] => Some (Raise ConnectionError, s')
        | _ :: _ =>
            recv_exactly fuel' msg_len
              (bytes_received + Z.of_nat (length chunk)) (chunks ++ [chunk]) s'
        end
    end
  else Some (Ok chunks, s).

(** ** Hash objects *)

(** A [hashlib] hash object, as the bytes fed to it so far:
    [update(data)] appends, and [hexdigest()] is the digest of all of
    them. *)
Definition hash_update (fed data : bytes) : bytes := fed ++ data.

(** The loop of every [calculate_checksum] that reads a file, here
    with 8192 for [block]:
[[
    while True:
        data = f.read(8192)
        if not data:
            break
        sha256.update(data)
]]
    It leaves the hash object; [None] is the fuel running out (the
    block sizes of the sources are positive, so that [f.read] does
    not raise). *)
Fixpoint update_from_file (block : Z) (fuel : nat) (f : bytes) (sha256 : bytes)
  : option bytes :=
  match fuel with
  | O => None
  | S fuel' =>
      match f_read block f with
      | None => None
      | Some ([], _) => Some sha256
      | Some (data, f') =>
          update_from_file block fuel' f' (hash_update sha256 data)
      end
  end.

(** ** first_task/server.py *)

Module FirstTaskServer.

(** [split_file], reading from the file's bytes:
[[
    while True:
        chunk = f.read(self.chunk_size)
        if not chunk:
            break
        chunks.append((sequence_number, chunk))
        sequence_number += 1
]]
    [None] is the [ValueError] that [f.read] raises for a chunk size
    below [-1], or the fuel running out. *)
Fixpoint split_file_loop (fuel : nat) (chunk_size : Z) (f : bytes)
    (sequence_number : Z) (chunks : list (Z * bytes))
  : option (list (Z * bytes)) :=
  match fuel with
  | O => None
  | S fuel' =>
      match f_read chunk_size f with
      | None => None
      | Some ([], _) => Some chunks
      | Some (chunk, f') =>
          split_file_loop fuel' chunk_size f' (sequence_number + 1)
            (chunks ++ [(sequence_number, chunk)])
      end
  end.

(** One read per byte and one more always suffice, so that [None] is
    the [ValueError] of a chunk size below [-1] and nothing else (see
    [split_file_total] and [split_file_value_error]). *)
Definition split_file (chunk_size : Z) (file : bytes)
  : option (list (Z * bytes)) :=
  split_file_loop (S (length file)) chunk_size file 0 [].

(** [receive_request] up to [b''.join(chunks)]; the caller's
    [json.loads] follows.  The length prefix is taken from a single
    [recv(4)], whatever it returns. *)
Definition receive_request (client_socket : socket)
  : option (result bytes * socket) :=
  let '(msg_len_bytes, s) := recv 4 client_socket in
  let msg_len := int_from_bytes msg_len_bytes in
  '(r, s') ← recv_exactly (Z.to_nat msg_len) msg_len 0 [] s;
  Some (chunks ← r; Ok (concat chunks), s').

(** [send_response] after [json.dumps(...).encode('utf-8')]: the bytes
    put on the wire for a payload. *)
Definition send_response (response_json : bytes) : option bytes :=
  prefix ← int_to_bytes4 (Z.of_nat (length response_json));
  Some (prefix ++ response_json).

(** The faults [handle_upload] simulates on a chunk. *)
Inductive fault : Type :=
| NoFault
| PacketLoss
| BitFlips (flips : list (nat * N)).

(** [corrupted_data[pos] ^= mask] for every drawn [(pos, mask)]. *)
Definition flip (data : bytes) (pm : nat * N) : bytes :=
  match data !! pm.1 with
  | Some b =>
      <[pm.1 := default b (Byte.of_N (N.lxor (Byte.to_N b) pm.2))]> data
  | None => data
  end.

Definition chunk_msg (seq_num : Z) (chunk_data : bytes) : json :=
  JObj [(py "type", JStr (py "chunk"));
        (py "sequence", JInt seq_num);
        (py "data", JStr (bytes_hex chunk_data))].

Definition end_msg : json :=
  JObj [(py "type", JStr (py "end"));
        (py "message", JStr (py "File transmission complete"))].

(** An error response; the text that [str(e)] adds to ["Server error"]
    is left out. *)
Definition error_msg (message : pystr) : json :=
  JObj [(py "status", JStr (py "error")); (py "message", JStr message)].

(** The [for seq_num, chunk_data in chunks] loop: the messages sent. *)
Fixpoint send_chunks (chunks : list (Z * bytes)) (faults : list fault)
  : list json :=
  match chunks with
  | [] => []
  | (seq_num, chunk_data) :: rest =>
      match faults with
      | PacketLoss :: faults' => send_chunks rest faults'
      | BitFlips flips :: faults' =>
          chunk_msg seq_num (foldl flip chunk_data flips)
            :: send_chunks rest faults'
      | NoFault :: faults' => chunk_msg seq_num chunk_data :: send_chunks rest faults'
      | [] => chunk_msg seq_num chunk_data :: send_chunks rest []
      end
  end.

(** What one [handle_upload] leaves behind: the content of the
    temporary file, once [open(temp_file_path, 'wb')] has created it,
    and the messages sent. *)
Record upload_effects := {
  written : option bytes;
  responses : list json
}.

Section handle_upload.
Context `{Hashlib}.
(** [self.chunk_size], the order [random.shuffle] leaves the chunks
    in, and the faults drawn when [simulate_errors] is set. *)
Variable chunk_size : Z.
Variable shuffle : list (Z * bytes) -> list (Z * bytes).
Variable faults : list fault.

Definition handle_upload (request : json) : upload_effects :=
  let failed := fun (e : exn) (w : option bytes) =>
    {| written := w; responses := [error_msg (py "Server error")] |} in
  match dict_get_or_empty request (py "file_path"),
        dict_get_or_empty request (py "file_data") with
  | Ok file_path, Ok file_data =>
      if negb (truthy file_path) || negb (truthy file_data) then
        {| written := None;
           responses := [error_msg (py "Missing file path or file data")] |}
      else
        match file_path, file_data with
        | JStr _, JStr text =>
            match latin1_encode text with
            | None => failed UnicodeEncodeError (Some [])
            | Some content =>
                match split_file chunk_size content with
                | None => failed ValueError (Some content)
                | Some chunks =>
                    {| written := Some content;
                       responses :=
                         JObj [(py "status", JStr (py "ready"));
                               (py "checksum", JStr (sha256_hexdigest content));
                               (py "total_chunks", JInt (Z.of_nat (length chunks)));
                               (py "file_path", file_path)]
                         :: send_chunks (shuffle chunks) faults ++ [end_msg] |}
                end
            end
        | JStr _, _ => failed AttributeError (Some [])
        | _, _ => failed TypeError None
        end
  | Raise e, _ | _, Raise e => failed e None
  end.
End handle_upload.

(** [calculate_checksum], on the file's bytes.  One read per byte and
    one more always suffice (see [update_from_file_spec]). *)
Definition calculate_checksum `{Hashlib} (file : bytes) : option pystr :=
  sha256 ← update_from_file 8192 (S (length file)) file [];
  Some (sha256_hexdigest sha256).

(** [handle_client] is followed over the results of its
    [receive_request] calls: a request that parses to a JSON value, or
    one whose payload [json.loads] rejects.  When none is left the
    client has closed the connection: [recv] returns [b''], the length
    read from it is 0, and [json.loads] rejects the empty payload. *)
Inductive request : Type :=
| Request (v : json)
| Unparsable.

(** How [handle_client] leaves its loop: at the [break] of the
    ['disconnect'] command, or in one of its [except] clauses. *)
Inductive session_end : Type :=
| Disconnected
| Aborted (e : exn).

Section handle_client.
Context `{Hashlib}.
Variable chunk_size : Z.
Variable shuffle : list (Z * bytes) -> list (Z * bytes).
(** [str(command)], as the f-string of the answer to an unknown
    command formats it. *)
Variable str : json -> pystr.

(** [handle_client]: the responses sent and the way the loop ends.
    [faults] holds the faults drawn in each upload. *)
Fixpoint handle_client (requests : list request) (faults : list (list fault))
  : list json * session_end :=
  match requests with
  | [] | Unparsable :: _ => ([], Aborted JSONDecodeError)
  | Request request :: rest =>
      match dict_get request (py "command") with
      | Raise e => ([], Aborted e)
      | Ok command =>
          if json_is_str command (py "upload") then
            let effects :=
              handle_upload chunk_size shuffle (default [] (head faults)) request in
            let '(out, ended) := handle_client rest (tail faults) in
            (responses effects ++ out, ended)
          else if json_is_str command (py "disconnect") then ([], Disconnected)
          else
            let '(out, ended) := handle_client rest faults in
            (error_msg (py "Unknown command: " ++ str command) :: out, ended)
      end
  end.
End handle_client.

End FirstTaskServer.

(** ** first_task/client.py *)

Module FirstTaskClient.

(** [receive_response] up to [b''.join(chunks)]; the caller's
    [json.loads] follows. *)
Definition receive_response (sock : socket) : option (result bytes * socket) :=
  let '(msg_len_bytes, s) := recv 4 sock in
  match msg_len_bytes with
  | [] => Some (Raise ConnectionError, s)
  | _ :: _ =>
      let msg_len := int_from_bytes msg_len_bytes in
      '(r, s') ← recv_exactly (Z.to_nat msg_len) msg_len 0 [] s;
      Some (chunks ← r; Ok (concat chunks), s')
  end.

(** [send_request] after [json.dumps(...).encode('utf-8')]. *)
Definition send_request (request_json : bytes) : option bytes :=
  prefix ← int_to_bytes4 (Z.of_nat (length request_json));
  Some (prefix ++ request_json).

(** [upload_file] is followed over the results of its
    [receive_response] calls: a frame that parses to a JSON value, or
    one whose payload [json.loads] rejects.  When none is left the
    server has closed the connection. *)
Inductive response : Type :=
| Response (v : json)
| Unparsable.

Definition next_response (incoming : list response)
  : result json * list response :=
  match incoming with
  | [] => (Raise ConnectionError, [])
  | Response v :: rest => (Ok v, rest)
  | Unparsable :: rest => (Raise JSONDecodeError, rest)
  end.

Definition upload_request (file_path : pystr) (file_data : bytes) : json :=
  JObj [(py "command", JStr (py "upload"));
        (py "file_path", JStr file_path);
        (py "file_data", JStr (latin1_decode file_data))].

(** Lines 202-204, one chunk message:
[[
    seq_num = chunk_response.get('sequence')
    chunk_data = bytes.fromhex(chunk_response.get('data'))
    self.received_chunks[seq_num] = chunk_data
]]
*)
Definition store_chunk (received_chunks : gmap pykey bytes)
    (chunk_response : json) : result (gmap pykey bytes) :=
  seq_num ← dict_get chunk_response (py "sequence");
  data ← dict_get chunk_response (py "data");
  chunk_data ← json_fromhex data;
  dict_store received_chunks seq_num chunk_data.

(** The [while True] loop of [upload_file]: the dict as the loop leaves
    it, the exception that ended it ([None] when the ['end'] message
    did), and the responses not yet read. *)
Fixpoint receive_chunks (received_chunks : gmap pykey bytes)
    (incoming : list response)
  : gmap pykey bytes * option exn * list response :=
  match incoming with
  | [] => (received_chunks, Some ConnectionError, [])
  | Unparsable :: rest => (received_chunks, Some JSONDecodeError, rest)
  | Response chunk_response :: rest =>
      match dict_get chunk_response (py "type") with
      | Raise e => (received_chunks, Some e, rest)
      | Ok type =>
          if json_is_str type (py "end") then (received_chunks, None, rest)
          else if json_is_str type (py "chunk") then
            match store_chunk received_chunks chunk_response with
            | Raise e => (received_chunks, Some e, rest)
            | Ok received_chunks' => receive_chunks received_chunks' rest
            end
          else receive_chunks received_chunks rest
      end
  end.

(** [save_file]: the bytes written to the output file; [None] is the
    [TypeError] raised by [sorted]. *)
Definition save_file (received_chunks : gmap pykey bytes) : option bytes :=
  sorted ← sorted_keys received_chunks;
  Some (concat_at received_chunks sorted).

(** The client object's attributes that [upload_file] reads and
    writes. *)
Record client := {
  max_retries : Z;
  retry_count : Z;
  received_chunks : gmap pykey bytes
}.

(** The world around the client: upload requests sent so far, contents
    written to the output file so far (oldest first), and the responses
    still to come. *)
Record world := {
  sent : list json;
  saved : list bytes;
  incoming : list response
}.

Definition set_received (self : client) (d : gmap pykey bytes) : client :=
  {| max_retries := max_retries self; retry_count := retry_count self;
     received_chunks := d |}.

Definition count_retry (self : client) : client :=
  {| max_retries := max_retries self; retry_count := retry_count self + 1;
     received_chunks := received_chunks self |}.

Definition send (w : world) (request : json) : world :=
  {| sent := sent w ++ [request]; saved := saved w; incoming := incoming w |}.

Definition write (w : world) (content : bytes) : world :=
  {| sent := sent w; saved := saved w ++ [content]; incoming := incoming w |}.

Definition read_to (w : world) (rest : list response) : world :=
  {| sent := sent w; saved := saved w; incoming := rest |}.

(** How one pass through the body of [upload_file] ends: at a
    [return], or at one of the two places where it either calls itself
    again or gives up (after "Missing chunks", line 209, and after
    "Checksum verification failed", line 235). *)
Inductive pass_end : Type :=
| Return (value : bool)
| MissingChunks
| ChecksumFailed.

Section upload_file.
Context `{Hashlib}.
Variable file_path : pystr.
Variable file_data : bytes.

(** Lines 152-244 for an existing file, up to the first [return] or
    retry. *)
Definition upload_pass (self : client) (w : world)
  : pass_end * client * world :=
  let w := send w (upload_request file_path file_data) in
  let '(response, rest) := next_response (incoming w) in
  let w := read_to w rest in
  match response with
  | Ok (JObj kv) =>
      if negb (json_is_str (default JNull (obj_lookup (py "status") kv))
                 (py "ready"))
      then (Return false, self, w)
      else
        let server_checksum :=
          default JNull (obj_lookup (py "checksum") kv) in
        let total_chunks :=
          default JNull (obj_lookup (py "total_chunks") kv) in
        let '(received, raised, rest) := receive_chunks ∅ (incoming w) in
        let self := set_received self received in
        let w := read_to w rest in
        match raised with
        | Some _ => (Return false, self, w)
        | None =>
            if negb (json_is_int total_chunks (Z.of_nat (size received)))
            then
              (* [range(total_chunks)] in the list of missing numbers *)
              match total_chunks with
              | JInt _ | JBool _ => (MissingChunks, self, w)
              | _ => (Return false, self, w)
              end
            else
              match save_file received with
              | None => (Return false, self, w)
              | Some content =>
                  let w := write w content in
                  if json_is_str server_checksum (sha256_hexdigest content)
                  then (Return true, self, w)
                  else (ChecksumFailed, self, w)
              end
        end
  | Ok _ | Raise _ => (Return false, self, w)
  end.

(** [upload_file]: the value returned, the client object and the
    world afterwards.  Both retry sites read
[[
    if self.retry_count < self.max_retries:
        self.retry_count += 1
        return self.upload_file(file_path)
    else:
        return False
]]
    [fuel] bounds the depth of this recursion; [None] is the fuel
    running out, which it does not when [fuel] exceeds
    [max_retries - retry_count] (see [upload_file_returns]). *)
Fixpoint upload_file (fuel : nat) (self : client) (w : world)
  : option (bool * client * world) :=
  match fuel with
  | O => None
  | S fuel' =>
      let '(ended, self, w) := upload_pass self w in
      match ended with
      | Return value => Some (value, self, w)
      | MissingChunks | ChecksumFailed =>
          if retry_count self <? max_retries self
          then upload_file fuel' (count_retry self) w
          else Some (false, self, w)
      end
  end.
End upload_file.

(** [calculate_checksum], on the file's bytes. *)
Definition calculate_checksum `{Hashlib} (file : bytes) : option pystr :=
  sha256 ← update_from_file 8192 (S (length file)) file [];
  Some (sha256_hexdigest sha256).

(** [calculate_checksum_from_chunks]:
[[
    sha256 = hashlib.sha256()
    seq_nums = sorted(chunks.keys())
    for seq_num in seq_nums:
        sha256.update(chunks[seq_num])
    return sha256.hexdigest()
]]
    [None] is the [TypeError] raised by [sorted]. *)
Definition calculate_checksum_from_chunks `{Hashlib}
    (chunks : gmap pykey bytes) : option pystr :=
  seq_nums ← sorted_keys chunks;
  Some (sha256_hexdigest
          (foldl (fun sha256 seq_num =>
                    hash_update sha256 (default [] (chunks !! seq_num)))
             [] seq_nums)).

(** [calculate_checksum_from_memory]: the same over
    [self.received_chunks]. *)
Definition calculate_checksum_from_memory `{Hashlib} (self : client)
  : option pystr :=
  calculate_checksum_from_chunks (received_chunks self).

(** [disconnect] on a connected client: the request it sends. *)
Definition disconnect_request : json :=
  JObj [(py "command", JStr (py "disconnect"))].


End FirstTaskClient.

(** ** The-Multi-Client-Mayhem *)

(** Both programs treat what one [recv] returns as one message.  A
    message is described by its text and by what [json.loads] makes of
    that text ([None]: [JSONDecodeError]), or it is not UTF-8 at all.
    When no message is left the peer has closed and [recv] returns
    [b'']. *)
Inductive packet : Type :=
| Garbled
| Text (s : pystr) (loads : option json).

Definition closed : packet := Text [] None.

Definition pop (incoming : list packet) : packet * list packet :=
  match incoming with
  | [] => (closed, [])
  | p :: rest => (p, rest)
  end.

(** [data.decode()]. *)
Definition decode (p : packet) : result pystr :=
  match p with
  | Garbled => Raise UnicodeDecodeError
  | Text s _ => Ok s
  end.

(** [data == b'...'] against an ASCII literal. *)
Definition packet_is (p : packet) (literal : pystr) : bool :=
  match p with
  | Garbled => false
  | Text s _ => bool_decide (s = literal)
  end.

(** [int(data.decode())]. *)
Definition packet_int (p : packet) : result Z :=
  s ← decode p; or_raise ValueError (py_int s).

(** [json.loads(data.decode())]. *)
Definition packet_json (p : packet) : result json :=
  match p with
  | Garbled => Raise UnicodeDecodeError
  | Text _ None => Raise JSONDecodeError
  | Text _ (Some v) => Ok v
  end.

(** The message a peer receives when the other sends the value [v] as
    [json.dumps(v).encode()]. *)
Definition json_packet (v : json) : packet := Text (json_dumps v) (Some v).

Module MayhemServer.

Definition CHUNK_SIZE : Z := 1024.

(** Lines 68-70:
[[
    chunks = []
    for i in range(0, len(file_data), CHUNK_SIZE):
        chunks.append(file_data[i:i+CHUNK_SIZE])
]]
    for any value of the constant; [None] is the [ValueError] of a
    zero step. *)
Definition split_chunks (chunk_size : Z) (file_data : bytes)
  : option (list bytes) :=
  match range_step (Z.of_nat (length file_data)) chunk_size with
  | None => None
  | Some starts =>
      Some ((fun i => slice file_data i (i + chunk_size)) <$> starts)
  end.

(** The faults drawn for a chunk: [random.random() < ERROR_RATE] and
    then [random.choice(['drop', 'corrupt'])]. *)
Inductive fault : Type :=
| NoError
| Drop
| Corrupt.

(** What the server puts on the wire. *)
Inductive message : Type :=
| SendText (s : pystr)
| SendJson (v : json).

(** The bytes of a message, as text. *)
Definition message_text (m : message) : pystr :=
  match m with
  | SendText s => s
  | SendJson v => json_dumps v
  end.

(** The two sends of one chunk: [str(len(json_data))], then
    [json_data]. *)
Definition send_chunk (chunk_data : json) : list message :=
  [SendText (py_str_int (Z.of_nat (length (json_dumps chunk_data))));
   SendJson chunk_data].

Section handle_client.
Context `{Hashlib}.
Variable client_id : pystr.

Definition chunk_data (sequence : Z) (chunk : bytes) (checksum : pystr)
  : json :=
  JObj [(py "sequence", JInt sequence);
        (py "client_id", JStr client_id);
        (py "data", JStr (bytes_hex chunk));
        (py "chunk_checksum", JStr checksum)].

(** Lines 120-145, entered with the reply to a chunk:
[[
    while ack.startswith("RETRANSMIT"):
        seq_num = int(ack.split(":")[1])
        chunk_to_resend = chunks[seq_num]
        ...
        conn.sendall(str(len(json_data)).encode())
        conn.recv(1024)
        conn.sendall(json_data)
        ack = conn.recv(1024).decode()
]]
    The messages sent, the exception that ended the loop if one did,
    and the replies not yet read. *)
Fixpoint retransmit (chunks : list bytes) (ack : pystr)
    (incoming : list packet) {struct incoming}
  : list message * option exn * list packet :=
  if startswith ack (py "RETRANSMIT") then
    match list_item (split_on 58 ack) 1 with
    | None => ([], Some IndexError, incoming)
    | Some field =>
        match py_int field with
        | None => ([], Some ValueError, incoming)
        | Some seq_num =>
            match list_item chunks seq_num with
            | None => ([], Some IndexError, incoming)
            | Some chunk_to_resend =>
                let out :=
                  send_chunk (chunk_data seq_num chunk_to_resend
                                (md5_hexdigest chunk_to_resend)) in
                match incoming with
                | [] | [_] => (out, None, [])
                | _ :: Garbled :: rest => (out, Some UnicodeDecodeError, rest)
                | _ :: Text ack' _ :: rest =>
                    let '(out', raised, rest') := retransmit chunks ack' rest in
                    (out ++ out', raised, rest')
                end
            end
        end
    end
  else ([], None, incoming).

(** The [for i, chunk in enumerate(chunks)] loop from chunk [i] on. *)
Fixpoint send_chunks (chunks : list bytes) (i : Z) (todo : list bytes)
    (faults : list fault) (incoming : list packet)
  : list message * option exn * list packet :=
  match todo with
  | [] => ([], None, incoming)
  | chunk :: todo' =>
      match head faults with
      | Some Drop => send_chunks chunks (i + 1) todo' (tail faults) incoming
      | fault =>
          let checksum :=
            match fault with
            | Some Corrupt => py "corrupted_checksum"
            | _ => md5_hexdigest chunk
            end in
          let out := send_chunk (chunk_data i chunk checksum) in
          let '(_, incoming) := pop incoming in
          let '(ack, incoming) := pop incoming in
          match decode ack with
          | Raise e => (out, Some e, incoming)
          | Ok ack =>
              let '(out', raised, incoming) := retransmit chunks ack incoming in
              match raised with
              | Some e => (out ++ out', Some e, incoming)
              | None =>
                  let '(out'', raised, incoming) :=
                    send_chunks chunks (i + 1) todo' (tail faults) incoming in
                  (out ++ out' ++ out'', raised, incoming)
              end
          end
      end
  end.

(** [handle_client] once the file has arrived: the messages sent and
    how the session ended, [inl result] with the client's verdict
    read after [TRANSFER_COMPLETE], or [inr e] when an exception
    took the handler to its [except] clause. *)
Definition handle_client (file_data : bytes) (faults : list fault)
    (incoming : list packet) : list message * (pystr + exn) :=
  let checksum := SendText (sha256_hexdigest file_data) in
  match split_chunks CHUNK_SIZE file_data with
  | None => ([checksum], inr ValueError)
  | Some chunks =>
      let count := SendText (py_str_int (Z.of_nat (length chunks))) in
      let '(_, incoming) := pop incoming in
      let '(out, raised, incoming) := send_chunks chunks 0 chunks faults incoming in
      match raised with
      | Some e => ([checksum; count] ++ out, inr e)
      | None =>
          let sent := [checksum; count] ++ out
                      ++ [SendText (py "TRANSFER_COMPLETE")] in
          match decode (pop incoming).1 with
          | Raise e => (sent, inr e)
          | Ok result => (sent, inl result)
          end
      end
  end.
End handle_client.

(** Lines 43-52, the file's bytes as they arrive:
[[
    file_data = b''
    bytes_received = 0
    while bytes_received < file_size:
        chunk = conn.recv(min(CHUNK_SIZE, file_size - bytes_received))
        if not chunk:
            break
        file_data += chunk
        bytes_received += len(chunk)
]]
    Every round adds at least one byte, so [file_size] rounds are
    enough; [None] is the fuel running out. *)
Fixpoint receive_file (fuel : nat) (file_size bytes_received : Z)
    (file_data : bytes) (conn : socket) : option (bytes * socket) :=
  if bytes_received <? file_size then
    match fuel with
    | O => None
    | S fuel' =>
        let '(chunk, conn') :=
          recv (Z.min CHUNK_SIZE (file_size - bytes_received)) conn in
        match chunk with
        | [] => Some (file_data, conn')
        | _ :: _ =>
            receive_file fuel' file_size
              (bytes_received + Z.of_nat (length chunk)) (file_data ++ chunk)
              conn'
        end
    end
  else Some (file_data, conn).

End MayhemServer.

Module MayhemClient.

(** What the client puts on the wire, by the source's literals;
    [RETRANSMIT sequence] is [f"RETRANSMIT:{sequence}"]. *)
Inductive token : Type :=
| FileSize (file_size : Z)
| FileData (file_data : bytes)
| OK
| RETRANSMIT (sequence : json)
| RETRANSMIT_LAST
| ERROR
| SUCCESS
| CHECKSUM_MISMATCH.

(** The text of a token where [str(sequence)] is plain: an [int], a
    [str], [None] or a [bool]. *)
Definition token_text (t : token) : option pystr :=
  match t with
  | FileSize n => Some (py_str_int n)
  | FileData _ => None
  | OK => Some (py "OK")
  | RETRANSMIT (JInt z) => Some (py "RETRANSMIT:" ++ py_str_int z)
  | RETRANSMIT (JStr s) => Some (py "RETRANSMIT:" ++ s)
  | RETRANSMIT JNull => Some (py "RETRANSMIT:None")
  | RETRANSMIT (JBool true) => Some (py "RETRANSMIT:True")
  | RETRANSMIT (JBool false) => Some (py "RETRANSMIT:False")
  | RETRANSMIT _ => None
  | RETRANSMIT_LAST => Some (py "RETRANSMIT:LAST")
  | ERROR => Some (py "ERROR")
  | SUCCESS => Some (py "SUCCESS")
  | CHECKSUM_MISMATCH => Some (py "CHECKSUM_MISMATCH")
  end.

(** The receive loop's variables and surroundings: the dict [chunks],
    what has been sent, the messages still to come, and the number of
    loop iterations begun. *)
Record state := {
  chunks : gmap pykey bytes;
  sent : list token;
  incoming : list packet;
  iterations : nat
}.

Definition send (st : state) (t : token) : state :=
  {| chunks := chunks st; sent := sent st ++ [t];
     incoming := incoming st; iterations := iterations st |}.

Definition read_to (st : state) (rest : list packet) : state :=
  {| chunks := chunks st; sent := sent st;
     incoming := rest; iterations := iterations st |}.

Definition set_chunks (st : state) (d : gmap pykey bytes) : state :=
  {| chunks := d; sent := sent st;
     incoming := incoming st; iterations := iterations st |}.

Definition begin_iteration (st : state) : state :=
  {| chunks := chunks st; sent := sent st;
     incoming := incoming st; iterations := S (iterations st) |}.

(** How one pass through the loop body ends. *)
Inductive flow : Type :=
| Continue
| Break.

(** Lines 89-92: the fields of a chunk message. *)
Definition chunk_fields (chunk_info : json) : result (json * bytes * json) :=
  sequence ← dict_item chunk_info (py "sequence");
  client_id ← dict_item chunk_info (py "client_id");
  hex ← dict_item chunk_info (py "data");
  data ← json_fromhex hex;
  chunk_checksum ← dict_item chunk_info (py "chunk_checksum");
  Ok (sequence, data, chunk_checksum).

(** [client.recv(chunk_len)]: [ValueError] for a negative size,
    [b''] at once for size zero. *)
Definition recv_sized (chunk_len : Z) (incoming : list packet)
  : result (packet * list packet) :=
  if chunk_len <? 0 then Raise ValueError
  else if chunk_len =? 0 then Ok (closed, incoming)
  else Ok (pop incoming).

(** Whether [f"RETRANSMIT:{sequence}".encode()] succeeds.  The text of a
    [str] is the string itself, surrogates included; the text of any
    other value holds none, [repr] writes them as escapes.  [false] is
    [UnicodeEncodeError]. *)
Definition retransmit_encodes (sequence : json) : bool :=
  match sequence with
  | JStr s => utf8_encodable s
  | _ => true
  end.

Section upload_file.
Context `{Hashlib}.

(** Lines 94-111, a parsed chunk message.  A request for retransmission
    that cannot be encoded raises inside the outer [try]: [ERROR] is sent
    and the loop is left. *)
Definition on_chunk (num_chunks : Z) (chunk_info : json) (st : state)
  : state * flow :=
  match chunk_fields chunk_info with
  | Raise _ => (send st ERROR, Break)
  | Ok (sequence, data, chunk_checksum) =>
      if negb (json_is_str chunk_checksum (md5_hexdigest data)) then
        if retransmit_encodes sequence
        then (send st (RETRANSMIT sequence), Continue)
        else (send st ERROR, Break)
      else
        match key_of_json sequence with
        | None => (send st ERROR, Break)
        | Some key =>
            let st :=
              match chunks st !! key with
              | Some _ => st
              | None => set_chunks st (<[key := data]> (chunks st))
              end in
            let st := send st OK in
            if bool_decide (Z.of_nat (size (chunks st)) = num_chunks)
            then (st, Break)
            else (st, Continue)
        end
  end.

(** Lines 72-121, one pass through the body of
    [for _ in range(num_chunks * 2)]. *)
Definition receive_one (num_chunks : Z) (st : state) : state * flow :=
  let st := begin_iteration st in
  let '(chunk_len_data, rest) := pop (incoming st) in
  let st := read_to st rest in
  if packet_is chunk_len_data (py "TRANSFER_COMPLETE") then (st, Break)
  else
    match packet_int chunk_len_data with
    | Raise _ => (send st ERROR, Break)
    | Ok chunk_len =>
        let st := send st OK in
        match recv_sized chunk_len (incoming st) with
        | Raise _ => (send st ERROR, Break)
        | Ok (chunk_json_data, rest) =>
            let st := read_to st rest in
            match packet_json chunk_json_data with
            | Raise JSONDecodeError => (send st RETRANSMIT_LAST, Continue)
            | Raise _ => (send st ERROR, Break)
            | Ok chunk_info => on_chunk num_chunks chunk_info st
            end
        end
    end.

(** The loop, [n] iterations left. *)
Fixpoint receive_loop (n : nat) (num_chunks : Z) (st : state) : state :=
  match n with
  | O => st
  | S n' =>
      match receive_one num_chunks st with
      | (st', Break) => st'
      | (st', Continue) => receive_loop n' num_chunks st'
      end
  end.

(** Lines 127-130:
[[
    reassembled_data = b''
    for i in range(num_chunks):
        if i in chunks:
            reassembled_data += chunks[i]
]]
*)
Definition reassemble (num_chunks : Z) (chunks : gmap pykey bytes) : bytes :=
  seqZ 0 num_chunks ≫= (fun i => default [] (chunks !! KInt i)).

(** What [upload_file] leaves behind. *)
Record outcome := {
  final : state;
  saved : option bytes
}.

(** Lines 124-154, after the loop. *)
Definition finish (server_checksum : pystr) (num_chunks : Z) (st : state)
  : outcome :=
  let '(final_msg, rest) := pop (incoming st) in
  let st := read_to st rest in
  if packet_is final_msg (py "TRANSFER_COMPLETE") then
    let reassembled_data := reassemble num_chunks (chunks st) in
    if bool_decide (sha256_hexdigest reassembled_data = server_checksum)
    then {| final := send st SUCCESS; saved := Some reassembled_data |}
    else {| final := send st CHECKSUM_MISMATCH; saved := None |}
  else {| final := send st ERROR; saved := None |}.

(** [upload_file] for an existing file, once connected.  An
    exception outside the loop only prints and closes. *)
Definition upload_file (file_data : bytes) (incoming : list packet)
  : outcome :=
  let st := {| chunks := ∅;
               sent := [FileSize (Z.of_nat (length file_data))];
               incoming := incoming; iterations := 0 |} in
  let '(_, rest) := pop (MayhemClient.incoming st) in
  let st := send (read_to st rest) (FileData file_data) in
  let '(checksum_data, rest) := pop (MayhemClient.incoming st) in
  let st := read_to st rest in
  let stop := {| final := st; saved := None |} in
  match decode checksum_data with
  | Raise _ => stop
  | Ok server_checksum =>
      if negb (bool_decide (server_checksum = sha256_hexdigest file_data))
      then stop
      else
        let '(count_data, rest) := pop (MayhemClient.incoming st) in
        let st := read_to st rest in
        match packet_int count_data with
        | Raise _ => {| final := st; saved := None |}
        | Ok num_chunks =>
            let st := send st OK in
            let st := receive_loop (Z.to_nat (num_chunks * 2)) num_chunks st in
            finish server_checksum num_chunks st
        end
  end.
End upload_file.

End MayhemClient.

(** ** The-Multi-Client-Mayhem/test_file_transfer.py *)

Module MayhemTest.

(** [calculate_checksum]:
[[
    sha256 = hashlib.sha256()
    for block in iter(lambda: f.read(4096), b''):
        sha256.update(block)
    return sha256.hexdigest()
]]
*)
Definition calculate_checksum `{Hashlib} (file : bytes) : option pystr :=
  sha256 ← update_from_file 4096 (S (length file)) file [];
  Some (sha256_hexdigest sha256).

(** [verify_file_transfer], on the contents of the two files. *)
Definition verify_file_transfer `{Hashlib} (original received : bytes)
  : option bool :=
  original_checksum ← calculate_checksum original;
  received_checksum ← calculate_checksum received;
  Some (bool_decide (original_checksum = received_checksum)).

End MayhemTest.

(** ** demo.py *)

Module Demo.




End Demo.

(** * Vocabulary of the properties *)

(** ** Splits and buffers *)

(** The number of chunks of [len] bytes cut [n] at a time: the ceiling
    of [len / n]. *)
Definition chunk_count (len n : Z) : Z := (len + n - 1) / n.

(** The [i]-th chunk of [data] cut [n] at a time. *)
Definition nth_chunk (n : Z) (data : bytes) (i : Z) : bytes :=
  slice data (i * n) (i * n + n).


(** Chunks paired with their sequence numbers, as [enumerate] does. *)
Definition indexed (chunks : list bytes) : list (Z * bytes) :=
  imap (fun i c => (Z.of_nat i, c)) chunks.

(** [d] holds exactly [chunks], chunk [i] under the key [i]. *)
Definition holds (d : gmap pykey bytes) (chunks : list bytes) : Prop :=
  forall k x, d !! k = Some x <->
    exists i, k = KInt i /\ 0 <= i /\ chunks !! Z.to_nat i = Some x.

(** [d[seq] = data] for every pair, in list order. *)
Definition store_all (d : gmap pykey bytes) (items : list (Z * bytes))
  : gmap pykey bytes :=
  foldl (fun d item => <[KInt item.1 := item.2]> d) d items.


(** ** Messages as the peers exchange them *)



(** The payload [x] was taken from a chunk message among [packets]
    whose declared digest is the MD5 of [x] and whose sequence number
    is the key [key]. *)
Definition verified_in `{Hashlib} (packets : list packet) (key : pykey)
    (x : bytes) : Prop :=
  exists p chunk_info sequence,
    p ∈ packets /\ packet_json p = Ok chunk_info /\
    MayhemClient.chunk_fields chunk_info
    = Ok (sequence, x, JStr (md5_hexdigest x)) /\
    key_of_json sequence = Some key.

(** The tokens of the Mayhem receive loop, none of them a verdict. *)
Definition loop_token (t : MayhemClient.token) : Prop :=
  t <> MayhemClient.SUCCESS /\ t <> MayhemClient.CHECKSUM_MISMATCH.

(** The number of chunks the Mayhem server announces: the third message
    of a session, read with [int]. *)
Definition announced (incoming : list packet) : option Z :=
  match packet_int (pop (pop (pop incoming).2).2).1 with
  | Ok num_chunks => Some num_chunks
  | Raise _ => None
  end.

(** A field of the response that answers the first_task client's next
    upload request. *)
Definition declared (w : FirstTaskClient.world) (field : pystr) : json :=
  match FirstTaskClient.incoming w with
  | FirstTaskClient.Response (JObj kv) :: _ => default JNull (obj_lookup field kv)
  | _ => JNull
  end.

(** ** Concrete sessions *)

(** Digests that are their own input, in hexadecimal: a [hashlib]
    without collisions, for running the programs on concrete inputs. *)
Definition plain_digests : Hashlib :=
  {| md5_hexdigest := bytes_hex; sha256_hexdigest := bytes_hex |}.

(** A chunk message that declares the digest [corrupted_checksum], as
    the Mayhem server's fault injection forges it. *)
Definition forged_chunk (sequence : Z) (data : bytes) : json :=
  JObj [(py "sequence", JInt sequence);
        (py "client_id", JStr (py "c"));
        (py "data", JStr (bytes_hex data));
        (py "chunk_checksum", JStr (py "corrupted_checksum"))].

(** A chunk message with a digest that does not verify and, for its
    sequence, the string of the one surrogate U+D800, which [json.loads]
    returns for the escape [\ud800] between quotes. *)
Definition surrogate_chunk (data : bytes) : json :=
  JObj [(py "sequence", JStr [55296%N]);
        (py "client_id", JStr (py "c"));
        (py "data", JStr (bytes_hex data));
        (py "chunk_checksum", JStr (py "corrupted_checksum"))].

(** A message that carries the decimal numeral of [n]. *)
Definition numeral (n : Z) : packet := Text (py_str_int n) (Some (JInt n)).

(** A length announcement followed by a frame that is not JSON. *)
Definition garbage : list packet := [numeral 1; Text (py "x") None].

(** A Mayhem session for the two-byte file [ab] in which the server
    announces two chunks, sends the whole file as chunk 0, then three
    frames that are not JSON, then the end marker. *)
Definition whole_file_in_chunk_0 : list packet :=
  [Text (py "OK") None; numeral 6162; numeral 2;
   numeral 75;
   json_packet (MayhemServer.chunk_data
                  (py "c") 0 (pyb "ab") (bytes_hex (pyb "ab")))]
  ++ garbage ++ garbage ++ garbage
  ++ [Text (py "TRANSFER_COMPLETE") None].

(** A Mayhem session for the same file in which the one chunk announced
    arrives intact but holds other bytes. *)
Definition other_bytes_in_chunk_0 : list packet :=
  [Text (py "OK") None; numeral 6162; numeral 1;
   numeral 75;
   json_packet (MayhemServer.chunk_data
                  (py "c") 0 (pyb "ba") (bytes_hex (pyb "ba")));
   Text (py "TRANSFER_COMPLETE") None].



(** ** Sessions of first_task *)



(** The client's world once it has sent its request and read the
    responses up to [rest]. *)
Definition after_pass (w : FirstTaskClient.world) (request : json)
    (written : list bytes) (rest : list FirstTaskClient.response)
  : FirstTaskClient.world :=
  {| FirstTaskClient.sent := FirstTaskClient.sent w ++ [request];
     FirstTaskClient.saved := FirstTaskClient.saved w ++ written;
     FirstTaskClient.incoming := rest |}.

(** ** Sessions of The-Multi-Client-Mayhem *)

(** The message [m] of the server, as the client's [recv] returns it:
    a JSON message parses back to its value. *)
Definition carries (m : MayhemServer.message) (p : packet) : Prop :=
  match m with
  | MayhemServer.SendText s => exists loads, p = Text s loads
  | MayhemServer.SendJson v => p = json_packet v
  end.

(** The token [t] of the client, as the server's [recv] returns it. *)
Definition says (t : MayhemClient.token) (p : packet) : Prop :=
  exists s loads, MayhemClient.token_text t = Some s /\ p = Text s loads.

(** The chunk messages of a session in which the server draws the
    faults [faults] for the chunks [todo], numbered from [i], and the
    client answers each as it arrives: a chunk sent with the forged
    digest is sent again intact when the client asks for it. *)
Fixpoint chunk_messages `{Hashlib} (client_id : pystr) (i : Z)
    (todo : list bytes) (faults : list MayhemServer.fault)
  : list MayhemServer.message :=
  match todo with
  | [] => []
  | chunk :: todo' =>
      let intact :=
        MayhemServer.send_chunk
          (MayhemServer.chunk_data client_id i chunk (md5_hexdigest chunk)) in
      match head faults with
      | Some MayhemServer.Drop => []
      | Some MayhemServer.Corrupt =>
          MayhemServer.send_chunk
            (MayhemServer.chunk_data client_id i chunk (py "corrupted_checksum"))
          ++ intact
      | _ => intact
      end ++ chunk_messages client_id (i + 1) todo' (tail faults)
  end.

(** The client's replies in that session. *)
Fixpoint chunk_replies (i : Z) (todo : list bytes)
    (faults : list MayhemServer.fault) : list MayhemClient.token :=
  match todo with
  | [] => []
  | chunk :: todo' =>
      match head faults with
      | Some MayhemServer.Drop => []
      | Some MayhemServer.Corrupt =>
          [MayhemClient.OK; MayhemClient.RETRANSMIT (JInt i);
           MayhemClient.OK; MayhemClient.OK]
      | _ => [MayhemClient.OK; MayhemClient.OK]
      end ++ chunk_replies (i + 1) todo' (tail faults)
  end.

(** The chunks of that session that reach the client, with their
    numbers: all but the dropped ones. *)
Fixpoint kept (i : Z) (todo : list bytes) (faults : list MayhemServer.fault)
  : list (Z * bytes) :=
  match todo with
  | [] => []
  | chunk :: todo' =>
      match head faults with
      | Some MayhemServer.Drop => []
      | _ => [(i, chunk)]
      end ++ kept (i + 1) todo' (tail faults)
  end.

(** The passes through the client's loop that one chunk takes. *)
Definition passes (fault : option MayhemServer.fault) : nat :=
  match fault with
  | Some MayhemServer.Drop => 0
  | Some MayhemServer.Corrupt => 2
  | _ => 1
  end.

(** * Properties *)

(** ** Splitting a file into chunks *)

Lemma chunk_count_0 n : 0 < n -> chunk_count 0 n = 0.
Proof. intros Hn. unfold chunk_count. apply Z.div_small. lia. Qed.

Lemma chunk_count_nonneg len n : 0 < n -> 0 <= len -> 0 <= chunk_count len n.
Proof. intros. unfold chunk_count. apply Z.div_pos; lia. Qed.

Lemma chunk_count_short len n : 0 < len <= n -> chunk_count len n = 1.
Proof.
  intros. unfold chunk_count. symmetry.
  apply (Z.div_unique _ _ 1 (len - 1)); lia.
Qed.

Lemma chunk_count_step len n :
  0 < n -> n <= len -> chunk_count len n = 1 + chunk_count (len - n) n.
Proof.
  intros. unfold chunk_count.
  replace (len + n - 1) with ((len - n + n - 1) + 1 * n) by lia.
  rewrite Z.div_add by lia. lia.
Qed.

Lemma chunk_count_bounds len n :
  0 < n -> 0 <= len ->
  (chunk_count len n - 1) * n < len /\ len <= chunk_count len n * n.
Proof.
  intros Hn Hl. unfold chunk_count.
  pose proof (Z.div_mod (len + n - 1) n ltac:(lia)) as Hdm.
  pose proof (Z.mod_pos_bound (len + n - 1) n Hn) as Hmod.
  nia.
Qed.

Lemma chunk_count_pos len n : 0 < n -> 0 < len -> 0 < chunk_count len n.
Proof.
  intros Hn Hl. pose proof (chunk_count_bounds len n Hn ltac:(lia)). nia.
Qed.

Lemma slice_take_drop (data : bytes) (i n : Z) :
  0 <= i -> slice data i (i + n) = take (Z.to_nat n) (drop (Z.to_nat i) data).
Proof. intros. unfold slice. do 2 f_equal. lia. Qed.

Lemma seqZ_snoc m k : 0 <= k -> seqZ m (k + 1) = seqZ m k ++ [m + k].
Proof.
  intros. rewrite seqZ_app by lia. f_equal.
Qed.

Lemma seqZ_shift (k : Z) : 0 <= k -> seqZ 0 (1 + k) = 0 :: (Z.succ <$> seqZ 0 k).
Proof.
  intros. rewrite seqZ_cons by lia. f_equal.
  replace (Z.pred (1 + k)) with k by lia.
  rewrite (list_fmap_ext Z.succ (Z.add 1) (seqZ 0 k) ) by (intros; lia).
  rewrite fmap_add_seqZ. done.
Qed.

(** Joining the first [k] chunks gives the first [k * n] bytes. *)
Lemma concat_nth_chunks (data : bytes) (n : Z) (k : nat) :
  0 < n ->
  concat (nth_chunk n data <$> seqZ 0 (Z.of_nat k))
  = take (Z.to_nat (Z.of_nat k * n)) data.
Proof.
  intros Hn. induction k as [|k IH].
  - reflexivity.
  - replace (Z.of_nat (S k)) with (Z.of_nat k + 1) by lia.
    rewrite seqZ_snoc by lia. rewrite fmap_app, concat_app, IH. simpl.
    rewrite app_nil_r. unfold nth_chunk.
    rewrite slice_take_drop by lia.
    rewrite take_take_drop. f_equal. lia.
Qed.

Lemma concat_all_chunks (data : bytes) (n : Z) :
  0 < n ->
  concat (nth_chunk n data <$> seqZ 0 (chunk_count (Z.of_nat (length data)) n))
  = data.
Proof.
  intros Hn.
  pose proof (chunk_count_bounds (Z.of_nat (length data)) n Hn ltac:(lia)) as [_ Hb].
  pose proof (chunk_count_nonneg (Z.of_nat (length data)) n Hn ltac:(lia)) as Hc.
  rewrite <- (Z2Nat.id (chunk_count _ _)) by done.
  rewrite concat_nth_chunks by done.
  apply take_ge. rewrite Z2Nat.id by done. lia.
Qed.


Section first_task_split.
Import FirstTaskServer.

Lemma f_read_pos n (f : bytes) :
  0 < n -> f_read n f = Some (take (Z.to_nat n) f, drop (Z.to_nat n) f).
Proof. intros. unfold f_read. repeat case_match; (lia || done). Qed.

Lemma split_file_loop_spec n fuel : 0 < n ->
  forall (f : bytes) s acc, (length f < fuel)%nat ->
  split_file_loop fuel n f s acc
  = Some (acc ++ ((fun i => (s + i, nth_chunk n f i))
                    <$> seqZ 0 (chunk_count (Z.of_nat (length f)) n))).
Proof.
  intros Hn. induction fuel as [|fuel IH]; intros f s acc Hlen; [lia|].
  cbn [split_file_loop]. rewrite f_read_pos by done.
  destruct f as [|b f].
  - rewrite take_nil. simpl. rewrite chunk_count_0 by done.
    rewrite seqZ_nil by lia. simpl. by rewrite app_nil_r.
  - destruct (take (Z.to_nat n) (b :: f)) as [|c cs] eqn:Htake.
    { apply (f_equal length) in Htake. rewrite length_take in Htake.
      simpl in Htake. lia. }
    rewrite <- Htake. clear c cs Htake.
    rewrite IH by (rewrite length_drop; simpl in *; lia).
    f_equal. rewrite <- app_assoc. f_equal. simpl.
    set (l := b :: f) in *.
    assert (Hl : 0 < Z.of_nat (length l)) by (subst l; simpl; lia).
    destruct (decide (n <= Z.of_nat (length l))) as [Hge|Hlt].
    + rewrite (chunk_count_step (Z.of_nat (length l))) by lia.
      rewrite seqZ_shift
        by (apply chunk_count_nonneg; lia).
      simpl. rewrite Z.add_0_r. f_equal.
      * f_equal. unfold nth_chunk. rewrite slice_take_drop by lia. done.
      * rewrite length_drop.
        replace (Z.of_nat (length l - Z.to_nat n)) with (Z.of_nat (length l) - n) by lia.
        rewrite <- list_fmap_compose. apply list_fmap_ext.
        intros i x Hx. apply lookup_seqZ in Hx as [-> Hi]. simpl.
        f_equal; [lia|]. unfold nth_chunk.
        rewrite !slice_take_drop by lia. rewrite drop_drop. do 2 f_equal. lia.
    + rewrite (chunk_count_short (Z.of_nat (length l))) by lia.
      rewrite length_drop.
      replace (length l - Z.to_nat n)%nat with 0%nat by lia.
      rewrite chunk_count_0 by done. rewrite (seqZ_nil 0 0) by lia.
      rewrite seqZ_cons by lia. rewrite seqZ_nil by lia. simpl.
      rewrite Z.add_0_r. do 2 f_equal. unfold nth_chunk.
      rewrite slice_take_drop by lia. done.
Qed.

(** [split_file] as a closed form, for a positive chunk size. *)
Lemma split_file_spec n (file : bytes) : 0 < n ->
  split_file n file
  = Some ((fun i => (i, nth_chunk n file i))
            <$> seqZ 0 (chunk_count (Z.of_nat (length file)) n)).
Proof.
  intros Hn. unfold split_file.
  rewrite split_file_loop_spec by (done || lia). done.
Qed.

(** [split_file] returns for every chunk size from [-1] on: the fuel
    given never runs out. *)
Lemma split_file_total n (file : bytes) :
  -1 <= n -> is_Some (split_file n file).
Proof.
  intros Hsize. destruct (decide (0 < n)) as [Hn|Hn].
  { rewrite split_file_spec by done. eauto. }
  unfold split_file. cbn [split_file_loop]. unfold f_read.
  destruct (Z.ltb_spec n (-1)) as [|_]; [lia|].
  destruct (n <? 0) eqn:Hneg.
  - destruct file as [|b f]; [eauto|].
    cbn [length split_file_loop]. unfold f_read.
    destruct (Z.ltb_spec n (-1)) as [|_]; [lia|]. rewrite Hneg. eauto.
  - assert (n = 0) as -> by lia. simpl. eauto.
Qed.

(** Below [-1] the first [f.read] raises. *)
Lemma split_file_value_error n (file : bytes) :
  n < -1 -> split_file n file = None.
Proof.
  intros Hsize. unfold split_file. cbn [split_file_loop]. unfold f_read.
  by destruct (Z.ltb_spec n (-1)) as [_|]; [|lia].
Qed.
End first_task_split.

Lemma split_chunks_spec n (file_data : bytes) : 0 < n ->
  MayhemServer.split_chunks n file_data
  = Some (nth_chunk n file_data
            <$> seqZ 0 (chunk_count (Z.of_nat (length file_data)) n)).
Proof.
  intros Hn. unfold MayhemServer.split_chunks, range_step.
  destruct (n =? 0) eqn:E0; [lia|]. destruct (n <? 0) eqn:E1; [lia|].
  f_equal. rewrite <- list_fmap_compose. apply list_fmap_ext.
  intros i x Hx. simpl. unfold nth_chunk. done.
Qed.


Lemma indexed_lookup chunks (i : nat) :
  indexed chunks !! i = (fun c => (Z.of_nat i, c)) <$> chunks !! i.
Proof. unfold indexed. by rewrite list_lookup_imap. Qed.

Lemma indexed_fst chunks :
  (indexed chunks).*1 = seqZ 0 (Z.of_nat (length chunks)).
Proof.
  apply list_eq. intros i. rewrite list_lookup_fmap, indexed_lookup.
  destruct (chunks !! i) as [c|] eqn:Hc; simpl.
  - symmetry. apply lookup_seqZ. apply lookup_lt_Some in Hc. lia.
  - symmetry. apply lookup_seqZ_ge. apply lookup_ge_None in Hc. lia.
Qed.


Lemma elem_of_indexed chunks (i : Z) (c : bytes) :
  (i, c) ∈ indexed chunks <-> 0 <= i /\ chunks !! Z.to_nat i = Some c.
Proof.
  rewrite list_elem_of_lookup. split.
  - intros [j Hj]. rewrite indexed_lookup in Hj.
    destruct (chunks !! j) as [c'|] eqn:Hc; simplify_eq/=.
    rewrite Nat2Z.id. split; [lia | done].
  - intros [Hi Hc]. exists (Z.to_nat i). rewrite indexed_lookup, Hc. simpl.
    by rewrite Z2Nat.id.
Qed.


(** ** The reassembly buffer *)

Lemma store_all_lookup items : NoDup (items.*1) ->
  forall d k x,
  store_all d items !! k = Some x <->
    (exists i, k = KInt i /\ (i, x) ∈ items) \/
    (d !! k = Some x /\ forall i, k = KInt i -> i ∉ items.*1).
Proof.
  induction items as [|[j c] items IH]; intros Hnd d k x; simpl.
  - split.
    + intros Hk. right. split; [done|]. intros i _. apply not_elem_of_nil.
    + intros [(i & _ & Hi)|[Hk _]]; [by apply elem_of_nil in Hi | done].
  - apply NoDup_cons in Hnd as [Hj Hnd]. rewrite (IH Hnd). clear IH.
    split.
    + intros [(i & -> & Hi)|[Hk Hfresh]].
      * left. exists i. split; [done|]. by apply elem_of_cons; right.
      * destruct (decide (k = KInt j)) as [->|Hne].
        -- rewrite lookup_insert_eq in Hk. injection Hk as <-.
           left. exists j. split; [done|]. apply elem_of_cons. by left.
        -- rewrite lookup_insert_ne in Hk by done. right. split; [done|].
           intros i ->. apply not_elem_of_cons. split; [congruence|].
           by apply Hfresh.
    + intros [(i & -> & Hi)|[Hk Hfresh]].
      * apply elem_of_cons in Hi as [Hi|Hi].
        -- injection Hi as -> ->. right. split; [by rewrite lookup_insert_eq|].
           intros i Hi. by injection Hi as ->.
        -- left. by exists i.
      * right. split.
        -- rewrite lookup_insert_ne; [done|]. intros <-.
           apply (Hfresh j eq_refl). apply elem_of_cons. by left.
        -- intros i ->. specialize (Hfresh i eq_refl).
           apply not_elem_of_cons in Hfresh. tauto.
Qed.

Lemma store_all_holds items chunks :
  items ≡ₚ indexed chunks -> holds (store_all ∅ items) chunks.
Proof.
  intros Hperm k x. rewrite store_all_lookup.
  - split.
    + intros [(i & -> & Hi)|[Hk _]]; [|by rewrite lookup_empty in Hk].
      rewrite Hperm in Hi. apply elem_of_indexed in Hi. by exists i.
    + intros (i & -> & Hi). left. exists i. split; [done|].
      rewrite Hperm. by apply elem_of_indexed.
  - rewrite Hperm, indexed_fst. apply NoDup_seqZ.
Qed.

Lemma holds_lookup d chunks (i : nat) :
  holds d chunks -> d !! KInt (Z.of_nat i) = chunks !! i.
Proof.
  intros Hd. apply option_eq. intros x. rewrite (Hd _ x). split.
  - intros (j & Hj & _ & Hx). injection Hj as <-. by rewrite Nat2Z.id in Hx.
  - intros Hx. exists (Z.of_nat i). rewrite Nat2Z.id. split; [done|]. split; [lia|done].
Qed.

(** Reading the keys [0 .. len-1] in order gives the chunks joined. *)
Lemma holds_concat d chunks :
  holds d chunks ->
  seqZ 0 (Z.of_nat (length chunks)) ≫= (fun i => default [] (d !! KInt i))
  = concat chunks.
Proof.
  intros Hd. revert d Hd.
  induction chunks as [|c chunks IH] using rev_ind; intros d Hd; [done|].
  rewrite length_app. simpl.
  replace (Z.of_nat (length chunks + 1)) with (Z.of_nat (length chunks) + 1) by lia.
  rewrite seqZ_snoc by lia. rewrite bind_app, concat_app. simpl.
  rewrite !app_nil_r, Z.add_0_l.
  rewrite (holds_lookup _ _ _ Hd).
  rewrite lookup_app_r by lia. rewrite Nat.sub_diag. simpl. f_equal.
  rewrite <- (IH (store_all ∅ (indexed chunks)))
    by (by apply store_all_holds).
  apply Forall_bind_ext, Forall_forall. intros i Hi.
  apply elem_of_seqZ in Hi.
  rewrite <- (Z2Nat.id i) by lia.
  rewrite (holds_lookup _ _ _ Hd).
  rewrite (holds_lookup _ _ _ (store_all_holds _ _ (reflexivity _))).
  rewrite lookup_app_l by lia. done.
Qed.

(** ** The order [sorted] uses *)

Lemma lex_leb_refl s : lex_leb s s = true.
Proof. induction s as [|a s IH]; [done|]. simpl. by rewrite N.ltb_irrefl. Qed.

Lemma lex_leb_total s t : lex_leb s t = true \/ lex_leb t s = true.
Proof.
  revert t. induction s as [|a s IH]; intros [|b t]; simpl; auto.
  destruct (a <? b)%N eqn:Hab, (b <? a)%N eqn:Hba; auto.
Qed.

Lemma lex_leb_antisym s t : lex_leb s t = true -> lex_leb t s = true -> s = t.
Proof.
  revert t. induction s as [|a s IH]; intros [|b t]; simpl; try done.
  destruct (a <? b)%N eqn:Hab, (b <? a)%N eqn:Hba; try done.
  - apply N.ltb_lt in Hab, Hba. lia.
  - intros Hst Hts. apply N.ltb_ge in Hab, Hba.
    f_equal; [lia | by apply IH].
Qed.

Lemma lex_leb_trans s t u :
  lex_leb s t = true -> lex_leb t u = true -> lex_leb s u = true.
Proof.
  revert t u. induction s as [|a s IH]; intros [|b t] [|c u]; simpl; try done.
  destruct (a <? b)%N eqn:Hab, (b <? a)%N eqn:Hba,
           (b <? c)%N eqn:Hbc, (c <? b)%N eqn:Hcb,
           (a <? c)%N eqn:Hac, (c <? a)%N eqn:Hca; try done;
    rewrite ?N.ltb_lt, ?N.ltb_ge in *; try lia.
  apply IH.
Qed.

Global Instance pykey_le_total : Total pykey_le.
Proof.
  intros [| x | s] [| y | t]; unfold pykey_le; simpl; auto.
  - destruct (Z.leb_spec x y), (Z.leb_spec y x); auto; lia.
  - apply lex_leb_total.
Qed.

Global Instance pykey_le_trans : Transitive pykey_le.
Proof.
  intros [| x | s] [| y | t] [| z | u]; unfold pykey_le; simpl; try done.
  - rewrite !Z.leb_le. lia.
  - apply lex_leb_trans.
Qed.

Global Instance pykey_le_antisym : AntiSymm (=) pykey_le.
Proof.
  intros [| x | s] [| y | t]; unfold pykey_le; simpl; try done.
  - rewrite !Z.leb_le. intros. f_equal. lia.
  - intros. f_equal. by apply lex_leb_antisym.
Qed.





(** The Mayhem client's loop over [range(num_chunks)] on a complete
    buffer. *)
Lemma reassemble_holds d chunks :
  holds d chunks ->
  MayhemClient.reassemble (Z.of_nat (length chunks)) d = concat chunks.
Proof. apply holds_concat. Qed.

(** ** Hexadecimal text *)

Lemma bytes_fromhex_hex (b : bytes) : bytes_fromhex (bytes_hex b) = Some b.
Proof.
  induction b as [|x b IH]; [done|].
  change (bytes_hex (x :: b)) with (byte_hex x ++ bytes_hex b).
  assert (Hx : forall rest,
    bytes_fromhex (byte_hex x ++ rest) = (tl ← bytes_fromhex rest; Some (x :: tl))).
  { intros rest. destruct x; reflexivity. }
  rewrite Hx, IH. done.
Qed.

Lemma json_fromhex_hex (b : bytes) : json_fromhex (JStr (bytes_hex b)) = Ok b.
Proof. simpl. by rewrite bytes_fromhex_hex. Qed.

(** ** Chunk messages on the receiving side *)

Section first_task_receive.
Import FirstTaskServer FirstTaskClient.

Lemma store_chunk_msg d (i : Z) (c : bytes) :
  store_chunk d (chunk_msg i c) = Ok (<[KInt i := c]> d).
Proof.
  unfold store_chunk.
  change (dict_get (chunk_msg i c) (py "sequence")) with (Ok (JInt i)).
  change (dict_get (chunk_msg i c) (py "data")) with (Ok (JStr (bytes_hex c))).
  simpl. rewrite bytes_fromhex_hex. reflexivity.
Qed.

End first_task_receive.

Section mayhem_receive.
Context `{Hashlib}.
Import MayhemServer MayhemClient.

Lemma chunk_fields_chunk_data client_id (i : Z) (c : bytes) checksum :
  chunk_fields (chunk_data client_id i c checksum)
  = Ok (JInt i, c, JStr checksum).
Proof.
  unfold chunk_fields.
  change (dict_item (chunk_data client_id i c checksum) (py "sequence"))
    with (Ok (JInt i)).
  change (dict_item (chunk_data client_id i c checksum) (py "client_id"))
    with (Ok (JStr client_id)).
  change (dict_item (chunk_data client_id i c checksum) (py "data"))
    with (Ok (JStr (bytes_hex c))).
  change (dict_item (chunk_data client_id i c checksum) (py "chunk_checksum"))
    with (Ok (JStr checksum)).
  simpl. rewrite bytes_fromhex_hex. reflexivity.
Qed.




End mayhem_receive.

(** ** Claims on splitting and reassembly *)





(** ** The Mayhem receiver, one message at a time *)

Section mayhem_on_chunk.
Context `{Hashlib}.
Import MayhemClient.

Lemma json_is_str_true v s : json_is_str v s = true <-> v = JStr s.
Proof.
  destruct v; simpl; try (split; [done | congruence]).
  rewrite bool_decide_eq_true. split; congruence.
Qed.

(** A digest that does not verify: [RETRANSMIT:<sequence>] is sent,
    nothing else changes and the loop goes on; where that request has no
    encoding, [ERROR] is sent and the loop is left. *)
Lemma on_chunk_mismatch num chunk_info st sequence data chunk_checksum :
  chunk_fields chunk_info = Ok (sequence, data, chunk_checksum) ->
  chunk_checksum <> JStr (md5_hexdigest data) ->
  on_chunk num chunk_info st
  = (if retransmit_encodes sequence
     then (send st (RETRANSMIT sequence), Continue)
     else (send st ERROR, Break)).
Proof.
  intros Hf Hne. unfold on_chunk. rewrite Hf.
  destruct (json_is_str chunk_checksum (md5_hexdigest data)) eqn:E; [|done].
  by apply json_is_str_true in E.
Qed.

(** A digest that verifies: the payload is stored unless its key is
    taken, and [OK] is sent either way. *)
Lemma on_chunk_verified num chunk_info st sequence data key :
  chunk_fields chunk_info = Ok (sequence, data, JStr (md5_hexdigest data)) ->
  key_of_json sequence = Some key ->
  let st' := (on_chunk num chunk_info st).1 in
  chunks st' = match chunks st !! key with
               | Some _ => chunks st
               | None => <[key := data]> (chunks st)
               end /\
  sent st' = sent st ++ [OK] /\ incoming st' = incoming st.
Proof.
  intros Hf Hk. unfold on_chunk. rewrite Hf, Hk. simpl.
  rewrite bool_decide_eq_true_2 by done. simpl.
  destruct (chunks st !! key); case_bool_decide; done.
Qed.

(** Whatever the message, [on_chunk] touches the buffer only to add a
    verified payload under a key that was free. *)
Lemma on_chunk_buffer num chunk_info st :
  let st' := (on_chunk num chunk_info st).1 in
  incoming st' = incoming st /\
  iterations st' = iterations st /\
  (chunks st' = chunks st \/
   exists sequence data key,
     chunk_fields chunk_info = Ok (sequence, data, JStr (md5_hexdigest data)) /\
     key_of_json sequence = Some key /\
     chunks st !! key = None /\
     chunks st' = <[key := data]> (chunks st)).
Proof.
  unfold on_chunk.
  destruct (chunk_fields chunk_info) as [[[sequence data] cc]|e] eqn:Hf;
    [|simpl; auto].
  destruct (json_is_str cc (md5_hexdigest data)) eqn:Hcc; simpl;
    [|destruct (retransmit_encodes sequence); simpl; auto].
  apply json_is_str_true in Hcc as ->.
  destruct (key_of_json sequence) as [key|] eqn:Hk; [|simpl; auto].
  destruct (chunks st !! key) eqn:Hpresent.
  - case_bool_decide; simpl; auto.
  - assert (Hnew : chunks (send (set_chunks st (<[key:=data]> (chunks st))) OK)
                   = <[key:=data]> (chunks st)) by done.
    case_bool_decide; simpl; (split; [done|]); (split; [done|]);
      right; exists sequence, data, key; auto.
Qed.

Lemma pop_elem (l rest : list packet) p q :
  pop l = (p, rest) -> q ∈ rest -> q ∈ l.
Proof.
  destruct l as [|p' l]; simpl; intros [= <- <-] Hq; [done|].
  apply elem_of_cons. by right.
Qed.

Lemma pop_head (l rest : list packet) p :
  pop l = (p, rest) -> p ∈ l \/ p = closed.
Proof.
  destruct l as [|p' l]; simpl; intros [= <- <-]; [by right|].
  left. apply elem_of_cons. by left.
Qed.

(** One pass of the loop: the messages left were there before, one
    more iteration is counted, and the buffer is as before or has
    gained one verified payload under a key that was free. *)
Lemma receive_one_buffer num st :
  let st' := (receive_one num st).1 in
  (forall q, q ∈ incoming st' -> q ∈ incoming st) /\
  iterations st' = S (iterations st) /\
  (chunks st' = chunks st \/
   exists key data,
     verified_in (incoming st) key data /\
     chunks st !! key = None /\
     chunks st' = <[key := data]> (chunks st)).
Proof.
  unfold receive_one.
  destruct (pop (incoming (begin_iteration st))) as [chunk_len_data rest] eqn:Hpop.
  simpl in Hpop.
  assert (Hrest : forall q, q ∈ rest -> q ∈ incoming st)
    by (intros q; by apply pop_elem with (1 := Hpop)).
  destruct (packet_is chunk_len_data (py "TRANSFER_COMPLETE")); [simpl; auto|].
  destruct (packet_int chunk_len_data) as [chunk_len|e]; [|simpl; auto].
  unfold recv_sized. simpl.
  destruct (chunk_len <? 0); [simpl; auto|].
  set (got := if chunk_len =? 0 then Ok (closed, rest) else Ok (pop rest)).
  assert (Hgot : exists p rest', got = Ok (p, rest') /\
            (forall q, q ∈ rest' -> q ∈ incoming st) /\
            (p ∈ incoming st \/ p = closed)).
  { subst got. destruct (chunk_len =? 0).
    - exists closed, rest. auto.
    - destruct (pop rest) as [p rest'] eqn:Hpop'. exists p, rest'.
      split; [done|]. split.
      + intros q Hq. apply Hrest. by apply pop_elem with (1 := Hpop').
      + destruct (pop_head _ _ _ Hpop'); auto. }
  destruct Hgot as (p & rest' & Hgot & Hrest' & Hp).
  change (match (if chunk_len =? 0 then Ok (closed, rest) else Ok (pop rest))
          with Ok x => _ | Raise e => _ end)
    with (match got with
          | Ok (chunk_json_data, rest0) =>
              match packet_json chunk_json_data with
              | Ok chunk_info =>
                  on_chunk num chunk_info
                    (read_to (send (read_to (begin_iteration st) rest) OK) rest0)
              | Raise JSONDecodeError =>
                  (send (read_to (send (read_to (begin_iteration st) rest) OK) rest0)
                     RETRANSMIT_LAST, Continue)
              | Raise _ =>
                  (send (read_to (send (read_to (begin_iteration st) rest) OK) rest0)
                     ERROR, Break)
              end
          | Raise _ => (send (send (read_to (begin_iteration st) rest) OK) ERROR, Break)
          end).
  rewrite Hgot.
  destruct (packet_json p) as [chunk_info|e] eqn:Hjson.
  - set (st1 := read_to (send (read_to (begin_iteration st) rest) OK) rest').
    destruct (on_chunk_buffer num chunk_info st1) as (Hin & Hit & Hbuf).
    rewrite Hin, Hit. split; [done|]. split; [done|].
    destruct Hbuf as [Hsame|(sequence & data & key & Hf & Hk & Hfree & Hnew)].
    + left. by rewrite Hsame.
    + right. exists key, data. split; [|by rewrite Hnew].
      exists p, chunk_info, sequence. split; [|done].
      destruct Hp as [Hp| ->]; [done | discriminate].
  - destruct e; simpl; auto.
Qed.
End mayhem_on_chunk.

Section mayhem_loop.
Context `{Hashlib}.
Import MayhemClient.

(** The whole loop: the buffer only grows, by verified payloads, and
    the iterations are counted. *)
Lemma receive_loop_buffer n num : forall st,
  let st' := receive_loop n num st in
  (forall q, q ∈ incoming st' -> q ∈ incoming st) /\
  (iterations st' <= iterations st + n)%nat /\
  (forall key x, chunks st !! key = Some x -> chunks st' !! key = Some x) /\
  (forall key x, chunks st' !! key = Some x ->
     chunks st !! key = Some x \/ verified_in (incoming st) key x).
Proof.
  induction n as [|n IH]; intros st; simpl.
  { repeat split; auto; lia. }
  destruct (receive_one_buffer num st) as (Hin & Hit & Hbuf).
  destruct (receive_one num st) as [st1 flow] eqn:Hone. simpl in *.
  assert (Hkeep : forall key x,
            chunks st !! key = Some x -> chunks st1 !! key = Some x).
  { intros key x Hx.
    destruct Hbuf as [->|(key' & data & _ & Hfree & ->)]; [done|].
    rewrite lookup_insert_ne; [done|]. intros ->. congruence. }
  assert (Hfrom : forall key x, chunks st1 !! key = Some x ->
            chunks st !! key = Some x \/ verified_in (incoming st) key x).
  { intros key x Hx.
    destruct Hbuf as [Hsame|(key' & data & Hv & Hfree & Hnew)].
    - left. by rewrite <- Hsame.
    - rewrite Hnew in Hx. destruct (decide (key' = key)) as [->|Hne].
      + rewrite lookup_insert_eq in Hx. injection Hx as <-. by right.
      + rewrite lookup_insert_ne in Hx by done. by left. }
  destruct flow.
  - destruct (IH st1) as (Hin' & Hit' & Hkeep' & Hfrom').
    split; [auto|]. split; [lia|]. split; [auto|].
    intros key x Hx. destruct (Hfrom' key x Hx) as [Hold|Hv]; [auto|].
    right. destruct Hv as (p & ci & sq & Hp & Hrest).
    exists p, ci, sq. auto.
  - split; [auto|]. split; [lia|]. auto.
Qed.

Lemma finish_state server_checksum num st :
  let st' := final (finish server_checksum num st) in
  chunks st' = chunks st /\ iterations st' = iterations st.
Proof.
  unfold finish. destruct (pop (incoming st)) as [final_msg rest].
  destruct (packet_is final_msg _); [|done].
  case_bool_decide; done.
Qed.

(** Over a whole session: every payload in the buffer is a verified
    one taken from the stream, and the loop has run at most
    [2 * num_chunks] times. *)
Lemma upload_file_buffer file_data incoming :
  let st := final (upload_file file_data incoming) in
  (forall key x, chunks st !! key = Some x -> verified_in incoming key x) /\
  (iterations st <= Z.to_nat (2 * default 0%Z (announced incoming)))%nat.
Proof.
  unfold upload_file, announced. simpl.
  destruct (pop incoming) as [p0 rest0] eqn:Hp0. simpl.
  destruct (pop rest0) as [p1 rest1] eqn:Hp1. simpl.
  destruct (decode p1) as [server_checksum|e]; simpl;
    [|split; [intros ??; by rewrite lookup_empty | lia]].
  case_bool_decide; simpl;
    [|split; [intros ??; by rewrite lookup_empty | lia]].
  destruct (pop rest1) as [p2 rest2] eqn:Hp2. simpl.
  destruct (packet_int p2) as [num|e]; simpl;
    [|split; [intros ??; by rewrite lookup_empty | lia]].
  match goal with
  | |- context [finish _ _ (receive_loop ?n _ ?s)] =>
      pose proof (receive_loop_buffer n num s) as (Hin & Hit & _ & Hfrom);
      pose proof (finish_state server_checksum num (receive_loop n num s))
        as (Hc & Hi);
      set (st := receive_loop n num s) in *
  end.
  simpl in *. rewrite Hc, Hi. split.
  - intros key x Hx. destruct (Hfrom key x Hx) as [Hold|Hv].
    + by rewrite lookup_empty in Hold.
    + destruct Hv as (p & ci & sq & Hp & Hrest). exists p, ci, sq.
      split; [|done].
      eapply pop_elem; [exact Hp0|]. eapply pop_elem; [exact Hp1|].
      eapply pop_elem; [exact Hp2|]. done.
  - replace (2 * num) with (num * 2) by lia. lia.
Qed.
End mayhem_loop.

(** What [store_chunk] of the first_task client does with any message:
    it stores the decoded payload under the sequence number, whatever
    was there, and looks at no digest. *)
Lemma store_chunk_spec d chunk_response d' :
  FirstTaskClient.store_chunk d chunk_response = Ok d' <->
  exists seq_num hex chunk_data key,
    dict_get chunk_response (py "sequence") = Ok seq_num /\
    dict_get chunk_response (py "data") = Ok hex /\
    json_fromhex hex = Ok chunk_data /\
    key_of_json seq_num = Some key /\
    d' = <[key := chunk_data]> d.
Proof.
  unfold FirstTaskClient.store_chunk, dict_store. split.
  - destruct (dict_get chunk_response (py "sequence")) as [seq_num|] eqn:E1; [|done].
    destruct (dict_get chunk_response (py "data")) as [hex|] eqn:E2; [|done].
    simpl. destruct (json_fromhex hex) as [chunk_data|] eqn:E3; [|done].
    simpl. destruct (key_of_json seq_num) as [key|] eqn:E4; [|done].
    simpl. intros [= <-]. by exists seq_num, hex, chunk_data, key.
  - intros (seq_num & hex & chunk_data & key & -> & -> & E3 & E4 & ->).
    simpl. rewrite E3. simpl. rewrite E4. done.
Qed.

(** ** Claims on the receiver *)

(** C3, as stated, fails on the first_task client: it stores the payload
    of a chunk message that declares no digest at all (the server's own
    message), and of one whose declared digest is forged, without
    computing anything. *)
Lemma first_task_stores_unverified_chunk :
  dict_get (FirstTaskServer.chunk_msg 0 (pyb "a")) (py "chunk_checksum") = Ok JNull /\
  FirstTaskClient.store_chunk ∅ (FirstTaskServer.chunk_msg 0 (pyb "a"))
  = Ok {[KInt 0 := pyb "a"]} /\
  FirstTaskClient.store_chunk ∅ (forged_chunk 0 (pyb "a"))
  = Ok {[KInt 0 := pyb "a"]}.
Proof. repeat split; reflexivity. Qed.

(** C3, amended.  The Mayhem client recomputes the MD5 of every chunk
    payload and compares it with the declared digest: on a mismatch it
    leaves the buffer as it was, sends [RETRANSMIT:<sequence>] and goes
    on with the loop, unless the sequence is a string with a surrogate
    code point, which has no UTF-8 encoding: then it sends [ERROR] and
    leaves the loop; and over a whole session every payload in the
    buffer comes from a message of the stream whose digest verified.
    The first_task client has no chunk digest: it stores the payload of
    every chunk message under its sequence number. *)
Theorem chunk_stored_only_when_digest_verifies `{Hashlib} :
  (forall num chunk_info st sequence data chunk_checksum,
     MayhemClient.chunk_fields chunk_info = Ok (sequence, data, chunk_checksum) ->
     chunk_checksum <> JStr (md5_hexdigest data) ->
     MayhemClient.on_chunk num chunk_info st
     = (if MayhemClient.retransmit_encodes sequence
        then (MayhemClient.send st (MayhemClient.RETRANSMIT sequence),
              MayhemClient.Continue)
        else (MayhemClient.send st MayhemClient.ERROR, MayhemClient.Break)) /\
     MayhemClient.chunks (MayhemClient.on_chunk num chunk_info st).1
     = MayhemClient.chunks st) /\
  (forall file_data incoming key x,
     MayhemClient.chunks
       (MayhemClient.final (MayhemClient.upload_file file_data incoming)) !! key
     = Some x ->
     verified_in incoming key x) /\
  (forall d chunk_response seq_num hex chunk_data key,
     dict_get chunk_response (py "sequence") = Ok seq_num ->
     dict_get chunk_response (py "data") = Ok hex ->
     json_fromhex hex = Ok chunk_data ->
     key_of_json seq_num = Some key ->
     FirstTaskClient.store_chunk d chunk_response = Ok (<[key := chunk_data]> d)).
Proof.
  split; [|split].
  - intros num chunk_info st sequence data cc Hf Hne.
    rewrite (on_chunk_mismatch num chunk_info st sequence data cc Hf Hne).
    by destruct (MayhemClient.retransmit_encodes sequence).
  - intros file_data incoming. apply upload_file_buffer.
  - intros d chunk_response seq_num hex chunk_data key E1 E2 E3 E4.
    apply store_chunk_spec. by exists seq_num, hex, chunk_data, key.
Qed.

Lemma chunk_stored_only_when_digest_verifies_witness :
  let st := {| MayhemClient.chunks := ∅; MayhemClient.sent := [];
               MayhemClient.incoming := []; MayhemClient.iterations := 0 |} in
  MayhemClient.on_chunk (H := plain_digests) 1 (forged_chunk 0 (pyb "a")) st
  = ({| MayhemClient.chunks := ∅;
        MayhemClient.sent := [MayhemClient.RETRANSMIT (JInt 0)];
        MayhemClient.incoming := []; MayhemClient.iterations := 0 |},
     MayhemClient.Continue) /\
  MayhemClient.on_chunk (H := plain_digests) 1 (surrogate_chunk (pyb "a")) st
  = ({| MayhemClient.chunks := ∅;
        MayhemClient.sent := [MayhemClient.ERROR];
        MayhemClient.incoming := []; MayhemClient.iterations := 0 |},
     MayhemClient.Break).
Proof.
  intros st. split.
  - refine (proj1 (proj1 (chunk_stored_only_when_digest_verifies (H := plain_digests))
             1 (forged_chunk 0 (pyb "a")) st (JInt 0) (pyb "a")
             (JStr (py "corrupted_checksum")) _ _)).
    + reflexivity.
    + discriminate.
  - refine (proj1 (proj1 (chunk_stored_only_when_digest_verifies (H := plain_digests))
             1 (surrogate_chunk (pyb "a")) st (JStr [55296%N]) (pyb "a")
             (JStr (py "corrupted_checksum")) _ _)).
    + reflexivity.
    + discriminate.
Defined.

Section mayhem_duplicates.
Context `{Hashlib}.
Import MayhemClient.

(** A chunk message whose sequence number is in the buffer already
    leaves the buffer as it is. *)
Lemma on_chunk_duplicate num chunk_info st sequence data chunk_checksum key :
  chunk_fields chunk_info = Ok (sequence, data, chunk_checksum) ->
  key_of_json sequence = Some key ->
  is_Some (chunks st !! key) ->
  chunks (on_chunk num chunk_info st).1 = chunks st.
Proof.
  intros Hf Hk [x Hx].
  destruct (on_chunk_buffer num chunk_info st)
    as (_ & _ & [Hsame|(sq & d & key' & Hf' & Hk' & Hfree & _)]); [done|].
  rewrite Hf in Hf'. injection Hf' as <- <- _.
  rewrite Hk in Hk'. injection Hk' as <-. congruence.
Qed.
End mayhem_duplicates.

(** C4, as stated, fails on the first_task client: a second chunk
    message for sequence number 0 replaces the payload stored for it,
    and the file written changes with it. *)
Lemma first_task_overwrites_duplicate :
  FirstTaskClient.store_chunk {[KInt 0 := pyb "a"]}
    (FirstTaskServer.chunk_msg 0 (pyb "b"))
  = Ok {[KInt 0 := pyb "b"]} /\
  FirstTaskClient.save_file {[KInt 0 := pyb "a"]} = Some (pyb "a") /\
  FirstTaskClient.save_file {[KInt 0 := pyb "b"]} = Some (pyb "b").
Proof.
  split; [|split; reflexivity].
  rewrite store_chunk_msg. f_equal.
Qed.

(** C4, amended.  In the Mayhem client, a chunk message whose sequence
    number is already in the buffer leaves the buffer, and so the
    reassembled bytes, unchanged; it is answered [OK] when its digest
    verifies; and through the whole receive loop a payload once stored
    is never replaced.  In the first_task client a later chunk message
    replaces the payload stored under its sequence number. *)
Theorem duplicate_chunk_keeps_first_payload `{Hashlib} :
  (forall num chunk_info st sequence data chunk_checksum key,
     MayhemClient.chunk_fields chunk_info = Ok (sequence, data, chunk_checksum) ->
     key_of_json sequence = Some key ->
     is_Some (MayhemClient.chunks st !! key) ->
     let st' := (MayhemClient.on_chunk num chunk_info st).1 in
     MayhemClient.chunks st' = MayhemClient.chunks st /\
     (forall m, MayhemClient.reassemble m (MayhemClient.chunks st')
                = MayhemClient.reassemble m (MayhemClient.chunks st)) /\
     (chunk_checksum = JStr (md5_hexdigest data) ->
      MayhemClient.sent st' = MayhemClient.sent st ++ [MayhemClient.OK])) /\
  (forall n num st key x,
     MayhemClient.chunks st !! key = Some x ->
     MayhemClient.chunks (MayhemClient.receive_loop n num st) !! key = Some x) /\
  (forall d chunk_response seq_num hex chunk_data key,
     dict_get chunk_response (py "sequence") = Ok seq_num ->
     dict_get chunk_response (py "data") = Ok hex ->
     json_fromhex hex = Ok chunk_data ->
     key_of_json seq_num = Some key ->
     exists d', FirstTaskClient.store_chunk d chunk_response = Ok d' /\
                d' !! key = Some chunk_data).
Proof.
  split; [|split].
  - intros num chunk_info st sequence data cc key Hf Hk Hpresent st'.
    assert (Hsame : MayhemClient.chunks st' = MayhemClient.chunks st)
      by (by eapply on_chunk_duplicate).
    split; [done|]. split; [intros m; by rewrite Hsame|].
    intros ->. by destruct (on_chunk_verified num chunk_info st sequence data key Hf Hk)
      as (_ & Hsent & _).
  - intros n num st. by destruct (receive_loop_buffer n num st) as (_ & _ & Hkeep & _).
  - intros d chunk_response seq_num hex chunk_data key E1 E2 E3 E4.
    exists (<[key := chunk_data]> d). split.
    + apply store_chunk_spec. by exists seq_num, hex, chunk_data, key.
    + apply lookup_insert_eq.
Qed.

Lemma duplicate_chunk_keeps_first_payload_witness :
  MayhemClient.chunks
    (MayhemClient.on_chunk (H := plain_digests) 2
       (MayhemServer.chunk_data (py "c") 0 (pyb "b") (bytes_hex (pyb "b")))
       {| MayhemClient.chunks := {[KInt 0 := pyb "a"]}; MayhemClient.sent := [];
          MayhemClient.incoming := []; MayhemClient.iterations := 1 |}).1
  = {[KInt 0 := pyb "a"]}.
Proof.
  refine (proj1 (proj1 (duplicate_chunk_keeps_first_payload (H := plain_digests))
           2 (MayhemServer.chunk_data (py "c") 0 (pyb "b") (bytes_hex (pyb "b")))
           {| MayhemClient.chunks := {[KInt 0 := pyb "a"]}; MayhemClient.sent := [];
              MayhemClient.incoming := []; MayhemClient.iterations := 1 |}
           (JInt 0) (pyb "b") (JStr (bytes_hex (pyb "b"))) (KInt 0) _ _ _)).
  - reflexivity.
  - reflexivity.
  - exists (pyb "a"). reflexivity.
Defined.

Section mayhem_verdict.
Context `{Hashlib}.
Import MayhemClient.

Ltac solve_tokens :=
  repeat match goal with
         | |- Forall _ _ => constructor
         | |- loop_token _ => first [assumption | split; discriminate]
         end.

Lemma on_chunk_sent num chunk_info st :
  exists t, sent (on_chunk num chunk_info st).1 = sent st ++ [t] /\ loop_token t.
Proof.
  unfold on_chunk.
  destruct (chunk_fields chunk_info) as [[[sequence data] cc]|e];
    [|exists ERROR; split; [done | split; discriminate]].
  destruct (json_is_str cc (md5_hexdigest data)); simpl;
    [|destruct (retransmit_encodes sequence);
      [exists (RETRANSMIT sequence) | exists ERROR];
      (split; [done | split; discriminate])].
  destruct (key_of_json sequence) as [key|];
    [|exists ERROR; split; [done | split; discriminate]].
  exists OK. split; [|split; discriminate].
  destruct (chunks st !! key); case_bool_decide; done.
Qed.

Lemma receive_one_sent num st :
  exists ts, sent (receive_one num st).1 = sent st ++ ts /\ Forall loop_token ts.
Proof.
  unfold receive_one.
  destruct (pop (incoming (begin_iteration st))) as [chunk_len_data rest].
  destruct (packet_is chunk_len_data _);
    [exists []; split; [by rewrite app_nil_r | solve_tokens]|].
  destruct (packet_int chunk_len_data) as [chunk_len|e];
    [|exists [ERROR]; split; [done | solve_tokens]].
  destruct (recv_sized chunk_len _) as [[p rest']|e];
    [|exists [OK; ERROR]; split;
      [simpl; by rewrite <- app_assoc | solve_tokens]].
  destruct (packet_json p) as [chunk_info|e].
  - destruct (on_chunk_sent num chunk_info
                (read_to (send (read_to (begin_iteration st) rest) OK) rest'))
      as (t & -> & Ht).
    exists [OK; t]. split; [simpl; by rewrite <- app_assoc | solve_tokens].
  - destruct e;
      try (exists [OK; ERROR]; split;
           [simpl; by rewrite <- app_assoc | solve_tokens]).
    exists [OK; RETRANSMIT_LAST]. split;
      [simpl; by rewrite <- app_assoc | solve_tokens].
Qed.

Lemma receive_loop_sent n num : forall st,
  exists ts, sent (receive_loop n num st) = sent st ++ ts /\ Forall loop_token ts.
Proof.
  induction n as [|n IH]; intros st; simpl.
  { exists []. split; [by rewrite app_nil_r | solve_tokens]. }
  destruct (receive_one_sent num st) as (ts & Hts & Hall).
  destruct (receive_one num st) as [st1 flow]. simpl in *.
  destruct flow; [|by exists ts].
  destruct (IH st1) as (ts' & -> & Hall'). rewrite Hts.
  exists (ts ++ ts'). split; [by rewrite app_assoc | by apply Forall_app].
Qed.

(** After the loop, with [TRANSFER_COMPLETE] next on the wire: the
    chunks that are there are joined, and the digest of the result
    alone decides between saving with [SUCCESS] and
    [CHECKSUM_MISMATCH]. *)
Lemma finish_on_complete server_checksum num st loads rest :
  incoming st = Text (py "TRANSFER_COMPLETE") loads :: rest ->
  finish server_checksum num st =
    let reassembled_data := reassemble num (chunks st) in
    if bool_decide (sha256_hexdigest reassembled_data = server_checksum)
    then {| final := send (read_to st rest) SUCCESS;
            saved := Some reassembled_data |}
    else {| final := send (read_to st rest) CHECKSUM_MISMATCH;
            saved := None |}.
Proof. intros Hin. unfold finish. rewrite Hin. simpl. done. Qed.

(** Any other message there, or none: [ERROR], and nothing saved. *)
Lemma finish_on_other server_checksum num st :
  packet_is (pop (incoming st)).1 (py "TRANSFER_COMPLETE") = false ->
  finish server_checksum num st =
    {| final := send (read_to st (pop (incoming st)).2) ERROR; saved := None |}.
Proof.
  intros Hne. unfold finish.
  destruct (pop (incoming st)) as [final_msg rest]. simpl in *. by rewrite Hne.
Qed.

Lemma finish_verdict server_checksum num st :
  let o := finish server_checksum num st in
  exists t, sent (final o) = sent st ++ [t] /\
    (t = SUCCESS <-> is_Some (saved o)) /\
    (forall x, saved o = Some x ->
       x = reassemble num (chunks st) /\ sha256_hexdigest x = server_checksum) /\
    (t = CHECKSUM_MISMATCH ->
       sha256_hexdigest (reassemble num (chunks st)) <> server_checksum).
Proof.
  unfold finish. destruct (pop (incoming st)) as [final_msg rest].
  destruct (packet_is final_msg _).
  - case_bool_decide as Hsum.
    + exists SUCCESS. simpl. split; [done|]. split; [split; eauto|].
      split; [|discriminate]. intros x [= <-]. done.
    + exists CHECKSUM_MISMATCH. simpl. split; [done|].
      split; [split; [discriminate | by intros [??]]|]. split; done.
  - exists ERROR. simpl. split; [done|].
    split; [split; [discriminate | by intros [??]]|]. split; done.
Qed.

(** Over a whole session: [SUCCESS] is sent exactly when a file is
    saved, and a saved file has the digest of the file uploaded. *)
Lemma upload_file_verdict file_data incoming :
  let o := upload_file file_data incoming in
  (SUCCESS ∈ sent (final o) <-> is_Some (saved o)) /\
  (forall x, saved o = Some x ->
     sha256_hexdigest x = sha256_hexdigest file_data /\
     exists num, announced incoming = Some num /\
                 x = reassemble num (chunks (final o))).
Proof.
  assert (Hno : forall l : list token,
            Forall loop_token l -> (SUCCESS ∈ l <-> is_Some (@None bytes))).
  { intros l Hl. split; [|by intros [??]].
    intros Hin. rewrite Forall_forall in Hl. by destruct (Hl _ Hin). }
  unfold upload_file, announced. simpl.
  destruct (pop incoming) as [p0 rest0]. simpl.
  destruct (pop rest0) as [p1 rest1]. simpl.
  assert (Hstart : Forall loop_token
            [FileSize (Z.of_nat (length file_data)); FileData file_data])
    by solve_tokens.
  destruct (decode p1) as [server_checksum|e]; simpl;
    [|split; [apply Hno, Hstart | done]].
  case_bool_decide as Hsum; simpl; [|split; [apply Hno, Hstart | done]].
  destruct (pop rest1) as [p2 rest2]. simpl.
  destruct (packet_int p2) as [num|e]; simpl; [|split; [apply Hno, Hstart | done]].
  match goal with
  | |- context [finish _ _ (receive_loop ?n _ ?s)] =>
      destruct (receive_loop_sent n num s) as (ts & Hts & Hall);
      set (st := receive_loop n num s) in *
  end.
  destruct (finish_verdict server_checksum num st) as (t & Ht & Hsucc & Hsaved & _).
  destruct (finish_state server_checksum num st) as (Hchunks & _).
  simpl in *. rewrite Ht, Hts. split.
  - rewrite <- Hsucc. split.
    + intros Hin. apply elem_of_app in Hin as [Hin|Hin].
      * exfalso.
        do 3 (apply elem_of_cons in Hin as [Hin|Hin]; [discriminate|]).
        rewrite Forall_forall in Hall. by destruct (Hall _ Hin).
      * by apply list_elem_of_singleton in Hin.
    + intros ->. apply elem_of_app. right. by apply list_elem_of_singleton.
  - intros x Hx. destruct (Hsaved x Hx) as [-> Hd]. split; [congruence|].
    exists num. by rewrite Hchunks.
Qed.
End mayhem_verdict.

(** ** The first_task client: one pass and the retries *)

Section first_task_upload.
Context `{Hashlib}.
Import FirstTaskClient.
Variable file_path : pystr.
Variable file_data : bytes.

Lemma receive_chunks_rest incoming : forall d q,
  q ∈ (receive_chunks d incoming).2 -> q ∈ incoming.
Proof.
  induction incoming as [|r incoming IH]; intros d q; simpl; [done|].
  destruct r as [chunk_response|]; [|by right].
  destruct (dict_get chunk_response (py "type")) as [type|e]; [|by right].
  destruct (json_is_str type (py "end")); [by right|].
  destruct (json_is_str type (py "chunk")).
  - destruct (store_chunk d chunk_response); [|by right].
    intros Hq. right. by eapply IH.
  - intros Hq. right. by eapply IH.
Qed.

(** What one pass does, by the way it ends. *)
Lemma upload_pass_spec self w :
  let '(ended, self', w') := upload_pass file_path file_data self w in
  max_retries self' = max_retries self /\
  retry_count self' = retry_count self /\
  sent w' = sent w ++ [upload_request file_path file_data] /\
  (forall q, q ∈ incoming w' -> q ∈ incoming w) /\
  match ended with
  | Return false | MissingChunks => saved w' = saved w
  | Return true | ChecksumFailed =>
      exists content,
        saved w' = saved w ++ [content] /\
        save_file (received_chunks self') = Some content /\
        json_is_int (declared w (py "total_chunks"))
          (Z.of_nat (size (received_chunks self'))) = true /\
        json_is_str (declared w (py "checksum")) (sha256_hexdigest content)
        = match ended with Return _ => true | _ => false end
  end /\
  (ended = MissingChunks ->
     json_is_int (declared w (py "total_chunks"))
       (Z.of_nat (size (received_chunks self'))) = false).
Proof.
  unfold upload_pass, declared. simpl.
  destruct (incoming w) as [|[response|] rest] eqn:Hin; simpl;
    try (repeat split; try done; intros q Hq; rewrite ?Hin in *;
         try done; by right).
  destruct response as [| | | | |kv]; simpl;
    try (repeat split; try done; intros q Hq; by right).
  destruct (json_is_str (default JNull (obj_lookup (py "status") kv)) (py "ready"));
    simpl; [|repeat split; try done; intros q Hq; by right].
  pose proof (receive_chunks_rest rest ∅) as Hrest.
  destruct (receive_chunks ∅ rest) as [[received raised] rest'] eqn:Hloop.
  simpl in *.
  assert (Hsub : forall q, q ∈ rest' -> q ∈ Response (JObj kv) :: rest)
    by (intros q Hq; right; by apply Hrest).
  destruct raised as [e|]; [repeat split; done|].
  destruct (json_is_int (default JNull (obj_lookup (py "total_chunks") kv)) _)
    eqn:Htotal; simpl.
  - destruct (save_file received) as [content|] eqn:Hsave;
      [|repeat split; done].
    destruct (json_is_str (default JNull (obj_lookup (py "checksum") kv)) _)
      eqn:Hsum; simpl.
    + repeat split; try done. by exists content.
    + repeat split; try done. by exists content.
  - destruct (default JNull (obj_lookup (py "total_chunks") kv));
      repeat split; done.
Qed.


(** A pass that ends at a retry site: [upload_file] gives up with
    [False] when no retry is left, and otherwise counts one retry and
    starts over. *)
Lemma upload_file_retry fuel self w ended self1 w1 :
  upload_pass file_path file_data self w = (ended, self1, w1) ->
  ended = MissingChunks \/ ended = ChecksumFailed ->
  upload_file file_path file_data (S fuel) self w
  = if retry_count self <? max_retries self
    then upload_file file_path file_data fuel (count_retry self1) w1
    else Some (false, self1, w1).
Proof.
  intros Hpass Hended. simpl. rewrite Hpass.
  pose proof (upload_pass_spec self w) as Hspec. rewrite Hpass in Hspec.
  destruct Hspec as (-> & -> & _).
  by destruct Hended as [-> | ->].
Qed.
End first_task_upload.

(** ** Claims on the end of a session *)

(** C5, as stated, fails on the Mayhem client: in this session the end
    marker arrives while sequence number 1 of the 2 announced is absent
    from the buffer, and the client saves the file and reports
    [SUCCESS]. *)
Lemma mayhem_accepts_with_chunk_missing :
  let o := MayhemClient.upload_file (H := plain_digests) (pyb "ab")
             whole_file_in_chunk_0 in
  announced whole_file_in_chunk_0 = Some 2 /\
  MayhemClient.chunks (MayhemClient.final o) !! KInt 1 = None /\
  last (MayhemClient.sent (MayhemClient.final o)) = Some MayhemClient.SUCCESS /\
  MayhemClient.saved o = Some (pyb "ab").
Proof. vm_compute. repeat split; reflexivity. Qed.

(** C5, amended.  When the end marker is what the Mayhem client reads
    after its receive loop, it joins the chunks it has, skipping absent
    sequence numbers, and the SHA-256 of the result alone decides:
    [SUCCESS] with the file saved when it equals the declared digest,
    [CHECKSUM_MISMATCH] with nothing saved otherwise.  In the
    first_task client a pass in which the number of stored chunks
    differs from the declared [total_chunks] writes no file and does not
    return [True]; where it ends at "Missing chunks", [upload_file]
    retries the whole upload while retries remain and returns [False]
    once they are used up. *)
Theorem end_marker_with_chunks_missing `{Hashlib} :
  (forall server_checksum num st loads rest,
     MayhemClient.incoming st = Text (py "TRANSFER_COMPLETE") loads :: rest ->
     let o := MayhemClient.finish server_checksum num st in
     let joined := MayhemClient.reassemble num (MayhemClient.chunks st) in
     (sha256_hexdigest joined = server_checksum ->
        MayhemClient.sent (MayhemClient.final o)
        = MayhemClient.sent st ++ [MayhemClient.SUCCESS] /\
        MayhemClient.saved o = Some joined) /\
     (sha256_hexdigest joined <> server_checksum ->
        MayhemClient.sent (MayhemClient.final o)
        = MayhemClient.sent st ++ [MayhemClient.CHECKSUM_MISMATCH] /\
        MayhemClient.saved o = None)) /\
  (forall file_path file_data self w ended self' w' fuel,
     FirstTaskClient.upload_pass file_path file_data self w = (ended, self', w') ->
     (json_is_int (declared w (py "total_chunks"))
        (Z.of_nat (size (FirstTaskClient.received_chunks self'))) = false ->
      FirstTaskClient.saved w' = FirstTaskClient.saved w /\
      ended <> FirstTaskClient.Return true) /\
     (ended = FirstTaskClient.MissingChunks ->
      json_is_int (declared w (py "total_chunks"))
        (Z.of_nat (size (FirstTaskClient.received_chunks self'))) = false /\
      FirstTaskClient.upload_file file_path file_data (S fuel) self w
      = if FirstTaskClient.retry_count self <? FirstTaskClient.max_retries self
        then FirstTaskClient.upload_file file_path file_data fuel
               (FirstTaskClient.count_retry self') w'
        else Some (false, self', w'))).
Proof.
  split.
  - intros server_checksum num st loads rest Hin o joined. subst o.
    rewrite (finish_on_complete server_checksum num st loads rest Hin).
    fold joined. cbv zeta.
    split; intros Hsum; case_bool_decide; done.
  - intros file_path file_data self w ended self' w' fuel Hpass.
    pose proof (upload_pass_spec file_path file_data self w) as Hspec.
    rewrite Hpass in Hspec.
    destruct Hspec as (_ & _ & _ & _ & Hend & Hmissing). split.
    + intros Hcount.
      destruct ended as [[|]| |]; try (split; [exact Hend | discriminate]);
        destruct Hend as (content & _ & _ & Htotal & _); congruence.
    + intros ->. split; [by apply Hmissing|].
      apply (upload_file_retry _ _ _ _ _ _ _ _ Hpass). by left.
Qed.

Lemma end_marker_with_chunks_missing_witness :
  MayhemClient.saved
    (MayhemClient.finish (H := plain_digests) (py "6162") 2
       {| MayhemClient.chunks := {[KInt 1 := pyb "b"]}; MayhemClient.sent := [];
          MayhemClient.incoming := [Text (py "TRANSFER_COMPLETE") None];
          MayhemClient.iterations := 4 |})
  = None.
Proof.
  refine (proj2 (proj2 (proj1 (end_marker_with_chunks_missing (H := plain_digests))
           (py "6162") 2
           {| MayhemClient.chunks := {[KInt 1 := pyb "b"]}; MayhemClient.sent := [];
              MayhemClient.incoming := [Text (py "TRANSFER_COMPLETE") None];
              MayhemClient.iterations := 4 |} None [] _) _)).
  - reflexivity.
  - vm_compute. discriminate.
Defined.

(** C6, as stated, fails on the Mayhem client: in this session the
    reassembled bytes do not have the declared digest, the client
    reports [CHECKSUM_MISMATCH], and no file is saved. *)
Lemma mayhem_saves_nothing_on_mismatch :
  let o := MayhemClient.upload_file (H := plain_digests) (pyb "ab")
             other_bytes_in_chunk_0 in
  MayhemClient.reassemble 1 (MayhemClient.chunks (MayhemClient.final o)) = pyb "ba" /\
  last (MayhemClient.sent (MayhemClient.final o))
  = Some MayhemClient.CHECKSUM_MISMATCH /\
  MayhemClient.saved o = None.
Proof. vm_compute. repeat split; reflexivity. Qed.

(** C6, amended.  A reassembly whose SHA-256 differs from the declared
    digest is never reported as success.  The Mayhem client sends
    [CHECKSUM_MISMATCH] and saves no file: over a whole session it sends
    [SUCCESS] exactly when it saves, and what it saves has the digest of
    the file uploaded.  The first_task client has written the file
    before it compares; the pass then ends at "Checksum verification
    failed", after which [upload_file] retries the whole upload while
    retries remain and returns [False] once they are used up; and a pass
    that returns [True] has written a file with the declared digest. *)
Theorem digest_mismatch_is_not_success `{Hashlib} :
  (forall server_checksum num st,
     let o := MayhemClient.finish server_checksum num st in
     sha256_hexdigest (MayhemClient.reassemble num (MayhemClient.chunks st))
     <> server_checksum ->
     MayhemClient.saved o = None /\
     exists t, MayhemClient.sent (MayhemClient.final o)
               = MayhemClient.sent st ++ [t] /\
               t <> MayhemClient.SUCCESS) /\
  (forall file_data incoming,
     let o := MayhemClient.upload_file file_data incoming in
     (MayhemClient.SUCCESS ∈ MayhemClient.sent (MayhemClient.final o)
      <-> is_Some (MayhemClient.saved o)) /\
     (forall x, MayhemClient.saved o = Some x ->
        sha256_hexdigest x = sha256_hexdigest file_data)) /\
  (forall file_path file_data self w ended self' w' fuel,
     FirstTaskClient.upload_pass file_path file_data self w = (ended, self', w') ->
     (ended = FirstTaskClient.ChecksumFailed ->
      (exists content,
         FirstTaskClient.saved w' = FirstTaskClient.saved w ++ [content] /\
         json_is_str (declared w (py "checksum")) (sha256_hexdigest content)
         = false) /\
      FirstTaskClient.upload_file file_path file_data (S fuel) self w
      = if FirstTaskClient.retry_count self <? FirstTaskClient.max_retries self
        then FirstTaskClient.upload_file file_path file_data fuel
               (FirstTaskClient.count_retry self') w'
        else Some (false, self', w')) /\
     (ended = FirstTaskClient.Return true ->
      exists content,
        FirstTaskClient.saved w' = FirstTaskClient.saved w ++ [content] /\
        declared w (py "checksum") = JStr (sha256_hexdigest content))).
Proof.
  split; [|split].
  - intros server_checksum num st o Hne.
    destruct (finish_verdict server_checksum num st)
      as (t & Hsent & Hsucc & Hsaved & _). fold o in Hsent, Hsucc, Hsaved.
    destruct (MayhemClient.saved o) as [x|] eqn:Hx.
    { destruct (Hsaved x eq_refl) as [-> Hd]. done. }
    split; [done|]. exists t. split; [done|].
    intros Ht. apply Hsucc in Ht. by destruct Ht.
  - intros file_data incoming o.
    destruct (upload_file_verdict file_data incoming) as [Hiff Hsaved].
    split; [done|]. intros x Hx. by destruct (Hsaved x Hx).
  - intros file_path file_data self w ended self' w' fuel Hpass.
    pose proof (upload_pass_spec file_path file_data self w) as Hspec.
    rewrite Hpass in Hspec.
    destruct Hspec as (_ & _ & _ & _ & Hend & _). split.
    + intros ->. destruct Hend as (content & Hsaved & _ & _ & Hsum). split.
      * by exists content.
      * apply (upload_file_retry _ _ _ _ _ _ _ _ Hpass). by right.
    + intros ->. destruct Hend as (content & Hsaved & _ & _ & Hsum).
      exists content. split; [done|]. by apply json_is_str_true.
Qed.

Lemma digest_mismatch_is_not_success_witness :
  MayhemClient.saved
    (MayhemClient.finish (H := plain_digests) (py "6162") 1
       {| MayhemClient.chunks := {[KInt 0 := pyb "ba"]}; MayhemClient.sent := [];
          MayhemClient.incoming := [Text (py "TRANSFER_COMPLETE") None];
          MayhemClient.iterations := 1 |})
  = None.
Proof.
  refine (proj1 (proj1 (digest_mismatch_is_not_success (H := plain_digests))
           (py "6162") 1
           {| MayhemClient.chunks := {[KInt 0 := pyb "ba"]}; MayhemClient.sent := [];
              MayhemClient.incoming := [Text (py "TRANSFER_COMPLETE") None];
              MayhemClient.iterations := 1 |} _)).
  vm_compute. discriminate.
Defined.

(** ** Claims on retransmission *)




(** C7.  An undecodable chunk frame: the Mayhem client answers
    [RETRANSMIT:LAST] and goes on with its loop, as the claim says; the
    server, reading that reply, evaluates [int("LAST")], which raises
    [ValueError], and its handler ends in the [except] clause without
    ever sending [TRANSFER_COMPLETE].  Shown on the two-byte file [ab]
    whose only chunk arrives as a frame that is not JSON. *)
Theorem malformed_frame_aborts_the_server `{Hashlib} :
  (forall num,
     MayhemClient.receive_one num
       {| MayhemClient.chunks := ∅; MayhemClient.sent := [];
          MayhemClient.incoming := [numeral 75; Text (py "{x") None];
          MayhemClient.iterations := 0 |}
     = ({| MayhemClient.chunks := ∅;
           MayhemClient.sent := [MayhemClient.OK; MayhemClient.RETRANSMIT_LAST];
           MayhemClient.incoming := []; MayhemClient.iterations := 1 |},
        MayhemClient.Continue)) /\
  MayhemClient.token_text MayhemClient.RETRANSMIT_LAST = Some (py "RETRANSMIT:LAST") /\
  py_int (py "LAST") = None /\
  (forall client_id chunks incoming,
     MayhemServer.retransmit client_id chunks (py "RETRANSMIT:LAST") incoming
     = ([], Some ValueError, incoming)) /\
  (forall client_id,
     (MayhemServer.handle_client client_id (pyb "ab") []
        [Text (py "OK") None; Text (py "OK") None;
         Text (py "RETRANSMIT:LAST") None]).2
     = inr ValueError).
Proof.
  split; [|split; [|split; [|split]]].
  - intros num. reflexivity.
  - reflexivity.
  - reflexivity.
  - intros client_id chunks incoming. destruct incoming; reflexivity.
  - intros client_id. reflexivity.
Qed.

(** ** Reading a frame once its prefix has arrived whole *)

Lemma recv_spec n (s : socket) :
  0 < n ->
  pending s = (recv n s).1 ++ pending (recv n s).2 /\
  (length (recv n s).1 <= Z.to_nat n)%nat /\
  ((recv n s).1 = [] -> pending s = []).
Proof.
  intros Hn. unfold pending.
  induction s as [|seg s IH]; [simpl; repeat split; (done || lia)|]. simpl.
  destruct seg as [|b seg]; [exact IH|].
  case_decide as Hlen; simpl.
  - repeat split; (done || lia).
  - rewrite app_assoc, take_drop. split; [done|]. split.
    + rewrite length_take. lia.
    + destruct (Z.to_nat n) eqn:E; [lia|]. simpl. done.
Qed.

(** The loop of [receive_response] never runs out of the fuel it is
    given, and returns either exactly the bytes still missing, taken
    from the front of the stream, or [ConnectionError] when the stream
    holds fewer. *)
Lemma recv_exactly_returns fuel : forall msg_len bytes_received chunks s,
  (Z.to_nat (msg_len - bytes_received) <= fuel)%nat ->
  exists r s',
    recv_exactly fuel msg_len bytes_received chunks s = Some (r, s') /\
    match r with
    | Ok chunks' =>
        exists more, chunks' = chunks ++ more /\
          Z.of_nat (length (concat more)) = Z.max 0 (msg_len - bytes_received) /\
          pending s = concat more ++ pending s'
    | Raise e =>
        e = ConnectionError /\
        Z.of_nat (length (pending s)) < msg_len - bytes_received
    end.
Proof.
  induction fuel as [|fuel IH]; intros msg_len bytes_received chunks s Hfuel.
  - simpl. destruct (Z.ltb_spec bytes_received msg_len); [lia|].
    exists (Ok chunks), s. split; [done|]. exists [].
    rewrite app_nil_r. simpl. split; [done|]. split; [lia|done].
  - simpl. destruct (Z.ltb_spec bytes_received msg_len) as [Hlt|Hge].
    + pose proof (recv_spec (Z.min (msg_len - bytes_received) 4096) s ltac:(lia))
        as (Hpending & Hlen & Hclosed).
      destruct (recv (Z.min (msg_len - bytes_received) 4096) s) as [chunk s1].
      simpl in *. destruct chunk as [|b chunk].
      * exists (Raise ConnectionError), s1. split; [done|]. split; [done|].
        rewrite Hclosed by done. simpl. lia.
      * destruct (IH msg_len (bytes_received + Z.of_nat (length (b :: chunk)))
                    (chunks ++ [b :: chunk]) s1) as (r & s' & Hrun & Hr).
        { simpl in *. lia. }
        exists r, s'. split; [done|]. destruct r as [chunks'|e].
        -- destruct Hr as (more & -> & Hmore & Hrest).
           exists ((b :: chunk) :: more). rewrite <- app_assoc.
           split; [done|]. split.
           ++ change (concat ((b :: chunk) :: more)) with ((b :: chunk) ++ concat more).
              rewrite length_app. simpl in *. lia.
           ++ rewrite Hpending, Hrest.
              change (concat ((b :: chunk) :: more)) with ((b :: chunk) ++ concat more).
              by rewrite <- app_assoc.
        -- destruct Hr as [-> Hshort]. split; [done|].
           rewrite Hpending, length_app. simpl in *. lia.
    + exists (Ok chunks), s. split; [done|]. exists [].
      rewrite app_nil_r. simpl. split; [done|]. split; [lia|done].
Qed.

(** When [recv(4)] does return the four bytes of the prefix,
    [receive_response] returns exactly the declared number of bytes, or
    raises [ConnectionError] when the stream ends before them. *)
Lemma receive_response_after_whole_prefix (sock : socket) :
  length (recv 4 sock).1 = 4%nat ->
  let msg_len := int_from_bytes (recv 4 sock).1 in
  exists r s',
    FirstTaskClient.receive_response sock = Some (r, s') /\
    match r with
    | Ok payload =>
        Z.of_nat (length payload) = Z.max 0 msg_len /\
        pending (recv 4 sock).2 = payload ++ pending s'
    | Raise e =>
        e = ConnectionError /\ Z.of_nat (length (pending (recv 4 sock).2)) < msg_len
    end.
Proof.
  intros Hprefix msg_len. unfold FirstTaskClient.receive_response.
  destruct (recv 4 sock) as [msg_len_bytes s]. simpl in *.
  destruct msg_len_bytes as [|b0 rest]; [done|].
  destruct (recv_exactly_returns (Z.to_nat msg_len) msg_len 0 [] s)
    as (r & s' & Hrun & Hr); [lia|].
  fold msg_len. rewrite Hrun. simpl.
  destruct r as [chunks|e].
  - exists (Ok (concat chunks)), s'. split; [done|].
    destruct Hr as (more & -> & Hlen & Hrest). simpl. split; [lia|done].
  - exists (Raise e), s'. split; [done|].
    destruct Hr as [-> Hshort]. split; [done|lia].
Qed.

(** ** Claims on framing and encoding *)

Lemma latin1_encode_decode (b : bytes) : latin1_encode (latin1_decode b) = Some b.
Proof.
  unfold latin1_encode, latin1_decode.
  apply mapM_fmap_Some. intros x. apply Byte.of_to_N.
Qed.

Lemma latin1_decode_nil (b : bytes) : latin1_decode b = [] <-> b = [].
Proof. unfold latin1_decode. by destruct b. Qed.

(** C10.  Latin-1 carries arbitrary bytes through the upload request:
    for every byte string [b], [b.decode('latin1').encode('latin1')] is
    [b]; so when the server handles the client's upload request for a
    non-empty file under a non-empty path, the file it writes holds
    exactly the client's bytes (and when either is empty it answers
    with an error and writes no file). *)
Theorem latin1_upload_preserves_bytes `{Hashlib} (b : bytes) :
  latin1_encode (latin1_decode b) = Some b /\
  forall chunk_size shuffle faults file_path,
    FirstTaskServer.written
      (FirstTaskServer.handle_upload chunk_size shuffle faults
         (FirstTaskClient.upload_request file_path b))
    = if bool_decide (file_path = []) || bool_decide (b = [])
      then None else Some b.
Proof.
  split; [apply latin1_encode_decode|].
  intros chunk_size shuffle faults file_path.
  unfold FirstTaskServer.handle_upload, FirstTaskClient.upload_request.
  change (dict_get_or_empty (JObj _) (py "file_path")) with (Ok (JStr file_path)).
  change (dict_get_or_empty (JObj _) (py "file_data"))
    with (Ok (JStr (latin1_decode b))).
  simpl.
  destruct file_path as [|c file_path], b as [|x b]; try reflexivity.
  change (bool_decide (c :: file_path = [])) with false.
  change (bool_decide (latin1_decode (x :: b) = [])) with false.
  change (bool_decide (x :: b = [])) with false.
  cbn [negb orb]. rewrite latin1_encode_decode.
  destruct (FirstTaskServer.split_file chunk_size (x :: b)) as [chunks|]; reflexivity.
Qed.

(** C9.  The length prefix is taken from one [recv(4)], which may
    return fewer than four bytes.  The sender frames the two-byte
    payload [{}] behind the prefix [00 00 00 02]; when the first two
    bytes of the prefix arrive on their own, [receive_response] reads
    the length 0 from them and returns an empty payload, leaving the
    rest of the frame unread; when the stream ends after those two
    bytes it still returns an empty payload instead of raising; and on
    a closed connection the server's [receive_request] returns an
    empty payload where the client's [receive_response] raises
    [ConnectionError]. *)
Theorem length_prefix_read_by_one_recv :
  FirstTaskClient.send_request (pyb "{}")
  = Some [Byte.x00; Byte.x00; Byte.x00; Byte.x02; Byte.x7b; Byte.x7d] /\
  FirstTaskClient.receive_response
    [[Byte.x00; Byte.x00]; [Byte.x00; Byte.x02; Byte.x7b; Byte.x7d]]
  = Some (Ok [], [[Byte.x00; Byte.x02; Byte.x7b; Byte.x7d]]) /\
  FirstTaskClient.receive_response [[Byte.x00; Byte.x00]] = Some (Ok [], []) /\
  FirstTaskServer.receive_request [] = Some (Ok [], []) /\
  FirstTaskClient.receive_response [] = Some (Raise ConnectionError, []).
Proof. repeat split; reflexivity. Qed.


(** ** Decimal numerals *)

Lemma py_cons (c : ascii) (s : string) : py (String c s) = N_of_ascii c :: py s.
Proof. reflexivity. Qed.

Lemma pretty_N_char_code (m : N) :
  (m < 10)%N -> N_of_ascii (pretty_N_char m) = (48 + m)%N.
Proof.
  intros Hm.
  assert (m = 0 \/ m = 1 \/ m = 2 \/ m = 3 \/ m = 4 \/ m = 5 \/ m = 6 \/
          m = 7 \/ m = 8 \/ m = 9)%N as Hcases by lia.
  repeat (destruct Hcases as [-> | Hcases]; [reflexivity|]).
  subst. reflexivity.
Qed.

Lemma to_decimal_ascii (m : N) : (m < 10)%N -> to_decimal (48 + m) = Some m.
Proof.
  intros Hm. unfold to_decimal, decimal_zeros. cbn [decimal_in].
  destruct (N.leb_spec 48 (48 + m)); [|lia].
  destruct (N.leb_spec (48 + m) (48 + 9)); [|lia].
  simpl. f_equal. lia.
Qed.

(** [int] beyond ASCII: the Arabic-Indic digit one, fullwidth digits
    between a no-break space and an ideographic space, and a file
    separator, which is no white space to [int]. *)
Example py_int_beyond_ascii :
  py_int [1633%N] = Some 1 /\
  py_int [160; 65297; 65298; 12288]%N = Some 12 /\
  py_int [28; 49]%N = None.
Proof. vm_compute. repeat split; reflexivity. Qed.

(** What [int] takes for white space is no digit, underscore or sign. *)
Lemma space_is_no_digit (c : N) :
  is_py_space c = true ->
  to_decimal c = None /\ c <> 95%N /\ c <> 43%N /\ c <> 45%N.
Proof.
  unfold is_py_space. intros Hc%bool_decide_eq_true.
  repeat (apply elem_of_cons in Hc as [->|Hc];
          [split; [vm_compute; reflexivity | lia]|]).
  by apply elem_of_nil in Hc.
Qed.

Lemma digits_value_digit acc after (m : N) (rest : pystr) :
  (m < 10)%N ->
  digits_value acc after ((48 + m)%N :: rest)
  = digits_value (10 * acc + Z.of_N m) true rest.
Proof.
  intros Hm. cbn [digits_value].
  rewrite bool_decide_eq_false_2 by lia.
  by rewrite to_decimal_ascii.
Qed.

(** Reading the digits that [str] writes for a positive number, most
    significant first, after an accumulator. *)
Lemma digits_value_pretty_go (x : N) :
  (0 < x)%N -> forall s,
  exists k, 0 < k /\ forall acc after,
    digits_value acc after (py (pretty_N_go x s))
    = digits_value (acc * k + Z.of_N x) true (py s).
Proof.
  induction x as [x IH] using (well_founded_induction N.lt_wf_0).
  intros Hx s. rewrite pretty_N_go_step by done.
  pose proof (N.mod_lt x 10 ltac:(lia)) as Hmod.
  pose proof (N.div_mod x 10 ltac:(lia)) as Hdiv.
  destruct (decide (x `div` 10 = 0)%N) as [Hsmall|Hbig].
  - rewrite Hsmall, pretty_N_go_0. exists 10. split; [lia|].
    intros acc after. rewrite py_cons, pretty_N_char_code by done.
    rewrite digits_value_digit by done. f_equal. lia.
  - assert (Hlt : (x `div` 10 < x)%N) by (apply N.div_lt; lia).
    assert (Hpos : (0 < x `div` 10)%N) by lia.
    destruct (IH (x `div` 10)%N Hlt Hpos (String (pretty_N_char (x `mod` 10)) s))
      as (k & Hk & Hread).
    exists (10 * k). split; [lia|]. intros acc after.
    rewrite Hread, py_cons, pretty_N_char_code by done.
    rewrite digits_value_digit by done. f_equal. lia.
Qed.

Lemma digits_value_no_space acc after (l : pystr) v :
  digits_value acc after l = Some v -> Forall (fun c => is_py_space c = false) l.
Proof.
  revert acc after. induction l as [|c l IH]; intros acc after Hv; [constructor|].
  cbn [digits_value] in Hv. case_bool_decide as H95.
  - subst c. destruct after; [|done]. constructor; [reflexivity | by eapply IH].
  - destruct (to_decimal c) as [digit|] eqn:Hdigit; [|done].
    constructor; [|by eapply IH].
    destruct (is_py_space c) eqn:Hspace; [|done].
    apply space_is_no_digit in Hspace as [Hnone _]. congruence.
Qed.

Lemma strip_no_space (l : pystr) :
  Forall (fun c => is_py_space c = false) l -> strip l = l.
Proof.
  intros Hl. unfold strip.
  assert (Hdrop : forall l' : pystr,
    Forall (fun c => is_py_space c = false) l' ->
    (fix go (s : pystr) : pystr :=
       match s with
       | [] => []
       | c :: rest => if is_py_space c then go rest else s
       end) l' = l').
  { intros [|c l'] Hl'; [done|]. apply Forall_cons in Hl' as [-> _]. done. }
  rewrite (Hdrop l Hl).
  rewrite Hdrop by (by apply Forall_reverse).
  apply reverse_involutive.
Qed.

Lemma py_int_py_str_int (n : Z) : py_int (py_str_int n) = Some n.
Proof.
  unfold py_str_int, pretty, pretty_Z.
  destruct n as [|p|p]; [reflexivity| |].
  - unfold pretty, pretty_positive, pretty, pretty_N.
    rewrite decide_False by done.
    destruct (digits_value_pretty_go (N.pos p) ltac:(lia) EmptyString) as (k & _ & Hread).
    assert (Hv : digits_value 0 false (py (pretty_N_go (N.pos p) EmptyString)) = Some (Z.pos p)).
    { rewrite Hread. simpl. f_equal. }
    unfold py_int. rewrite strip_no_space by (by eapply digits_value_no_space).
    destruct (py (pretty_N_go (N.pos p) EmptyString)) as [|c l] eqn:Hl; [done|].
    assert (Hc : c <> 43%N /\ c <> 45%N).
    { cbn [digits_value] in Hv. case_bool_decide; [done|].
      destruct (to_decimal c) as [digit|] eqn:Hdigit; [|done].
      split; intros ->; vm_compute in Hdigit; discriminate. }
    destruct Hc as [H43 H45].
    destruct c as [|q]; [done|].
    repeat (destruct q as [q|q|]; try done).
  - unfold pretty, pretty_positive, pretty, pretty_N.
    rewrite decide_False by done.
    destruct (digits_value_pretty_go (N.pos p) ltac:(lia) EmptyString) as (k & _ & Hread).
    assert (Hv : digits_value 0 false (py (pretty_N_go (N.pos p) EmptyString)) = Some (Z.pos p)).
    { rewrite Hread. simpl. f_equal. }
    change (py ("-" +:+ pretty_N_go (N.pos p) EmptyString))
      with (45%N :: py (pretty_N_go (N.pos p) EmptyString)).
    unfold py_int. rewrite strip_no_space.
    + rewrite Hv. reflexivity.
    + constructor; [reflexivity | by eapply digits_value_no_space].
Qed.

(** X1.  Every number a Mayhem peer writes with [str] is the number the
    other reads with [int]: the file size the client sends, the chunk
    count the server announces and the length it sends before each
    chunk message, negative numbers included. *)
Theorem numbers_sent_are_numbers_read (loads : option json) :
  (forall n s,
     MayhemClient.token_text (MayhemClient.FileSize n) = Some s ->
     py_int s = Some n) /\
  (forall n, packet_int (Text (py_str_int n) loads) = Ok n) /\
  (forall chunk_data, exists s,
     MayhemServer.send_chunk chunk_data
     = [MayhemServer.SendText s; MayhemServer.SendJson chunk_data] /\
     packet_int (Text s loads) = Ok (Z.of_nat (length (json_dumps chunk_data)))).
Proof.
  split; [|split].
  - intros n s [= <-]. apply py_int_py_str_int.
  - intros n. unfold packet_int. simpl. by rewrite py_int_py_str_int.
  - intros chunk_data. eexists. split; [reflexivity|].
    unfold packet_int. simpl. by rewrite py_int_py_str_int.
Qed.

Lemma numbers_sent_are_numbers_read_witness :
  py_int (py "1024") = Some 1024.
Proof.
  apply (numbers_sent_are_numbers_read None). reflexivity.
Defined.


(** ** Checksums computed block by block *)

Lemma update_from_file_spec block fuel : 0 < block -> forall (f sha256 : bytes),
  (length f < fuel)%nat ->
  update_from_file block fuel f sha256 = Some (sha256 ++ f).
Proof.
  intros Hpos. induction fuel as [|fuel IH]; intros f sha256 Hfuel; [lia|].
  cbn [update_from_file]. rewrite f_read_pos by lia.
  destruct (take (Z.to_nat block) f) as [|b data] eqn:Htake.
  - destruct f as [|b f]; [by rewrite app_nil_r|].
    destruct (Z.to_nat block) eqn:Hblock; [lia | simpl in Htake; discriminate].
  - rewrite IH.
    + unfold hash_update. rewrite <- Htake, <- app_assoc, take_drop. done.
    + rewrite length_drop. simpl in Hfuel.
      assert (0 < length f)%nat
        by (destruct f; [by rewrite take_nil in Htake | simpl; lia]).
      lia.
Qed.

(** X2.  [calculate_checksum] reads the file 8192 bytes at a time and
    feeds each block to the hash object; whatever the length of the
    file, the loop ends and the digest returned is the SHA-256 of the
    whole file, in the server as in the client. *)
Theorem calculate_checksum_is_digest_of_file `{Hashlib} (file : bytes) :
  FirstTaskServer.calculate_checksum file = Some (sha256_hexdigest file) /\
  FirstTaskClient.calculate_checksum file = Some (sha256_hexdigest file).
Proof.
  unfold FirstTaskServer.calculate_checksum, FirstTaskClient.calculate_checksum.
  rewrite update_from_file_spec by (done || lia). done.
Qed.

Lemma foldl_hash_update (d : gmap pykey bytes) ks : forall fed,
  foldl (fun sha256 k => hash_update sha256 (default [] (d !! k))) fed ks
  = fed ++ concat_at d ks.
Proof.
  induction ks as [|k ks IH]; intros fed; simpl.
  - by rewrite app_nil_r.
  - rewrite IH. unfold hash_update, concat_at. simpl.
    by rewrite <- app_assoc.
Qed.

(** X3.  The digest that [calculate_checksum_from_chunks] and
    [calculate_checksum_from_memory] compute from the chunks in memory
    is the SHA-256 of the very bytes [save_file] writes, which is also
    what [calculate_checksum] returns for the saved file; and the two
    raise together (on keys that [sorted] cannot compare). *)
Theorem checksum_from_chunks_is_checksum_of_saved_file `{Hashlib}
    (self : FirstTaskClient.client) :
  let chunks := FirstTaskClient.received_chunks self in
  FirstTaskClient.calculate_checksum_from_memory self
  = FirstTaskClient.calculate_checksum_from_chunks chunks /\
  FirstTaskClient.calculate_checksum_from_chunks chunks
  = sha256_hexdigest <$> FirstTaskClient.save_file chunks /\
  FirstTaskClient.calculate_checksum_from_chunks chunks
  = FirstTaskClient.save_file chunks ≫= FirstTaskClient.calculate_checksum.
Proof.
  intros chunks. split; [reflexivity|].
  unfold FirstTaskClient.calculate_checksum_from_chunks, FirstTaskClient.save_file.
  destruct (sorted_keys chunks) as [ks|]; simpl; [|done].
  rewrite foldl_hash_update. simpl. split; [done|].
  unfold FirstTaskClient.calculate_checksum.
  rewrite update_from_file_spec by (done || lia). done.
Qed.

(** ** Frames written and read back *)

Lemma byte_of_Z_value z : Z.of_N (Byte.to_N (byte_of_Z z)) = z mod 256.
Proof.
  unfold byte_of_Z. pose proof (Z.mod_pos_bound z 256 ltac:(lia)) as Hmod.
  destruct (Byte.of_N (Z.to_N (z mod 256))) as [b|] eqn:Hb; simpl.
  - apply Byte.to_of_N in Hb. rewrite Hb. lia.
  - apply Byte.of_N_None_iff in Hb. lia.
Qed.

Lemma int_to_bytes4_spec n (b : bytes) :
  int_to_bytes4 n = Some b ->
  length b = 4%nat /\ int_from_bytes b = n /\ 0 <= n < 2 ^ 32.
Proof.
  unfold int_to_bytes4.
  destruct ((0 <=? n) && (n <? 2 ^ 32)) eqn:Hrange; [|done].
  apply andb_prop in Hrange as [Hlo Hhi].
  apply Z.leb_le in Hlo. apply Z.ltb_lt in Hhi.
  intros [= <-]. split; [done|]. split; [|lia].
  unfold int_from_bytes. simpl. rewrite !byte_of_Z_value.
  change (2 ^ 24) with 16777216. change (2 ^ 16) with 65536.
  change (2 ^ 8) with 256. change (2 ^ 32) with 4294967296 in Hhi.
  Z.div_mod_to_equations. lia.
Qed.

Lemma recv_exactly_payload (payload rest : bytes) (s : socket) :
  pending s = payload ++ rest ->
  exists chunks s',
    recv_exactly (length payload) (Z.of_nat (length payload)) 0 [] s
    = Some (Ok chunks, s') /\
    concat chunks = payload /\ pending s' = rest.
Proof.
  intros Hpending.
  destruct (recv_exactly_returns (length payload) (Z.of_nat (length payload)) 0 [] s)
    as (r & s' & Hrun & Hr); [lia|].
  destruct r as [chunks|e].
  - destruct Hr as (more & -> & Hlen & Hrest). exists more, s'.
    split; [done|]. rewrite Hpending in Hrest.
    apply app_inj_1 in Hrest as [-> ->]; [done|lia].
  - destruct Hr as [_ Hshort]. rewrite Hpending, length_app in Hshort. lia.
Qed.

Lemma prefix_then_payload (frame_prefix payload rest : bytes) (s : socket) :
  length frame_prefix = 4%nat ->
  pending s = (frame_prefix ++ payload) ++ rest ->
  length (recv 4 s).1 = 4%nat ->
  (recv 4 s).1 = frame_prefix /\ pending (recv 4 s).2 = payload ++ rest.
Proof.
  intros Hprefix Hpending Hwhole.
  pose proof (recv_spec 4 s ltac:(lia)) as (Hsplit & _ & _).
  rewrite Hpending, <- app_assoc in Hsplit.
  apply app_inj_1 in Hsplit as [-> ->]; [done|lia].
Qed.

(** X4.  A request that [send_request] frames is the request that
    [receive_request] returns, and a response that [send_response]
    frames is the response that [receive_response] returns, however TCP
    cuts the stream into segments after the four bytes of the length
    prefix, which have to arrive in one piece: the payload comes back
    byte for byte and the bytes that follow the frame are left in the
    stream.  Framing itself succeeds exactly on payloads shorter than
    2^32 bytes. *)
Theorem frame_sent_is_frame_received (payload frame rest : bytes) (s : socket) :
  pending s = frame ++ rest ->
  length (recv 4 s).1 = 4%nat ->
  (FirstTaskClient.send_request payload = Some frame ->
   Z.of_nat (length payload) < 2 ^ 32 /\
   exists s', FirstTaskServer.receive_request s = Some (Ok payload, s') /\
              pending s' = rest) /\
  (FirstTaskServer.send_response payload = Some frame ->
   Z.of_nat (length payload) < 2 ^ 32 /\
   exists s', FirstTaskClient.receive_response s = Some (Ok payload, s') /\
              pending s' = rest).
Proof.
  intros Hpending Hwhole.
  assert (Hframe : forall frame_prefix,
    int_to_bytes4 (Z.of_nat (length payload)) = Some frame_prefix ->
    frame = frame_prefix ++ payload ->
    Z.of_nat (length payload) < 2 ^ 32 /\
    exists msg_len_bytes s0 chunks s',
      recv 4 s = (msg_len_bytes, s0) /\ msg_len_bytes <> [] /\
      int_from_bytes msg_len_bytes = Z.of_nat (length payload) /\
      recv_exactly (length payload) (Z.of_nat (length payload)) 0 [] s0
      = Some (Ok chunks, s') /\
      concat chunks = payload /\ pending s' = rest).
  { intros frame_prefix Hbytes ->.
    apply int_to_bytes4_spec in Hbytes as (Hlen & Hvalue & Hrange).
    split; [lia|].
    destruct (prefix_then_payload frame_prefix payload rest s) as [Hread Hleft];
      [done..|].
    destruct (recv_exactly_payload payload rest (recv 4 s).2 Hleft)
      as (chunks & s' & Hrun & Hchunks & Hrest).
    exists (recv 4 s).1, (recv 4 s).2, chunks, s'.
    split; [by destruct (recv 4 s)|]. rewrite Hread.
    split; [by destruct frame_prefix|]. done. }
  split.
  - unfold FirstTaskClient.send_request. intros Hsend.
    destruct (int_to_bytes4 (Z.of_nat (length payload))) as [frame_prefix|] eqn:Hbytes;
      [|done].
    injection Hsend as <-.
    destruct (Hframe frame_prefix eq_refl eq_refl)
      as (Hshort & msg_len_bytes & s0 & chunks & s' & Hrecv & _ & Hvalue & Hrun
          & Hchunks & Hrest).
    split; [done|]. exists s'. split; [|done].
    unfold FirstTaskServer.receive_request. rewrite Hrecv, Hvalue, Nat2Z.id, Hrun.
    simpl. by rewrite Hchunks.
  - unfold FirstTaskServer.send_response. intros Hsend.
    destruct (int_to_bytes4 (Z.of_nat (length payload))) as [frame_prefix|] eqn:Hbytes;
      [|done].
    injection Hsend as <-.
    destruct (Hframe frame_prefix eq_refl eq_refl)
      as (Hshort & msg_len_bytes & s0 & chunks & s' & Hrecv & Hsome & Hvalue & Hrun
          & Hchunks & Hrest).
    split; [done|]. exists s'. split; [|done].
    unfold FirstTaskClient.receive_response. rewrite Hrecv.
    destruct msg_len_bytes as [|b0 bs]; [done|].
    rewrite Hvalue, Nat2Z.id, Hrun. simpl. by rewrite Hchunks.
Qed.

Lemma frame_sent_is_frame_received_witness :
  exists s',
    FirstTaskServer.receive_request
      [[Byte.x00; Byte.x00; Byte.x00; Byte.x02; Byte.x7b]; []; [Byte.x7d; Byte.x00]]
    = Some (Ok (pyb "{}"), s') /\
    pending s' = [Byte.x00].
Proof.
  destruct (frame_sent_is_frame_received (pyb "{}")
              [Byte.x00; Byte.x00; Byte.x00; Byte.x02; Byte.x7b; Byte.x7d]
              [Byte.x00]
              [[Byte.x00; Byte.x00; Byte.x00; Byte.x02; Byte.x7b]; [];
               [Byte.x7d; Byte.x00]]
              eq_refl eq_refl) as [Hrequest _].
  destruct (Hrequest eq_refl) as [_ Hread]. exact Hread.
Defined.

(** ** Chunk sizes at the edge *)

(** X5.  [split_file] with a chunk size that is not positive, which the
    constructor of the server does not rule out.  With size 0 the first
    [f.read(0)] returns nothing and the file is split into no chunks at
    all; with size -1 [f.read] returns the whole file, which becomes
    the one chunk numbered 0; neither loops forever.  Below -1
    [f.read] raises [ValueError]: [split_file] returns nothing, and
    [handle_upload], which has written the temporary file by then,
    answers the upload with "Server error" and leaves that file in
    place. *)
Theorem split_file_without_positive_size `{Hashlib} (chunk_size : Z)
    (file : bytes) :
  chunk_size <= 0 ->
  FirstTaskServer.split_file chunk_size file
  = (if chunk_size <? -1 then None
     else Some (if bool_decide (chunk_size = 0) || bool_decide (file = [])
                then [] else [(0, file)])) /\
  (chunk_size < -1 ->
   forall shuffle faults (file_path : pystr),
     file_path <> [] -> file <> [] ->
     FirstTaskServer.handle_upload chunk_size shuffle faults
       (FirstTaskClient.upload_request file_path file)
     = {| FirstTaskServer.written := Some file;
          FirstTaskServer.responses :=
            [FirstTaskServer.error_msg (py "Server error")] |}).
Proof.
  intros Hsize. split.
  - destruct (Z.ltb_spec chunk_size (-1)) as [Hbelow|Hfrom].
    { by apply split_file_value_error. }
    unfold FirstTaskServer.split_file.
    cbn [FirstTaskServer.split_file_loop]. unfold f_read at 1.
    destruct (Z.ltb_spec chunk_size (-1)) as [|_]; [lia|].
    case_bool_decide as Hzero.
    + by subst chunk_size.
    + destruct (Z.ltb_spec chunk_size 0) as [_|]; [|lia].
      destruct file as [|b file]; [done|].
      cbn [length FirstTaskServer.split_file_loop]. unfold f_read.
      destruct (Z.ltb_spec chunk_size (-1)) as [|_]; [lia|].
      destruct (Z.ltb_spec chunk_size 0) as [_|]; [|lia]. done.
  - intros Hbelow shuffle faults file_path Hpath Hfile.
    unfold FirstTaskServer.handle_upload, FirstTaskClient.upload_request.
    change (dict_get_or_empty (JObj _) (py "file_path")) with (Ok (JStr file_path)).
    change (dict_get_or_empty (JObj _) (py "file_data"))
      with (Ok (JStr (latin1_decode file))).
    simpl.
    destruct file_path as [|c file_path], file as [|x file]; try done.
    change (bool_decide (c :: file_path = [])) with false.
    change (bool_decide (latin1_decode (x :: file) = [])) with false.
    cbn [negb orb].
    by rewrite latin1_encode_decode, split_file_value_error.
Qed.

Lemma split_file_without_positive_size_witness :
  FirstTaskServer.split_file 0 (pyb "abc") = Some [] /\
  FirstTaskServer.split_file (-1) (pyb "abc") = Some [(0, pyb "abc")] /\
  FirstTaskServer.split_file (-2) (pyb "abc") = None /\
  FirstTaskServer.handle_upload (H := plain_digests) (-2) reverse []
    (FirstTaskClient.upload_request (py "f") (pyb "abc"))
  = {| FirstTaskServer.written := Some (pyb "abc");
       FirstTaskServer.responses :=
         [FirstTaskServer.error_msg (py "Server error")] |}.
Proof.
  split; [|split; [|split]].
  - apply (proj1 (split_file_without_positive_size (H := plain_digests)
                    0 (pyb "abc") ltac:(lia))).
  - apply (proj1 (split_file_without_positive_size (H := plain_digests)
                    (-1) (pyb "abc") ltac:(lia))).
  - apply (proj1 (split_file_without_positive_size (H := plain_digests)
                    (-2) (pyb "abc") ltac:(lia))).
  - apply (proj2 (split_file_without_positive_size (H := plain_digests)
                    (-2) (pyb "abc") ltac:(lia)) ltac:(lia)); discriminate.
Defined.



(** ** Simulated bit flips *)

Lemma lxor_byte_bound (a m : N) :
  (a < 256)%N -> (m < 256)%N -> (N.lxor a m < 256)%N.
Proof.
  intros Ha Hm. destruct (decide (N.lxor a m = 0)%N) as [->|Hpos]; [lia|].
  change 256%N with (2 ^ 8)%N. apply N.log2_lt_pow2; [lia|].
  pose proof (N.log2_lxor a m) as Hlog.
  assert (forall x, (x < 256)%N -> (N.log2 x < 8)%N) as Hlog8.
  { intros x Hx. destruct (decide (x = 0)%N) as [->|]; [simpl; lia|].
    apply N.log2_lt_pow2; [lia|]. exact Hx. }
  pose proof (Hlog8 a Ha). pose proof (Hlog8 m Hm). lia.
Qed.

Lemma flip_lookup (data : bytes) (pos : nat) (mask : N) (b : byte) :
  data !! pos = Some b -> (mask < 256)%N ->
  exists b', FirstTaskServer.flip data (pos, mask) = <[pos := b']> data /\
             Byte.to_N b' = N.lxor (Byte.to_N b) mask.
Proof.
  intros Hb Hmask. unfold FirstTaskServer.flip. simpl. rewrite Hb.
  pose proof (Byte.to_N_bounded b) as Hbound.
  destruct (Byte.of_N (N.lxor (Byte.to_N b) mask)) as [b'|] eqn:Hb'.
  - exists b'. split; [done|]. by apply Byte.to_of_N.
  - apply Byte.of_N_None_iff in Hb'.
    pose proof (lxor_byte_bound (Byte.to_N b) mask ltac:(lia) Hmask). lia.
Qed.

Lemma length_flip (data : bytes) pm :
  length (FirstTaskServer.flip data pm) = length data.
Proof.
  unfold FirstTaskServer.flip. destruct (data !! pm.1); [|done].
  by rewrite length_insert.
Qed.

(** X7.  The corruption that [handle_upload] simulates,
    [corrupted_data[pos] ^= mask] for drawn positions and masks: it
    never changes the length of a
    chunk; one flip with a mask from 1 to 255 changes the byte at its
    position and no other; and the same flip drawn twice restores the
    chunk, so that a chunk reported as corrupted can go out intact. *)
Theorem bit_flips_on_a_chunk (data : bytes) :
  (forall flips, length (foldl FirstTaskServer.flip data flips) = length data) /\
  (forall pos mask,
     (pos < length data)%nat -> (1 <= mask <= 255)%N ->
     FirstTaskServer.flip data (pos, mask) !! pos <> data !! pos /\
     forall other, other <> pos ->
       FirstTaskServer.flip data (pos, mask) !! other = data !! other) /\
  (forall pos mask,
     (mask <= 255)%N ->
     foldl FirstTaskServer.flip data [(pos, mask); (pos, mask)] = data).
Proof.
  split; [|split].
  - intros flips. revert data.
    induction flips as [|pm flips IH]; intros data; [done|].
    simpl. by rewrite IH, length_flip.
  - intros pos mask Hpos Hmask.
    destruct (lookup_lt_is_Some_2 data pos Hpos) as [b Hb].
    destruct (flip_lookup data pos mask b Hb ltac:(lia)) as (b' & -> & Hb').
    split.
    + rewrite list_lookup_insert_eq by done. rewrite Hb. intros [= ->].
      assert (N.lxor (Byte.to_N b) (N.lxor (Byte.to_N b) mask) = mask) as Hmask'.
      { by rewrite <- N.lxor_assoc, N.lxor_nilpotent, N.lxor_0_l. }
      rewrite <- Hb', N.lxor_nilpotent in Hmask'. lia.
    + intros other Hother. by rewrite list_lookup_insert_ne.
  - intros pos mask Hmask. simpl.
    destruct (data !! pos) as [b|] eqn:Hb.
    + destruct (flip_lookup data pos mask b Hb ltac:(lia)) as (b' & -> & Hb').
      assert (<[pos := b']> data !! pos = Some b') as Hb''.
      { apply list_lookup_insert_eq. by eapply lookup_lt_Some. }
      destruct (flip_lookup _ pos mask b' Hb'' ltac:(lia)) as (b2 & -> & Hb2).
      rewrite list_insert_insert_eq. apply list_insert_id.
      rewrite Hb. f_equal.
      assert (Byte.to_N b2 = Byte.to_N b) as Hsame.
      { by rewrite Hb2, Hb', N.lxor_assoc, N.lxor_nilpotent, N.lxor_0_r. }
      pose proof (Byte.of_to_N b) as Hof. pose proof (Byte.of_to_N b2) as Hof2.
      congruence.
    + unfold FirstTaskServer.flip. simpl. rewrite Hb. simpl. by rewrite Hb.
Qed.

Lemma bit_flips_on_a_chunk_witness :
  FirstTaskServer.flip (pyb "ab") (1%nat, 3%N) !! 1%nat <> pyb "ab" !! 1%nat.
Proof.
  apply (proj1 (proj2 (bit_flips_on_a_chunk (pyb "ab")))); [simpl; lia | lia].
Defined.

(** ** The Mayhem server receives the file *)

Lemma receive_file_spec fuel : forall file_size bytes_received file_data conn,
  (Z.to_nat (file_size - bytes_received) <= fuel)%nat ->
  exists conn',
    MayhemServer.receive_file fuel file_size bytes_received file_data conn
    = Some (file_data
            ++ take (Z.to_nat (file_size - bytes_received)) (pending conn),
            conn') /\
    pending conn' = drop (Z.to_nat (file_size - bytes_received)) (pending conn).
Proof.
  induction fuel as [|fuel IH]; intros file_size bytes_received file_data conn Hfuel.
  - simpl. destruct (Z.ltb_spec bytes_received file_size); [lia|].
    exists conn. replace (Z.to_nat (file_size - bytes_received)) with 0%nat by lia.
    by rewrite take_0, app_nil_r, drop_0.
  - cbn [MayhemServer.receive_file].
    destruct (Z.ltb_spec bytes_received file_size) as [Hlt|Hge].
    + pose proof (recv_spec (Z.min MayhemServer.CHUNK_SIZE (file_size - bytes_received))
                    conn ltac:(unfold MayhemServer.CHUNK_SIZE; lia))
        as (Hpending & Hlen & Hclosed).
      destruct (recv (Z.min MayhemServer.CHUNK_SIZE (file_size - bytes_received)) conn)
        as [chunk conn1].
      simpl in Hpending, Hlen, Hclosed. destruct chunk as [|b chunk].
      * exists conn1. rewrite Hclosed by done. simpl in Hpending.
        rewrite Hclosed in Hpending by done. rewrite <- Hpending.
        by rewrite take_nil, drop_nil, app_nil_r.
      * destruct (IH file_size (bytes_received + Z.of_nat (length (b :: chunk)))
                    (file_data ++ b :: chunk) conn1) as (conn' & Hrun & Hrest).
        { simpl in *. lia. }
        exists conn'. rewrite Hrun, Hrest, Hpending, <- app_assoc.
        rewrite take_app, drop_app.
        unfold MayhemServer.CHUNK_SIZE in Hlen.
        rewrite (take_ge (b :: chunk)), (drop_ge (b :: chunk)) by lia. simpl.
        replace (Z.to_nat (file_size - (bytes_received + Z.of_nat (S (length chunk)))))
          with (Z.to_nat (file_size - bytes_received) - S (length chunk))%nat
          by lia.
        done.
    + exists conn. replace (Z.to_nat (file_size - bytes_received)) with 0%nat by lia.
      by rewrite take_0, app_nil_r, drop_0.
Qed.

(** X8.  The loop in which the Mayhem server receives the file ends
    for every announced size and every way the bytes arrive, and never
    with an error: it returns the first [file_size] bytes of the
    stream and leaves the rest unread; when the client closes before
    that, it returns the bytes that did arrive, fewer than announced,
    and the server goes on with them. *)
Theorem file_received_is_front_of_stream (file_size : Z) (conn : socket) :
  exists file_data conn',
    MayhemServer.receive_file (Z.to_nat file_size) file_size 0 [] conn
    = Some (file_data, conn') /\
    file_data = take (Z.to_nat file_size) (pending conn) /\
    pending conn' = drop (Z.to_nat file_size) (pending conn) /\
    Z.of_nat (length file_data)
    = Z.max 0 (Z.min file_size (Z.of_nat (length (pending conn)))).
Proof.
  destruct (receive_file_spec (Z.to_nat file_size) file_size 0 [] conn)
    as (conn' & Hrun & Hrest); [lia|].
  rewrite Z.sub_0_r in Hrun, Hrest. simpl in Hrun.
  eexists _, conn'. split; [exact Hrun|]. split; [done|]. split; [done|].
  rewrite length_take. lia.
Qed.

(** ** Sessions of first_task: the server's responses read by the client *)

Section first_task_session.
Context `{Hashlib}.
Import FirstTaskServer FirstTaskClient.










End first_task_session.


Section first_task_failures.
Context `{Hashlib}.
Import FirstTaskServer FirstTaskClient.

(** X10.  first_task cannot transfer an empty file.  The client sends
    the content as the text [file_data]; for a file without bytes that
    text is empty, the server takes it for a missing field, writes no
    temporary file and answers with an error, whatever its chunk size;
    the client, reading that answer, returns [False] at once, without
    a retry and without writing an output file. *)
Theorem first_task_refuses_empty_file chunk_size shuffle faults
    (file_path : pystr) fuel self w rest :
  let request := upload_request file_path [] in
  let effects := handle_upload chunk_size shuffle faults request in
  incoming w = (Response <$> responses effects) ++ rest ->
  effects = {| written := None;
               responses := [error_msg (py "Missing file path or file data")] |} /\
  upload_file file_path [] (S fuel) self w
  = Some (false, self, after_pass w request [] rest).
Proof.
  intros request effects Hin.
  assert (Heffects : effects
          = {| written := None;
               responses := [error_msg (py "Missing file path or file data")] |}).
  { unfold effects, request, handle_upload, upload_request.
    change (dict_get_or_empty (JObj _) (py "file_path")) with (Ok (JStr file_path)).
    change (dict_get_or_empty (JObj _) (py "file_data")) with (Ok (JStr [])).
    simpl. by rewrite orb_true_r. }
  split; [done|]. rewrite Heffects in Hin. simpl in Hin.
  unfold after_pass. simpl. unfold upload_pass. simpl. rewrite Hin. simpl.
  by rewrite app_nil_r.
Qed.



End first_task_failures.


Lemma first_task_refuses_empty_file_witness :
  let self := {| FirstTaskClient.max_retries := 3;
                 FirstTaskClient.retry_count := 0;
                 FirstTaskClient.received_chunks := ∅ |} in
  let request := FirstTaskClient.upload_request (py "f") [] in
  let w := {| FirstTaskClient.sent := []; FirstTaskClient.saved := [];
              FirstTaskClient.incoming :=
                [FirstTaskClient.Response
                   (FirstTaskServer.error_msg (py "Missing file path or file data"))] |} in
  FirstTaskClient.upload_file (H := plain_digests) (py "f") [] 1 self w
  = Some (false, self, after_pass w request [] []).
Proof.
  intros self request w.
  exact (proj2 (first_task_refuses_empty_file (H := plain_digests)
                  1024 reverse [] (py "f") 0 self w [] eq_refl)).
Defined.


(** ** Corruption in transit *)






Section first_task_corruption.
Context `{Hashlib}.
Import FirstTaskServer FirstTaskClient.

End first_task_corruption.


(** ** Requests for retransmission *)

Lemma digits_value_chars acc after (l : pystr) v :
  digits_value acc after l = Some v ->
  Forall (fun c => c = 95%N \/ is_Some (to_decimal c)) l.
Proof.
  revert acc after. induction l as [|c l IH]; intros acc after Hv; [constructor|].
  cbn [digits_value] in Hv. case_bool_decide as H95.
  - subst c. destruct after; [|done]. constructor; [by left | by eapply IH].
  - destruct (to_decimal c) as [digit|] eqn:Hdigit; [|done].
    constructor; [right; eauto | by eapply IH].
Qed.

(** The characters of [str(n)]: a minus sign, digits, nothing else. *)
Lemma py_str_int_chars (n : Z) :
  Forall (fun c => c = 45%N \/ c = 95%N \/ is_Some (to_decimal c)) (py_str_int n).
Proof.
  assert (Hpos : forall p,
    Forall (fun c => c = 45%N \/ c = 95%N \/ is_Some (to_decimal c))
      (py (pretty_N_go (N.pos p) EmptyString))).
  { intros p.
    destruct (digits_value_pretty_go (N.pos p) ltac:(lia) EmptyString) as (k & _ & Hread).
    eapply Forall_impl; [eapply digits_value_chars, (Hread 0 false)|].
    simpl. intros c Hc. by right. }
  unfold py_str_int, pretty, pretty_Z. destruct n as [|p|p].
  - change (py "0") with [48%N].
    constructor; [right; right; by exists 0%N | constructor].
  - unfold pretty, pretty_positive, pretty, pretty_N.
    rewrite decide_False by done. apply Hpos.
  - unfold pretty, pretty_positive, pretty, pretty_N.
    rewrite decide_False by done.
    change (py ("-" +:+ pretty_N_go (N.pos p) EmptyString))
      with (45%N :: py (pretty_N_go (N.pos p) EmptyString)).
    constructor; [by left | apply Hpos].
Qed.

Lemma split_on_absent (sep : N) (s : pystr) : sep ∉ s -> split_on sep s = [s].
Proof.
  induction s as [|c s IH]; intros Hsep; [done|]. simpl.
  apply not_elem_of_cons in Hsep as [Hc Hs].
  rewrite bool_decide_eq_false_2 by done. by rewrite IH.
Qed.

Lemma retransmit_text_parsed (i : Z) :
  let ack := py "RETRANSMIT:" ++ py_str_int i in
  startswith ack (py "RETRANSMIT") = true /\
  (list_item (split_on 58 ack) 1 ≫= py_int) = Some i.
Proof.
  intros ack. split; [reflexivity|].
  assert (58%N ∉ py_str_int i) as Hcolon.
  { intros Hin. pose proof (py_str_int_chars i) as Hchars.
    rewrite Forall_forall in Hchars.
    apply Hchars in Hin as [Hin|[Hin|[digit Hin]]]; [lia | lia |].
    vm_compute in Hin. discriminate. }
  unfold ack. simpl. rewrite (split_on_absent 58 _ Hcolon). simpl.
  apply py_int_py_str_int.
Qed.

Section mayhem_retransmit.
Context `{Hashlib}.
Variable client_id : pystr.
Import MayhemServer.

Lemma retransmit_other chunks ack incoming :
  startswith ack (py "RETRANSMIT") = false ->
  retransmit client_id chunks ack incoming = ([], None, incoming).
Proof. intros Hack. destruct incoming; simpl; by rewrite Hack. Qed.

Lemma retransmit_numbered chunks (i : Z) incoming :
  retransmit client_id chunks (py "RETRANSMIT:" ++ py_str_int i) incoming
  = match list_item chunks i with
    | None => ([], Some IndexError, incoming)
    | Some chunk_to_resend =>
        let out := send_chunk (chunk_data client_id i chunk_to_resend
                                 (md5_hexdigest chunk_to_resend)) in
        match incoming with
        | [] | [_] => (out, None, [])
        | _ :: Garbled :: rest => (out, Some UnicodeDecodeError, rest)
        | _ :: Text ack' _ :: rest =>
            let '(out', raised, rest') := retransmit client_id chunks ack' rest in
            (out ++ out', raised, rest')
        end
    end.
Proof.
  destruct (retransmit_text_parsed i) as [Hstarts Hparsed].
  destruct (list_item (split_on 58 (py "RETRANSMIT:" ++ py_str_int i)) 1)
    as [field|] eqn:Hfield; [|done].
  simpl in Hparsed.
  destruct incoming as [|p incoming]; cbn [retransmit];
    rewrite Hstarts, Hfield, Hparsed; done.
Qed.
End mayhem_retransmit.

(** X13.  The request [RETRANSMIT:<sequence>] that the client writes
    for a chunk is understood by the server's loop: the text starts
    with [RETRANSMIT], its second field read with [int] is the sequence
    number, and the server sends the chunk stored under that number
    again, with its true MD5 digest.  A number past the last chunk
    ends the handler with [IndexError] and nothing sent; a negative
    number counts from the end of the list, as Python indexes. *)
Theorem retransmission_request_is_served `{Hashlib} (client_id : pystr)
    (chunks : list bytes) (i : Z) (ack : pystr) (incoming : list packet) :
  MayhemClient.token_text (MayhemClient.RETRANSMIT (JInt i)) = Some ack ->
  let served := MayhemServer.retransmit client_id chunks ack incoming in
  let resent chunk :=
    MayhemServer.send_chunk
      (MayhemServer.chunk_data client_id i chunk (md5_hexdigest chunk)) in
  (forall chunk, 0 <= i -> chunks !! Z.to_nat i = Some chunk ->
     exists more, served.1.1 = resent chunk ++ more) /\
  (Z.of_nat (length chunks) <= i \/ i < - Z.of_nat (length chunks) ->
     served = ([], Some IndexError, incoming)) /\
  (forall chunk, i < 0 ->
     chunks !! Z.to_nat (i + Z.of_nat (length chunks)) = Some chunk ->
     0 <= i + Z.of_nat (length chunks) ->
     exists more, served.1.1 = resent chunk ++ more).
Proof.
  intros Htext served resent. unfold served.
  assert (ack = py "RETRANSMIT:" ++ py_str_int i) as ->
    by (by injection Htext as <-).
  rewrite retransmit_numbered.
  assert (Hsent : forall chunk, list_item chunks i = Some chunk ->
    exists more,
      (match incoming with
       | [] | [_] => (resent chunk, None, [])
       | _ :: Garbled :: rest => (resent chunk, Some UnicodeDecodeError, rest)
       | _ :: Text ack' _ :: rest =>
           let '(out', raised, rest') :=
             MayhemServer.retransmit client_id chunks ack' rest in
           (resent chunk ++ out', raised, rest')
       end).1.1 = resent chunk ++ more).
  { intros chunk _. destruct incoming as [|p [|[|ack' loads] rest]]; simpl;
      try (exists []; by rewrite ?app_nil_r).
    destruct (MayhemServer.retransmit client_id chunks ack' rest) as [[out' ?] ?].
    by exists out'. }
  split; [|split].
  - intros chunk Hi Hchunk.
    assert (list_item chunks i = Some chunk) as Hitem.
    { unfold list_item. destruct (Z.ltb_spec i 0); [lia|].
      destruct (Z.ltb_spec i 0); [lia|done]. }
    rewrite Hitem. by apply Hsent.
  - intros Hrange.
    assert (list_item chunks i = None) as ->; [|done].
    unfold list_item. destruct (Z.ltb_spec i 0).
    + destruct (Z.ltb_spec (i + Z.of_nat (length chunks)) 0); [done|lia].
    + destruct (Z.ltb_spec i 0); [lia|]. apply lookup_ge_None. lia.
  - intros chunk Hi Hchunk Hrange.
    assert (list_item chunks i = Some chunk) as Hitem.
    { unfold list_item. destruct (Z.ltb_spec i 0); [|lia].
      destruct (Z.ltb_spec (i + Z.of_nat (length chunks)) 0); [lia|done]. }
    rewrite Hitem. by apply Hsent.
Qed.

Lemma retransmission_request_is_served_witness :
  exists more,
    (MayhemServer.retransmit (H := plain_digests) (py "c") [pyb "ab"; pyb "cd"]
       (py "RETRANSMIT:1") []).1.1
    = MayhemServer.send_chunk
        (MayhemServer.chunk_data (py "c") 1 (pyb "cd") (bytes_hex (pyb "cd")))
      ++ more.
Proof.
  apply (proj1 (retransmission_request_is_served (H := plain_digests)
                  (py "c") [pyb "ab"; pyb "cd"] 1 (py "RETRANSMIT:1") [] eq_refl)
           (pyb "cd")); [lia | reflexivity].
Defined.

(** ** Sessions of The-Multi-Client-Mayhem: the two programs face to face *)

Lemma holds_fresh d (chunks : list bytes) (j : Z) :
  holds d chunks -> Z.of_nat (length chunks) <= j -> d !! KInt j = None.
Proof.
  intros Hd Hj. destruct (d !! KInt j) as [x|] eqn:Hx; [|done].
  apply Hd in Hx as (i & [= <-] & Hi & Hlookup).
  apply lookup_lt_Some in Hlookup. lia.
Qed.

Lemma holds_snoc d (chunks : list bytes) (c : bytes) :
  holds d chunks ->
  holds (<[KInt (Z.of_nat (length chunks)) := c]> d) (chunks ++ [c]).
Proof.
  intros Hd k x. rewrite lookup_insert_Some. split.
  - intros [[<- <-]|[Hk Hx]].
    + exists (Z.of_nat (length chunks)). split; [done|]. split; [lia|].
      rewrite Nat2Z.id. by rewrite lookup_app_r, Nat.sub_diag.
    + apply Hd in Hx as (i & -> & Hi & Hlookup). exists i.
      split; [done|]. split; [done|]. by apply lookup_app_l_Some.
  - intros (i & -> & Hi & Hlookup).
    apply lookup_snoc_Some in Hlookup as [[Hlt Hlookup]|[Hlast <-]].
    + right. split; [intros [= Heq]; lia|]. apply Hd. by exists i.
    + left. split; [|done]. f_equal. lia.
Qed.

Lemma holds_nil : holds ∅ [].
Proof.
  intros k x. rewrite lookup_empty. split; [done|].
  by intros (i & _ & _ & Hlookup).
Qed.

Lemma numeral_is_no_end_marker (n : Z) loads :
  packet_is (Text (py_str_int n) loads) (py "TRANSFER_COMPLETE") = false.
Proof.
  simpl. apply bool_decide_eq_false_2. intros Hmarker.
  pose proof (py_int_py_str_int n) as Hread. rewrite Hmarker in Hread.
  vm_compute in Hread. discriminate.
Qed.

Lemma json_dumps_obj_length kv : 0 < Z.of_nat (length (json_dumps (JObj kv))).
Proof.
  destruct (json_dumps (JObj kv)) as [|c text] eqn:Htext; [|simpl; lia].
  simpl in Htext. discriminate.
Qed.

Section mayhem_client_steps.
Context `{Hashlib}.
Variable client_id : pystr.
Import MayhemServer MayhemClient.

(** One pass of the client's loop over a length announcement and the
    chunk message it announces. *)
Lemma receive_one_announced num st chunk_info loads rest :
  incoming st
  = Text (py_str_int (Z.of_nat (length (json_dumps chunk_info)))) loads
    :: json_packet chunk_info :: rest ->
  0 < Z.of_nat (length (json_dumps chunk_info)) ->
  receive_one num st
  = on_chunk num chunk_info
      {| chunks := chunks st; sent := sent st ++ [OK]; incoming := rest;
         iterations := S (iterations st) |}.
Proof.
  intros Hin Hlen. unfold receive_one. simpl. rewrite Hin.
  cbn [pop]. rewrite numeral_is_no_end_marker.
  unfold packet_int. cbn [decode mbind result_bind].
  rewrite py_int_py_str_int. cbn [or_raise]. unfold recv_sized.
  destruct (Z.ltb_spec (Z.of_nat (length (json_dumps chunk_info))) 0); [lia|].
  destruct (Z.eqb_spec (Z.of_nat (length (json_dumps chunk_info))) 0); [lia|].
  reflexivity.
Qed.

Lemma carries_send_chunk chunk_info pkts :
  Forall2 carries (send_chunk chunk_info) pkts ->
  exists loads,
    pkts = [Text (py_str_int (Z.of_nat (length (json_dumps chunk_info)))) loads;
            json_packet chunk_info].
Proof.
  unfold send_chunk. intros Hpkts.
  apply Forall2_cons_inv_l in Hpkts as (p1 & pkts1 & [loads ->] & Hpkts & ->).
  apply Forall2_cons_inv_l in Hpkts as (p2 & pkts2 & Hp2 & Hpkts & ->).
  apply Forall2_nil_inv_l in Hpkts as ->. simpl in Hp2. subst p2.
  by exists loads.
Qed.

Lemma receive_one_intact num st (i : Z) (c : bytes) pkts rest :
  Forall2 carries (send_chunk (chunk_data client_id i c (md5_hexdigest c))) pkts ->
  incoming st = pkts ++ rest ->
  chunks st !! KInt i = None ->
  receive_one num st
  = ({| chunks := <[KInt i := c]> (chunks st); sent := sent st ++ [OK; OK];
        incoming := rest; iterations := S (iterations st) |},
     if bool_decide (Z.of_nat (S (size (chunks st))) = num) then Break else Continue).
Proof.
  intros [loads ->]%carries_send_chunk Hin Hfresh.
  rewrite (receive_one_announced _ _ _ _ _ Hin) by apply json_dumps_obj_length.
  unfold on_chunk. rewrite chunk_fields_chunk_data. simpl.
  rewrite bool_decide_eq_true_2 by done. simpl. rewrite Hfresh.
  unfold send, set_chunks. simpl.
  rewrite map_size_insert_None by done. rewrite <- app_assoc. simpl.
  by case_bool_decide.
Qed.

Lemma receive_one_forged num st (i : Z) (c : bytes) pkts rest :
  md5_hexdigest c <> py "corrupted_checksum" ->
  Forall2 carries
    (send_chunk (chunk_data client_id i c (py "corrupted_checksum"))) pkts ->
  incoming st = pkts ++ rest ->
  receive_one num st
  = ({| chunks := chunks st; sent := sent st ++ [OK; RETRANSMIT (JInt i)];
        incoming := rest; iterations := S (iterations st) |},
     Continue).
Proof.
  intros Hmd5 [loads ->]%carries_send_chunk Hin.
  rewrite (receive_one_announced _ _ _ _ _ Hin) by apply json_dumps_obj_length.
  rewrite (on_chunk_mismatch _ _ _ (JInt i) c (JStr (py "corrupted_checksum")));
    [|apply chunk_fields_chunk_data|congruence].
  unfold send. simpl. by rewrite <- app_assoc.
Qed.
End mayhem_client_steps.

Section mayhem_client_loop.
Context `{Hashlib}.
Variable client_id : pystr.
Import MayhemServer MayhemClient.

(** The passes of the client's loop over one chunk that is not
    dropped: the chunk is stored, after a request for retransmission
    if its digest was forged, and the loop ends there if the chunk
    completes the count. *)
Lemma receive_loop_chunk num n st (i : Z) (c : bytes) fault pkts rest :
  fault <> Some Drop ->
  (fault = Some Corrupt -> md5_hexdigest c <> py "corrupted_checksum") ->
  Forall2 carries
    (match fault with
     | Some Corrupt =>
         send_chunk (chunk_data client_id i c (py "corrupted_checksum"))
         ++ send_chunk (chunk_data client_id i c (md5_hexdigest c))
     | _ => send_chunk (chunk_data client_id i c (md5_hexdigest c))
     end) pkts ->
  incoming st = pkts ++ rest ->
  chunks st !! KInt i = None ->
  (passes fault <= n)%nat ->
  let st1 :=
    {| chunks := <[KInt i := c]> (chunks st);
       sent := sent st ++ match fault with
                          | Some Corrupt => [OK; RETRANSMIT (JInt i); OK; OK]
                          | _ => [OK; OK]
                          end;
       incoming := rest;
       iterations := (passes fault + iterations st)%nat |} in
  receive_loop n num st
  = if bool_decide (Z.of_nat (S (size (chunks st))) = num) then st1
    else receive_loop (n - passes fault) num st1.
Proof.
  intros Hdrop Hmd5 Hpkts Hin Hfresh Hn st1.
  assert (Hintact : forall n st pkts,
    Forall2 carries (send_chunk (chunk_data client_id i c (md5_hexdigest c))) pkts ->
    incoming st = pkts ++ rest -> chunks st !! KInt i = None -> (1 <= n)%nat ->
    receive_loop n num st
    = if bool_decide (Z.of_nat (S (size (chunks st))) = num)
      then {| chunks := <[KInt i := c]> (chunks st); sent := sent st ++ [OK; OK];
              incoming := rest; iterations := S (iterations st) |}
      else receive_loop (n - 1) num
             {| chunks := <[KInt i := c]> (chunks st); sent := sent st ++ [OK; OK];
                incoming := rest; iterations := S (iterations st) |}).
  { clear. intros [|n] st pkts Hpkts Hin Hfresh Hn; [lia|].
    cbn [receive_loop]. rewrite (receive_one_intact _ _ _ _ _ _ _ Hpkts Hin Hfresh).
    replace (S n - 1)%nat with n by lia. by case_bool_decide. }
  destruct fault as [[| |]|]; [| done | |].
  { unfold st1. simpl. by apply (Hintact n st pkts). }
  2: { unfold st1. simpl. by apply (Hintact n st pkts). }
  apply Forall2_app_inv_l in Hpkts as (pkts1 & pkts2 & Hpkts1 & Hpkts2 & ->).
  destruct n as [|n]; [simpl in Hn; lia|]. cbn [receive_loop].
  rewrite <- app_assoc in Hin.
  rewrite (receive_one_forged _ _ _ _ _ _ _ (Hmd5 eq_refl) Hpkts1 Hin).
  rewrite (Hintact n _ pkts2 Hpkts2); [|done|done|simpl in Hn; lia].
  unfold st1. simpl. rewrite <- !app_assoc. simpl.
  replace (S n - 2)%nat with (n - 1)%nat by lia. done.
Qed.

Lemma kept_nil (i : Z) todo : forall faults,
  kept i todo faults = [] ->
  chunk_messages client_id i todo faults = [] /\ chunk_replies i todo faults = [].
Proof.
  revert i. induction todo as [|c todo IH]; intros i faults Hkept; [done|].
  simpl in *. destruct (head faults) as [[| |]|]; try done.
  simpl in *. by apply IH.
Qed.

Lemma store_all_cons d (i : Z) (c : bytes) items :
  store_all d ((i, c) :: items) = store_all (<[KInt i := c]> d) items.
Proof. reflexivity. Qed.

(** The client's loop over the chunk messages of a session, as long
    as the chunks that arrive do not complete the count. *)
Lemma receive_loop_incomplete num todo : forall (i : Z) faults n st pkts rest,
  Forall (fun c => md5_hexdigest c <> py "corrupted_checksum") todo ->
  Forall2 carries (chunk_messages client_id i todo faults) pkts ->
  incoming st = pkts ++ rest ->
  (forall j, i <= j -> chunks st !! KInt j = None) ->
  (2 * length (kept i todo faults) <= n)%nat ->
  Z.of_nat (size (chunks st) + length (kept i todo faults)) < num ->
  exists used its,
    (used <= 2 * length (kept i todo faults))%nat /\
    receive_loop n num st
    = receive_loop (n - used) num
        {| chunks := store_all (chunks st) (kept i todo faults);
           sent := sent st ++ chunk_replies i todo faults;
           incoming := rest; iterations := its |}.
Proof.
  induction todo as [|c todo IH];
    intros i faults n st pkts rest Hmd5 Hpkts Hin Hfresh Hn Hsize.
  - apply Forall2_nil_inv_l in Hpkts as ->. exists 0%nat, (iterations st).
    split; [simpl; lia|]. simpl. rewrite Nat.sub_0_r, app_nil_r.
    f_equal. destruct st. simpl in *. by subst.
  - apply Forall_cons in Hmd5 as [Hc Hmd5].
    cbn [chunk_messages kept chunk_replies] in *.
    assert (head faults = Some Drop \/ head faults <> Some Drop) as [Hdrop|Hdrop]
      by (destruct (head faults) as [[| |]|]; (by left) || (by right)).
    + rewrite Hdrop in *. simpl in *.
      apply (IH (i + 1) (tail faults) n st pkts rest); try done.
      intros j Hj. apply Hfresh. lia.
    + apply Forall2_app_inv_l in Hpkts as (pkts1 & pkts2 & Hpkts1 & Hpkts2 & ->).
      assert (kept_here : match head faults with
                          | Some Drop => []
                          | _ => [(i, c)]
                          end = [(i, c)])
        by (by destruct (head faults) as [[| |]|]).
      rewrite kept_here in *. simpl in Hn, Hsize.
      rewrite <- app_assoc in Hin.
      assert (Hpasses : (1 <= passes (head faults) <= 2)%nat)
        by (destruct (head faults) as [[| |]|]; simpl; (done || lia)).
      rewrite (receive_loop_chunk num n st i c (head faults) pkts1 (pkts2 ++ rest));
        try done.
      * rewrite bool_decide_eq_false_2 by lia.
        destruct (IH (i + 1) (tail faults) (n - passes (head faults))%nat
                    {| chunks := <[KInt i := c]> (chunks st);
                       sent := sent st ++ match head faults with
                                          | Some Corrupt =>
                                              [OK; RETRANSMIT (JInt i); OK; OK]
                                          | _ => [OK; OK]
                                          end;
                       incoming := pkts2 ++ rest;
                       iterations := (passes (head faults) + iterations st)%nat |}
                    pkts2 rest) as (used & its & Hused & Hloop); try done.
        -- intros j Hj. simpl. rewrite lookup_insert_ne by (intros [= ->]; lia).
           apply Hfresh. lia.
        -- lia.
        -- simpl. rewrite map_size_insert_None by (apply Hfresh; lia). lia.
        -- exists (passes (head faults) + used)%nat, its. split; [simpl; lia|].
           rewrite Hloop. simpl. rewrite <- app_assoc.
           replace (n - passes (head faults) - used)%nat
             with (n - (passes (head faults) + used))%nat by lia.
           do 3 f_equal. by destruct (head faults) as [[| |]|].
      * by destruct (head faults) as [[| |]|].
      * apply Hfresh. lia.
      * lia.
Qed.

(** The same loop when the chunks that arrive complete the count: the
    loop ends with the last of them. *)
Lemma receive_loop_complete num todo : forall (i : Z) faults n st pkts rest,
  Forall (fun c => md5_hexdigest c <> py "corrupted_checksum") todo ->
  Forall2 carries (chunk_messages client_id i todo faults) pkts ->
  incoming st = pkts ++ rest ->
  (forall j, i <= j -> chunks st !! KInt j = None) ->
  (2 * length (kept i todo faults) <= n)%nat ->
  kept i todo faults <> [] ->
  Z.of_nat (size (chunks st) + length (kept i todo faults)) = num ->
  exists its,
    receive_loop n num st
    = {| chunks := store_all (chunks st) (kept i todo faults);
         sent := sent st ++ chunk_replies i todo faults;
         incoming := rest; iterations := its |}.
Proof.
  induction todo as [|c todo IH];
    intros i faults n st pkts rest Hmd5 Hpkts Hin Hfresh Hn Hkept Hsize; [done|].
  apply Forall_cons in Hmd5 as [Hc Hmd5].
  cbn [chunk_messages kept chunk_replies] in *.
  assert (head faults = Some Drop \/ head faults <> Some Drop) as [Hdrop|Hdrop]
    by (destruct (head faults) as [[| |]|]; (by left) || (by right)).
  - rewrite Hdrop in *. simpl in *.
    apply (IH (i + 1) (tail faults) n st pkts rest); try done.
    intros j Hj. apply Hfresh. lia.
  - apply Forall2_app_inv_l in Hpkts as (pkts1 & pkts2 & Hpkts1 & Hpkts2 & ->).
    assert (kept_here : match head faults with
                        | Some Drop => []
                        | _ => [(i, c)]
                        end = [(i, c)])
      by (by destruct (head faults) as [[| |]|]).
    rewrite kept_here in *. simpl in Hn, Hsize. clear Hkept.
    rewrite <- app_assoc in Hin.
    assert (Hpasses : (1 <= passes (head faults) <= 2)%nat)
      by (destruct (head faults) as [[| |]|]; simpl; (done || lia)).
    rewrite (receive_loop_chunk num n st i c (head faults) pkts1 (pkts2 ++ rest));
      try done.
    + destruct (kept (i + 1) todo (tail faults)) as [|item items] eqn:Hrest.
      * destruct (kept_nil _ _ _ Hrest) as [Hmsgs Hreplies].
        rewrite Hmsgs in Hpkts2. apply Forall2_nil_inv_l in Hpkts2 as ->.
        rewrite Hreplies. simpl in Hsize.
        rewrite bool_decide_eq_true_2 by lia.
        eexists. simpl. f_equal. by destruct (head faults) as [[| |]|].
      * simpl in Hsize. rewrite bool_decide_eq_false_2 by lia.
        destruct (IH (i + 1) (tail faults) (n - passes (head faults))%nat
                    {| chunks := <[KInt i := c]> (chunks st);
                       sent := sent st ++ match head faults with
                                          | Some Corrupt =>
                                              [OK; RETRANSMIT (JInt i); OK; OK]
                                          | _ => [OK; OK]
                                          end;
                       incoming := pkts2 ++ rest;
                       iterations := (passes (head faults) + iterations st)%nat |}
                    pkts2 rest) as (its & Hloop); try done.
        -- intros j Hj. simpl. rewrite lookup_insert_ne by (intros [= ->]; lia).
           apply Hfresh. lia.
        -- rewrite Hrest. simpl in *. lia.
        -- by rewrite Hrest.
        -- simpl. rewrite map_size_insert_None by (apply Hfresh; lia).
           rewrite Hrest. simpl. lia.
        -- exists its. rewrite Hloop, Hrest. simpl. rewrite <- app_assoc.
           do 2 f_equal. by destruct (head faults) as [[| |]|].
    + by destruct (head faults) as [[| |]|].
    + apply Hfresh. lia.
    + lia.
Qed.
End mayhem_client_loop.

Section mayhem_server_loop.
Context `{Hashlib}.
Variable client_id : pystr.
Import MayhemServer.

Lemma says_text t s p :
  MayhemClient.token_text t = Some s -> says t p -> exists loads, p = Text s loads.
Proof. intros Ht (s' & loads & Ht' & ->). exists loads. congruence. Qed.

Lemma drop_head (all : list bytes) (i : nat) c todo :
  drop i all = c :: todo -> all !! i = Some c /\ drop (S i) all = todo.
Proof.
  intros Hdrop.
  assert (all !! i = Some c) as Hc.
  { rewrite <- (Nat.add_0_r i), <- lookup_drop, Hdrop. done. }
  split; [done|]. rewrite (drop_S _ _ _ Hc) in Hdrop. congruence.
Qed.

(** The server's loop over the chunks, answered by the client's replies
    of the session. *)
Lemma send_chunks_session all todo : forall (i : nat) faults pkts rest,
  drop i all = todo ->
  Forall2 says (chunk_replies (Z.of_nat i) todo faults) pkts ->
  send_chunks client_id all (Z.of_nat i) todo faults (pkts ++ rest)
  = (chunk_messages client_id (Z.of_nat i) todo faults, None, rest).
Proof.
  induction todo as [|c todo IH]; intros i faults pkts rest Hdrop Hpkts.
  - apply Forall2_nil_inv_l in Hpkts as ->. done.
  - apply drop_head in Hdrop as [Hc Hdrop].
    cbn [send_chunks chunk_messages chunk_replies] in *.
    replace (Z.of_nat i + 1) with (Z.of_nat (S i)) in * by lia.
    assert (Hok : forall p pkts' rest',
      says MayhemClient.OK p ->
      Forall2 says (chunk_replies (Z.of_nat (S i)) todo (tail faults)) pkts' ->
      exists ack loads,
        p = Text ack loads /\
        retransmit client_id all ack (pkts' ++ rest') = ([], None, pkts' ++ rest') /\
        send_chunks client_id all (Z.of_nat (S i)) todo (tail faults) (pkts' ++ rest')
        = (chunk_messages client_id (Z.of_nat (S i)) todo (tail faults), None, rest')).
    { intros p pkts' rest' [loads ->]%(says_text _ (py "OK")) Hpkts'; [|done].
      exists (py "OK"), loads. split; [done|].
      split; [by apply retransmit_other | by apply IH]. }
    destruct (head faults) as [[| |]|] eqn:Hfault.
    + apply Forall2_cons_inv_l in Hpkts as (p1 & pkts1 & _ & Hpkts & ->).
      apply Forall2_cons_inv_l in Hpkts as (p2 & pkts2 & Hp2 & Hpkts & ->).
      destruct (Hok p2 pkts2 rest Hp2 Hpkts) as (ack & loads & -> & Hre & Hloop).
      simpl. rewrite Hre, Hloop. done.
    + simpl in *. by apply IH.
    + apply Forall2_cons_inv_l in Hpkts as (p1 & pkts1 & _ & Hpkts & ->).
      apply Forall2_cons_inv_l in Hpkts as (p2 & pkts2 & Hp2 & Hpkts & ->).
      apply Forall2_cons_inv_l in Hpkts as (p3 & pkts3 & _ & Hpkts & ->).
      apply Forall2_cons_inv_l in Hpkts as (p4 & pkts4 & Hp4 & Hpkts & ->).
      apply (says_text _ (py "RETRANSMIT:" ++ py_str_int (Z.of_nat i))) in Hp2
        as [loads2 ->]; [|done].
      destruct (Hok p4 pkts4 rest Hp4 Hpkts) as (ack & loads & -> & Hre & Hloop).
      cbn [app pop decode fst snd].
      rewrite retransmit_numbered.
      assert (list_item all (Z.of_nat i) = Some c) as ->.
      { unfold list_item. destruct (Z.ltb_spec (Z.of_nat i) 0); [lia|].
        destruct (Z.ltb_spec (Z.of_nat i) 0); [lia|]. by rewrite Nat2Z.id. }
      cbn zeta. rewrite Hre, Hloop. simpl. done.
    + apply Forall2_cons_inv_l in Hpkts as (p1 & pkts1 & _ & Hpkts & ->).
      apply Forall2_cons_inv_l in Hpkts as (p2 & pkts2 & Hp2 & Hpkts & ->).
      destruct (Hok p2 pkts2 rest Hp2 Hpkts) as (ack & loads & -> & Hre & Hloop).
      simpl. rewrite Hre, Hloop. done.
Qed.
End mayhem_server_loop.

Lemma kept_no_drop todo : forall (i : Z) faults,
  Forall (fun f => f <> MayhemServer.Drop) faults ->
  kept i todo faults = imap (fun k c => (i + Z.of_nat k, c)) todo.
Proof.
  induction todo as [|c todo IH]; intros i faults Hfaults; [done|].
  cbn [kept]. rewrite imap_cons, IH.
  - assert (match head faults with
            | Some MayhemServer.Drop => []
            | _ => [(i, c)]
            end = [(i + Z.of_nat 0, c)]) as ->.
    { replace (i + Z.of_nat 0) with i by lia.
      destruct Hfaults as [|[| |] faults ? ?]; done. }
    simpl. f_equal. apply imap_ext. intros k x _. simpl. f_equal. lia.
  - destruct Hfaults; [constructor | done].
Qed.

Lemma kept_length todo : forall (i : Z) faults,
  (length (kept i todo faults) <= length todo)%nat /\
  forall k, faults !! k = Some MayhemServer.Drop -> (k < length todo)%nat ->
    (length (kept i todo faults) < length todo)%nat.
Proof.
  induction todo as [|c todo IH]; intros i faults.
  - simpl. split; [lia|]. intros; lia.
  - destruct (IH (i + 1) (tail faults)) as [Hle Hlt]. cbn [kept].
    rewrite length_app. split.
    + destruct (head faults) as [[| |]|]; simpl; lia.
    + intros [|k] Hk Hrange.
      * rewrite <- head_lookup in Hk. rewrite Hk. simpl. lia.
      * rewrite <- lookup_tail in Hk. specialize (Hlt k Hk ltac:(simpl in *; lia)).
        destruct (head faults) as [[| |]|]; simpl; lia.
Qed.

Section mayhem_sessions.
Context `{Hashlib}.
Variable client_id : pystr.
Import MayhemServer MayhemClient.

(** [upload_file] up to its loop, when the server's checksum is the
    local one. *)
Lemma upload_file_after_count (file_data : bytes) ack loads1 loads2 num rest :
  upload_file file_data
    (ack :: Text (sha256_hexdigest file_data) loads1
         :: Text (py_str_int num) loads2 :: rest)
  = finish (sha256_hexdigest file_data) num
      (receive_loop (Z.to_nat (num * 2)) num
         {| chunks := ∅;
            sent := [FileSize (Z.of_nat (length file_data)); FileData file_data; OK];
            incoming := rest; iterations := 0 |}).
Proof.
  unfold upload_file. cbn [pop incoming read_to send decode sent chunks iterations].
  rewrite bool_decide_eq_true_2 by done. cbn [negb].
  unfold packet_int. cbn [decode mbind result_bind].
  rewrite py_int_py_str_int. reflexivity.
Qed.

Lemma split_chunks_concat (file_data : bytes) all :
  split_chunks CHUNK_SIZE file_data = Some all -> concat all = file_data.
Proof.
  rewrite split_chunks_spec by done. intros [= <-].
  by apply concat_all_chunks.
Qed.

(** What the server sends in a session, and what the client replies
    up to its verdict. *)
Lemma handle_client_session (file_data : bytes) all faults pkts rest :
  split_chunks CHUNK_SIZE file_data = Some all ->
  Forall2 says (OK :: chunk_replies 0 all faults) pkts ->
  handle_client client_id file_data faults (pkts ++ rest)
  = let sent := [SendText (sha256_hexdigest file_data);
                 SendText (py_str_int (Z.of_nat (length all)))]
                ++ chunk_messages client_id 0 all faults
                ++ [SendText (py "TRANSFER_COMPLETE")] in
    match decode (pop rest).1 with
    | Raise e => (sent, inr e)
    | Ok result => (sent, inl result)
    end.
Proof.
  intros Hsplit Hpkts. unfold handle_client. rewrite Hsplit.
  apply Forall2_cons_inv_l in Hpkts as (p0 & pkts0 & _ & Hpkts & ->).
  cbn [app pop].
  rewrite (send_chunks_session client_id all all 0%nat faults pkts0 rest eq_refl Hpkts).
  done.
Qed.
End mayhem_sessions.

Section mayhem_transfer.
Context `{Hashlib}.
Variable client_id : pystr.
Import MayhemServer MayhemClient.

(** X14.  A whole Mayhem session in which the server corrupts chunks
    but drops none.  Let the server's messages be its checksum, the
    chunk count, the chunk messages (a chunk sent with the forged
    digest is followed by the same chunk sent intact) and the end
    marker, and the client's replies be [OK] for the count, two [OK]
    for each intact chunk, a request for retransmission where the
    digest was forged, and [SUCCESS].  Then [handle_client], reading
    those replies, sends exactly those messages and reads [SUCCESS]
    as the result; and [upload_file], reading those messages, sends
    exactly those replies and saves the bytes of the file.  No chunk's
    MD5 may be the text [corrupted_checksum], which no MD5 is; the
    file may be empty. *)
Theorem mayhem_session_transfers_the_file (file_data : bytes) all faults :
  split_chunks CHUNK_SIZE file_data = Some all ->
  Forall (fun c => md5_hexdigest c <> py "corrupted_checksum") all ->
  Forall (fun f => f <> Drop) faults ->
  let messages :=
    [SendText (sha256_hexdigest file_data);
     SendText (py_str_int (Z.of_nat (length all)))]
    ++ chunk_messages client_id 0 all faults
    ++ [SendText (py "TRANSFER_COMPLETE")] in
  let replies := OK :: chunk_replies 0 all faults ++ [SUCCESS] in
  (forall from_client,
     Forall2 says replies from_client ->
     handle_client client_id file_data faults from_client
     = (messages, inl (py "SUCCESS"))) /\
  (forall ack from_server,
     Forall2 carries messages from_server ->
     let o := upload_file file_data (ack :: from_server) in
     saved o = Some file_data /\
     sent (final o)
     = FileSize (Z.of_nat (length file_data)) :: FileData file_data :: replies).
Proof.
  intros Hsplit Hmd5 Hfaults messages replies. split.
  - intros from_client Hreplies. unfold replies in Hreplies.
    rewrite app_comm_cons in Hreplies.
    apply Forall2_app_inv_l in Hreplies as (pkts & verdict & Hpkts & Hverdict & ->).
    apply Forall2_cons_inv_l in Hverdict as (p & nothing & Hp & Hnothing & ->).
    apply Forall2_nil_inv_l in Hnothing as ->.
    apply (says_text _ (py "SUCCESS")) in Hp as [loads ->]; [|done].
    by rewrite (handle_client_session client_id file_data all faults pkts _ Hsplit Hpkts).
  - intros ack from_server Hmessages o. unfold o, messages in *. clear o messages.
    apply Forall2_cons_inv_l in Hmessages as (p1 & pkts1 & [loads1 ->] & Hmessages & ->).
    apply Forall2_cons_inv_l in Hmessages as (p2 & pkts2 & [loads2 ->] & Hmessages & ->).
    apply Forall2_app_inv_l in Hmessages as (pkts & marker & Hpkts & Hmarker & ->).
    apply Forall2_cons_inv_l in Hmarker as (p & nothing & [loads ->] & Hnothing & ->).
    apply Forall2_nil_inv_l in Hnothing as ->.
    rewrite upload_file_after_count.
    set (st0 := {| chunks := ∅;
                   sent := [FileSize (Z.of_nat (length file_data));
                            FileData file_data; OK];
                   incoming := pkts ++ [Text (py "TRANSFER_COMPLETE") loads];
                   iterations := 0 |}).
    assert (Hkept : kept 0 all faults = indexed all).
    { rewrite kept_no_drop by done. apply imap_ext. intros k c _. simpl.
      f_equal. }
    assert (Hloop : exists its,
      receive_loop (Z.to_nat (Z.of_nat (length all) * 2)) (Z.of_nat (length all)) st0
      = {| chunks := store_all ∅ (indexed all);
           sent := sent st0 ++ chunk_replies 0 all faults;
           incoming := [Text (py "TRANSFER_COMPLETE") loads];
           iterations := its |}).
    { assert (all = [] \/ all <> []) as [->|Hsome]
        by (destruct all; [by left | by right]).
      - exists 0%nat. apply Forall2_nil_inv_l in Hpkts as ->. done.
      - assert (length (kept 0 all faults) = length all) as Hlen.
        { rewrite Hkept. unfold indexed. by rewrite length_imap. }
        rewrite <- Hkept.
        apply (receive_loop_complete client_id _ all 0 faults _ st0 pkts).
        + done.
        + done.
        + done.
        + intros j _. apply lookup_empty.
        + rewrite Hlen. lia.
        + rewrite Hkept. unfold indexed. by destruct all.
        + rewrite Hlen. simpl. rewrite map_size_empty. lia. }
    destruct Hloop as [its ->].
    erewrite finish_on_complete by reflexivity. cbn [chunks].
    rewrite (reassemble_holds _ all) by (by apply store_all_holds).
    rewrite (split_chunks_concat _ _ Hsplit).
    rewrite bool_decide_eq_true_2 by done.
    split; [done|]. unfold replies. reflexivity.
Qed.
End mayhem_transfer.

Lemma mayhem_session_transfers_the_file_witness :
  let forged := MayhemServer.chunk_data (py "c") 0 (pyb "ab") (py "corrupted_checksum") in
  let intact := MayhemServer.chunk_data (py "c") 0 (pyb "ab") (bytes_hex (pyb "ab")) in
  let from_server :=
    [Text (bytes_hex (pyb "ab")) None; Text (py "1") None;
     Text (py_str_int (Z.of_nat (length (json_dumps forged)))) None;
     json_packet forged;
     Text (py_str_int (Z.of_nat (length (json_dumps intact)))) None;
     json_packet intact;
     Text (py "TRANSFER_COMPLETE") None] in
  let o := MayhemClient.upload_file (H := plain_digests) (pyb "ab")
             (Text (py "OK") None :: from_server) in
  MayhemClient.saved o = Some (pyb "ab") /\
  MayhemClient.sent (MayhemClient.final o)
  = [MayhemClient.FileSize 2; MayhemClient.FileData (pyb "ab"); MayhemClient.OK;
     MayhemClient.OK; MayhemClient.RETRANSMIT (JInt 0);
     MayhemClient.OK; MayhemClient.OK; MayhemClient.SUCCESS].
Proof.
  intros forged intact from_server.
  refine (proj2 (mayhem_session_transfers_the_file (H := plain_digests)
                   (py "c") (pyb "ab") [pyb "ab"] [MayhemServer.Corrupt] _ _ _)
            (Text (py "OK") None) from_server _).
  - reflexivity.
  - constructor; [|constructor]. simpl. discriminate.
  - constructor; [|constructor]. discriminate.
  - repeat (constructor; [first [by eexists | reflexivity]|]). constructor.
Defined.

(** ** A chunk the server drops *)

Lemma store_all_lookup_inv items : forall d k (x : bytes),
  store_all d items !! k = Some x ->
  d !! k = Some x \/ exists i, k = KInt i /\ (i, x) ∈ items.
Proof.
  unfold store_all. induction items as [|[i c] items IH]; intros d k x Hx; [by left|].
  simpl in Hx. apply IH in Hx as [Hx|(j & -> & Hj)].
  - apply lookup_insert_Some in Hx as [[<- <-]|[_ Hx]]; [|by left].
    right. exists i. split; [done|]. by left.
  - right. exists j. split; [done|]. by right.
Qed.

Lemma kept_not_dropped todo : forall (i j : Z) faults (c : bytes),
  (j, c) ∈ kept i todo faults ->
  i <= j /\ faults !! Z.to_nat (j - i) <> Some MayhemServer.Drop.
Proof.
  induction todo as [|x todo IH]; intros i j faults c Hin; [by apply elem_of_nil in Hin|].
  cbn [kept] in Hin. apply elem_of_app in Hin as [Hin|Hin].
  - destruct (head faults) as [[| |]|] eqn:Hhead;
      try (by apply elem_of_nil in Hin);
      apply list_elem_of_singleton in Hin as [= -> ->];
      (split; [lia|]); rewrite Z.sub_diag; simpl;
      rewrite <- head_lookup, Hhead; done.
  - apply IH in Hin as [Hle Hfault]. split; [lia|].
    rewrite lookup_tail in Hfault.
    replace (Z.to_nat (j - i)) with (S (Z.to_nat (j - (i + 1)))) by lia. done.
Qed.

Lemma retransmit_in_replies todo : forall (i j : Z) faults,
  MayhemClient.RETRANSMIT (JInt j) ∈ chunk_replies i todo faults ->
  i <= j /\ faults !! Z.to_nat (j - i) = Some MayhemServer.Corrupt.
Proof.
  induction todo as [|x todo IH]; intros i j faults Hin; [by apply elem_of_nil in Hin|].
  cbn [chunk_replies] in Hin. apply elem_of_app in Hin as [Hin|Hin].
  - destruct (head faults) as [[| |]|] eqn:Hhead;
      repeat (apply elem_of_cons in Hin as [Hin|Hin]; [try discriminate|]);
      try (by apply elem_of_nil in Hin).
    injection Hin as ->. split; [lia|].
    by rewrite Z.sub_diag, <- head_lookup.
  - apply IH in Hin as [Hle Hfault]. split; [lia|].
    rewrite lookup_tail in Hfault.
    replace (Z.to_nat (j - i)) with (S (Z.to_nat (j - (i + 1)))) by lia. done.
Qed.

Section mayhem_drop.
Context `{Hashlib}.
Variable client_id : pystr.
Import MayhemServer MayhemClient.

Lemma receive_one_end_marker num st loads rest :
  incoming st = Text (py "TRANSFER_COMPLETE") loads :: rest ->
  receive_one num st = (read_to (begin_iteration st) rest, Break).
Proof. intros Hin. unfold receive_one. simpl. by rewrite Hin. Qed.

(** X15.  A chunk the server drops is never recovered.  In a session in
    which the fault drawn for some chunk is [drop], the server goes on
    to the next chunk and ends with the end marker, as if all had been
    sent.  The client never holds the dropped chunk and never asks for
    it: short of the announced count, it takes the end marker for a
    chunk length inside its loop and leaves the loop; what it reads
    afterwards is not the end marker any more (the server is waiting
    for the verdict, or has gone), so it reports [ERROR] and saves
    nothing, although every chunk that did arrive was intact. *)
Theorem mayhem_dropped_chunk_is_not_recovered (file_data : bytes) all faults
    (dropped : nat) :
  split_chunks CHUNK_SIZE file_data = Some all ->
  Forall (fun c => md5_hexdigest c <> py "corrupted_checksum") all ->
  faults !! dropped = Some Drop ->
  (dropped < length all)%nat ->
  let messages :=
    [SendText (sha256_hexdigest file_data);
     SendText (py_str_int (Z.of_nat (length all)))]
    ++ chunk_messages client_id 0 all faults
    ++ [SendText (py "TRANSFER_COMPLETE")] in
  let replies := OK :: chunk_replies 0 all faults in
  (forall from_client rest,
     Forall2 says replies from_client ->
     (handle_client client_id file_data faults (from_client ++ rest)).1 = messages) /\
  (forall ack from_server rest,
     Forall2 carries messages from_server ->
     packet_is (pop rest).1 (py "TRANSFER_COMPLETE") = false ->
     let o := upload_file file_data (ack :: from_server ++ rest) in
     saved o = None /\
     sent (final o)
     = FileSize (Z.of_nat (length file_data))
       :: FileData file_data :: (replies ++ [ERROR]) /\
     (RETRANSMIT (JInt (Z.of_nat dropped)) ∉ sent (final o)) /\
     chunks (final o) !! KInt (Z.of_nat dropped) = None).
Proof.
  intros Hsplit Hmd5 Hdropped Hrange messages replies. split.
  - intros from_client rest Hreplies.
    rewrite (handle_client_session client_id file_data all faults _ _ Hsplit Hreplies).
    simpl. by destruct (decode (pop rest).1).
  - intros ack from_server rest Hmessages Hnext o. unfold o, messages in *.
    clear o messages.
    apply Forall2_cons_inv_l in Hmessages as (p1 & pkts1 & [loads1 ->] & Hmessages & ->).
    apply Forall2_cons_inv_l in Hmessages as (p2 & pkts2 & [loads2 ->] & Hmessages & ->).
    apply Forall2_app_inv_l in Hmessages as (pkts & marker & Hpkts & Hmarker & ->).
    apply Forall2_cons_inv_l in Hmarker as (p & nothing & [loads ->] & Hnothing & ->).
    apply Forall2_nil_inv_l in Hnothing as ->.
    cbn [app]. rewrite <- !app_assoc. cbn [app].
    rewrite upload_file_after_count.
    set (st0 := {| chunks := ∅;
                   sent := [FileSize (Z.of_nat (length file_data));
                            FileData file_data; OK];
                   incoming := pkts ++ Text (py "TRANSFER_COMPLETE") loads :: rest;
                   iterations := 0 |}).
    destruct (kept_length all 0 faults) as [_ Hshort].
    specialize (Hshort dropped Hdropped Hrange).
    destruct (receive_loop_incomplete client_id (Z.of_nat (length all)) all 0 faults
                (Z.to_nat (Z.of_nat (length all) * 2)) st0 pkts
                (Text (py "TRANSFER_COMPLETE") loads :: rest))
      as (used & its & Hused & ->).
    + done.
    + done.
    + done.
    + intros j _. apply lookup_empty.
    + lia.
    + simpl. rewrite map_size_empty. lia.
    + destruct (Z.to_nat (Z.of_nat (length all) * 2) - used)%nat as [|n] eqn:Hleft;
        [lia|].
      cbn [receive_loop]. erewrite receive_one_end_marker by reflexivity.
      rewrite finish_on_other by done.
      cbn [saved final send read_to begin_iteration sent chunks incoming]. 
      split; [done|]. split; [|split].
      * reflexivity.
      * intros Hin.
        apply elem_of_app in Hin as [Hin|Hin];
          [apply elem_of_app in Hin as [Hin|Hin]|].
        -- repeat (apply elem_of_cons in Hin as [Hin|Hin]; [discriminate|]).
           by apply elem_of_nil in Hin.
        -- apply retransmit_in_replies in Hin as [_ Hin].
           rewrite Z.sub_0_r, Nat2Z.id in Hin. congruence.
        -- apply list_elem_of_singleton in Hin. discriminate.
      * destruct (store_all ∅ (kept 0 all faults) !! KInt (Z.of_nat dropped))
          as [x|] eqn:Hx; [|done].
        apply store_all_lookup_inv in Hx as [Hx|(j & [= <-] & Hj)];
          [by rewrite lookup_empty in Hx|].
        apply kept_not_dropped in Hj as [_ Hj].
        rewrite Z.sub_0_r, Nat2Z.id in Hj. done.
Qed.
End mayhem_drop.

Lemma mayhem_dropped_chunk_is_not_recovered_witness :
  let from_server :=
    [Text (bytes_hex (pyb "ab")) None; Text (py "1") None;
     Text (py "TRANSFER_COMPLETE") None] in
  let o := MayhemClient.upload_file (H := plain_digests) (pyb "ab")
             (Text (py "OK") None :: from_server ++ []) in
  MayhemClient.saved o = None /\
  MayhemClient.sent (MayhemClient.final o)
  = [MayhemClient.FileSize 2; MayhemClient.FileData (pyb "ab"); MayhemClient.OK;
     MayhemClient.ERROR] /\
  (MayhemClient.RETRANSMIT (JInt 0) ∉ MayhemClient.sent (MayhemClient.final o)) /\
  MayhemClient.chunks (MayhemClient.final o) !! KInt 0 = None.
Proof.
  intros from_server.
  refine (proj2 (mayhem_dropped_chunk_is_not_recovered (H := plain_digests)
                   (py "c") (pyb "ab") [pyb "ab"] [MayhemServer.Drop] 0 _ _ _ _)
            (Text (py "OK") None) from_server [] _ _).
  - reflexivity.
  - constructor; [|constructor]. simpl. discriminate.
  - reflexivity.
  - simpl. lia.
  - repeat (constructor; [first [by eexists | reflexivity]|]). constructor.
  - reflexivity.
Defined.

(** ** The oracle of the Mayhem tests *)

(** X16.  The oracle of the Mayhem test suite and the client's own
    check are one test.  [calculate_checksum] of the tests, which
    reads 4096 bytes at a time, returns the SHA-256 of the whole file;
    [verify_file_transfer] therefore compares the SHA-256 digests of
    the two files and nothing else; and every file that [upload_file]
    saves, in whatever session, passes it against the file
    uploaded. *)
Theorem test_oracle_accepts_what_the_client_saves `{Hashlib} :
  (forall file, MayhemTest.calculate_checksum file = Some (sha256_hexdigest file)) /\
  (forall original received,
     MayhemTest.verify_file_transfer original received
     = Some (bool_decide (sha256_hexdigest original = sha256_hexdigest received))) /\
  (forall file_data incoming received,
     MayhemClient.saved (MayhemClient.upload_file file_data incoming)
     = Some received ->
     MayhemTest.verify_file_transfer file_data received = Some true).
Proof.
  assert (Hsum : forall file,
    MayhemTest.calculate_checksum file = Some (sha256_hexdigest file)).
  { intros file. unfold MayhemTest.calculate_checksum.
    rewrite update_from_file_spec by (done || lia). done. }
  assert (Hverify : forall original received,
    MayhemTest.verify_file_transfer original received
    = Some (bool_decide (sha256_hexdigest original = sha256_hexdigest received))).
  { intros original received. unfold MayhemTest.verify_file_transfer.
    by rewrite !Hsum. }
  split; [done|]. split; [done|].
  intros file_data incoming received Hsaved. rewrite Hverify.
  destruct (upload_file_verdict file_data incoming) as [_ Hdigest].
  destruct (Hdigest received Hsaved) as [Hsame _].
  by rewrite bool_decide_eq_true_2.
Qed.

Lemma test_oracle_accepts_what_the_client_saves_witness :
  MayhemTest.verify_file_transfer (H := plain_digests) (pyb "ab") (pyb "ab")
  = Some true.
Proof.
  apply (proj2 (proj2 (test_oracle_accepts_what_the_client_saves (H := plain_digests)))
           (pyb "ab") whole_file_in_chunk_0 (pyb "ab")).
  reflexivity.
Defined.

(** ** The request loop of the first_task server *)

Section first_task_dispatch.
Context `{Hashlib}.
Variable chunk_size : Z.
Variable shuffle : list (Z * bytes) -> list (Z * bytes).
Variable str : json -> pystr.
Import FirstTaskServer.

Lemma handle_upload_answers faults request :
  responses (handle_upload chunk_size shuffle faults request) <> [].
Proof.
  unfold handle_upload.
  destruct (dict_get_or_empty request (py "file_path")) as [file_path|e],
    (dict_get_or_empty request (py "file_data")) as [file_data|e']; try done.
  destruct (negb (truthy file_path) || negb (truthy file_data)); [done|].
  destruct file_path as [| | |file_name| |]; try done.
  destruct file_data as [| | |text| |]; try done.
  destruct (latin1_encode text) as [content|]; [|done].
  by destruct (split_file chunk_size content).
Qed.

(** X17.  The request loop of [handle_client].  What follows a
    ['disconnect'] request is never read; the loop leaves through its
    [break] only when such a request has been received, every other
    way out being an exception; and an upload request is always
    answered by at least one response, after which the loop goes on
    with the next request. *)
Theorem handle_client_serves_until_disconnect :
  (forall before after faults,
     handle_client chunk_size shuffle str
       (before ++ Request FirstTaskClient.disconnect_request :: after) faults
     = handle_client chunk_size shuffle str
         (before ++ [Request FirstTaskClient.disconnect_request]) faults) /\
  (forall requests faults out,
     handle_client chunk_size shuffle str requests faults = (out, Disconnected) ->
     exists request,
       Request request ∈ requests /\
       dict_get request (py "command") = Ok (JStr (py "disconnect"))) /\
  (forall request rest faults,
     dict_get request (py "command") = Ok (JStr (py "upload")) ->
     exists answer,
       answer <> [] /\
       handle_client chunk_size shuffle str (Request request :: rest) faults
       = ((answer ++ (handle_client chunk_size shuffle str rest (tail faults)).1),
          (handle_client chunk_size shuffle str rest (tail faults)).2)).
Proof.
  split; [|split].
  - induction before as [|r before IH]; intros after faults.
    + reflexivity.
    + simpl. destruct r as [request|]; [|done].
      destruct (dict_get request (py "command")) as [command|e]; [|done].
      destruct (json_is_str command (py "upload")).
      * by rewrite IH.
      * destruct (json_is_str command (py "disconnect")); [done|].
        by rewrite IH.
  - induction requests as [|r requests IH]; intros faults out Hend; [done|].
    simpl in Hend. destruct r as [request|]; [|done].
    destruct (dict_get request (py "command")) as [command|e] eqn:Hcommand; [|done].
    destruct (json_is_str command (py "upload")).
    + destruct (handle_client chunk_size shuffle str requests (tail faults))
        as [out' ended] eqn:Hrest.
      injection Hend as _ ->.
      destruct (IH _ _ Hrest) as (request' & Hin & Hdisconnect).
      exists request'. split; [by right | done].
    + destruct (json_is_str command (py "disconnect")) eqn:Hdisconnect.
      * apply json_is_str_true in Hdisconnect as ->.
        exists request. split; [by left | done].
      * destruct (handle_client chunk_size shuffle str requests faults)
          as [out' ended] eqn:Hrest.
        injection Hend as _ ->.
        destruct (IH _ _ Hrest) as (request' & Hin & Hdisconnect').
        exists request'. split; [by right | done].
  - intros request rest faults Hcommand.
    exists (responses (handle_upload chunk_size shuffle (default [] (head faults))
                         request)).
    split; [apply handle_upload_answers|].
    simpl. rewrite Hcommand. simpl.
    by destruct (handle_client chunk_size shuffle str rest (tail faults)).
Qed.
End first_task_dispatch.

Lemma handle_client_serves_until_disconnect_witness :
  exists request,
    FirstTaskServer.Request request
    ∈ [FirstTaskServer.Request (FirstTaskClient.upload_request (py "f") (pyb "a"));
       FirstTaskServer.Request FirstTaskClient.disconnect_request] /\
    dict_get request (py "command") = Ok (JStr (py "disconnect")).
Proof.
  eapply (proj1 (proj2 (handle_client_serves_until_disconnect (H := plain_digests)
                          1024 reverse (fun _ => []))) _ []).
  reflexivity.
Defined.

(** ** The demo: client and server of first_task in one run *)

Section demo_run.
Context `{Hashlib}.
Import FirstTaskServer FirstTaskClient.


End demo_run.


(** ** The Mayhem client before its loop *)

(** X19.  The Mayhem client gives up without a word.  When the
    checksum the server sends after the upload is not the SHA-256 the
    client computes itself (or is not text at all), and when the chunk
    count that follows a matching checksum cannot be read as a number,
    [upload_file] stops there: it has sent the file size and the file
    and sends nothing more, no error notice either, reads no further
    message and saves no file. *)
Theorem mayhem_client_stops_without_a_word `{Hashlib} (file_data : bytes)
    (ack : packet) :
  let stopped rest :=
    {| MayhemClient.final :=
         {| MayhemClient.chunks := ∅;
            MayhemClient.sent :=
              [MayhemClient.FileSize (Z.of_nat (length file_data));
               MayhemClient.FileData file_data];
            MayhemClient.incoming := rest;
            MayhemClient.iterations := 0 |};
       MayhemClient.saved := None |} in
  (forall checksum_packet rest,
     decode checksum_packet <> Ok (sha256_hexdigest file_data) ->
     MayhemClient.upload_file file_data (ack :: checksum_packet :: rest)
     = stopped rest) /\
  (forall loads count_packet rest,
     (forall num_chunks, packet_int count_packet <> Ok num_chunks) ->
     MayhemClient.upload_file file_data
       (ack :: Text (sha256_hexdigest file_data) loads :: count_packet :: rest)
     = stopped rest).
Proof.
  intros stopped. split.
  - intros checksum_packet rest Hsum. unfold MayhemClient.upload_file. simpl.
    destruct (decode checksum_packet) as [server_checksum|e]; [|done].
    rewrite bool_decide_eq_false_2 by congruence. done.
  - intros loads count_packet rest Hcount. unfold MayhemClient.upload_file. simpl.
    rewrite bool_decide_eq_true_2 by done. simpl.
    destruct (packet_int count_packet) as [num_chunks|e] eqn:Hread; [|done].
    by destruct (Hcount num_chunks).
Qed.

Lemma mayhem_client_stops_without_a_word_witness :
  MayhemClient.upload_file (H := plain_digests) (pyb "ab")
    [Text (py "OK") None; Text (py "6261") None; Text (py "1") None]
  = {| MayhemClient.final :=
         {| MayhemClient.chunks := ∅;
            MayhemClient.sent :=
              [MayhemClient.FileSize 2; MayhemClient.FileData (pyb "ab")];
            MayhemClient.incoming := [Text (py "1") None];
            MayhemClient.iterations := 0 |};
       MayhemClient.saved := None |}.
Proof.
  apply (proj1 (mayhem_client_stops_without_a_word (H := plain_digests)
                  (pyb "ab") (Text (py "OK") None))).
  simpl. discriminate.
Defined.
